(** * ContainerServiceHelper: provisioning, tunnelling and Marathon deployment

    A shallow embedding of [deployers/helpers/container_helper.py].

    The helper talks to three outside parties: the Azure container-service
    client, the SSH machinery (a forwarding tunnel and an [ssh] subprocess) and
    Marathon's REST interface behind the tunnel.  They are modelled by an
    environment [Env] of scripted replies; the code itself is written in a
    small state-and-exception monad over a [World] that records every
    interaction and the live resources (open tunnels, running subprocesses). *)

From Stdlib Require Import ZArith QArith Ascii String List Lia.
From stdpp Require Import base option list strings gmap pretty.

Set Warnings "-register-all".
Local Open Scope string_scope.
Local Open Scope Z_scope.
Local Open Scope list_scope.

(** ** Python strings *)

Module PyStr.

(** [s.split(sep)] for a one-character separator: the list is never empty,
    an empty string gives one empty field. *)
Fixpoint split (sep : ascii) (s : string) : list string :=
  match s with
  | EmptyString => [EmptyString]
  | String c rest =>
      if Ascii.eqb c sep then EmptyString :: split sep rest
      else match split sep rest with
           | field :: fields => String c field :: fields
           | [] => [String c EmptyString]
           end
  end.

(** [c in s] for a character. *)
Fixpoint contains_char (c : ascii) (s : string) : bool :=
  match s with
  | EmptyString => false
  | String d rest => Ascii.eqb d c || contains_char c rest
  end.

(** [s.startswith(p)] *)
Fixpoint startswith (p s : string) : bool :=
  match p, s with
  | EmptyString, _ => true
  | String a p', String b s' => Ascii.eqb a b && startswith p' s'
  | String _ _, EmptyString => false
  end.

(** [p in s] for strings: [p] occurs at some position of [s]. *)
Fixpoint contains (p s : string) : bool :=
  startswith p s ||
  match s with
  | EmptyString => false
  | String _ s' => contains p s'
  end.

(** [s.endswith("/")] *)
Fixpoint ends_with_slash (s : string) : bool :=
  match s with
  | EmptyString => false
  | String c EmptyString => Ascii.eqb c "/"
  | String _ rest => ends_with_slash rest
  end.

(** [' '.join(words)] *)
Fixpoint join (sep : string) (words : list string) : string :=
  match words with
  | [] => EmptyString
  | [w] => w
  | w :: ws => w +:+ sep +:+ join sep ws
  end.

(** [os.path.join(a, b)] on POSIX for a relative second component. *)
Definition path_join (a b : string) : string :=
  match a with
  | EmptyString => b
  | _ => if ends_with_slash a then a +:+ b else a +:+ "/" +:+ b
  end.

(** [str(n)] for an integer. *)
Definition str_int (n : Z) : string := pretty n.

End PyStr.

(** ** JSON values, as [json.loads] and [requests] produce and consume them *)

Inductive json : Type :=
| JNull
| JBool (b : bool)
| JInt (n : Z)
| JReal (q : Q)
| JStr (s : string)
| JArr (items : list json)
| JObj (fields : gmap string json).

(** Python truth value of a decoded JSON document. *)
Definition truthy (j : json) : bool :=
  match j with
  | JNull => false
  | JBool b => b
  | JInt n => negb (n =? 0)
  | JReal q => negb (Qeq_bool q 0)
  | JStr s => negb (String.eqb s EmptyString)
  | JArr items => match items with [] => false | _ :: _ => true end
  | JObj fields => negb (bool_decide (fields = ∅))
  end.

(** ** The helper object and its collaborators *)

(** The resource helper is given to [__init__] from outside; its group is
    taken as already resolved, a name and a location. *)
Record ResourceGroup := { group_name : string; group_location : string }.

Record ResourceHelper := { group : ResourceGroup }.

Record StorageHelper := { default_share : string }.

Record ContainerRegistryHelper := {
  storage : StorageHelper;
  credentials_file_name : string
}.

(** The immutable attributes set by [__init__]; the mutable attribute
    [_container_service] lives in the [World] below. *)
Record ContainerServiceHelper := {
  resources : ResourceHelper;
  name : string;
  docker_tag : string
}.

(** ** The pure part: the Marathon deployment request *)

Section DeployParams.

Variable self : ContainerServiceHelper.

(** [self.docker_tag.split('/')[-1]]; the index cannot be out of range
    because [split] never returns an empty list ([split_not_nil]). *)
Definition deployment_id : string :=
  match last (PyStr.split "/" (docker_tag self)) with
  | Some segment => segment
  | None => EmptyString
  end.

Definition port_mapping : json :=
  JObj (<["hostPort" := JInt 80]>
       (<["containerPort" := JInt 80]>
       (<["protocol" := JStr "tcp"]> ∅))).

Definition marathon_deploy_params
    (private_registry_helper : option ContainerRegistryHelper)
    : gmap string json :=
  let params : gmap string json :=
    <["id" := JStr deployment_id]>
    (<["container" :=
         JObj (<["type" := JStr "DOCKER"]>
              (<["docker" :=
                   JObj (<["image" := JStr (docker_tag self)]>
                        (<["network" := JStr "BRIDGE"]>
                        (<["portMappings" := JArr [port_mapping]]> ∅)))]> ∅))]>
    (<["acceptedResourceRoles" := JArr [JStr "slave_public"]]>
    (<["instances" := JInt 1]>
    (<["cpus" := JReal (1 # 10)]>
    (<["mem" := JInt 64]> ∅))))) in
  match private_registry_helper with
  | Some registry =>
      <["uris" :=
          JArr [JStr ("file:///mnt/" +:+ default_share (storage registry)
                      +:+ "/" +:+ credentials_file_name registry)]]> params
  | None => params
  end.

End DeployParams.

(** ** Azure container-service models (the fields this helper sets or reads) *)

Record ContainerServiceMasterProfile := {
  master_dns_prefix : string;
  master_count : Z;
  fqdn : option string          (* filled in by the service, [None] in a request *)
}.

Record ContainerServiceAgentPoolProfile := {
  agent_name : string;
  agent_count : Z;
  vm_size : string;
  agent_dns_prefix : string
}.

Record ContainerServiceSshPublicKey := { key_data : string }.

Record ContainerServiceSshConfiguration := {
  public_keys : list ContainerServiceSshPublicKey
}.

Record ContainerServiceLinuxProfile := {
  admin_username : string;
  ssh : ContainerServiceSshConfiguration
}.

Record ContainerServiceOrchestratorProfile := { orchestrator_type : string }.

Record ContainerService := {
  location : string;
  master_profile : ContainerServiceMasterProfile;
  agent_pool_profiles : list ContainerServiceAgentPoolProfile;
  linux_profile : ContainerServiceLinuxProfile;
  orchestrator_profile : ContainerServiceOrchestratorProfile
}.

(** ** Exceptions and replies *)

Inductive exn : Type :=
| CloudError (status_code : Z)
| HandlerSSHTunnelForwarderError
| CalledProcessError
| KeyError (key : string)
| IOError (path : string)
| TypeError
| ValueError
| AttributeError
| KeyboardInterrupt
| SystemExit (code : Z)
| OtherException (class_name : string).

(** What a collaborator answers to one call. *)
Inductive reply (A : Type) : Type :=
| Returns (a : A)
| Raises (e : exn).
Arguments Returns {A} a.
Arguments Raises {A} e.

(** The long-running operation handed back by [create_or_update]; [result()]
    blocks until the service has decided. *)
Record AzureOperationPoller := { operation_result : reply ContainerService }.

(** A [requests] response: the status line and what [.json()] makes of the
    body ([None]: the body is not JSON and [.json()] raises [ValueError]). *)
Record Response := { status_code : Z; body : option json }.

(** What [start()] of the forwarder comes to.  The forwarder belongs to the
    sshtunnel library, not to this repository, so the environment decides:
    either the gateway session and the forward are up, or [start()] raises and
    the environment says whether a transport was already up by then.  In the
    library a gateway that refuses the session raises the base class
    [BaseSSHTunnelForwarderError] with nothing up, and a forward that cannot
    be opened raises [HandlerSSHTunnelForwarderError] with the gateway session
    up; Ctrl-C can arrive at either stage. *)
Inductive start_reply : Type :=
| Started
| StartRaises (e : exn) (transport_up : bool).

(** Keyword arguments of [SSHTunnelForwarder]. *)
Record TunnelArgs := {
  ssh_address_or_host : option string * Z;
  ssh_username : string;
  remote_bind_address : string * Z;
  local_bind_address : string * Z;
  ssh_pkey : string
}.

(** The forwarder object the [with] statement holds on to, and what its
    [__enter__] handed back for the [as] name ([None] when [__enter__] ended
    without a [return]). *)
Record Forwarder := {
  forwarder_args : TunnelArgs;
  transport_active : bool;
  entered_as : option TunnelArgs
}.

Record Popen := { pid : nat; popen_args : list string }.

(** ** Observable interactions *)

Inductive event : Type :=
| EvHaikunate
| EvOpenFile (path : string)
| EvGet (resource_group_name container_service_name : string)
| EvCreateOrUpdate (resource_group_name container_service_name : string)
                   (parameters : ContainerService)
| EvResult
| EvTunnelStart (args : TunnelArgs)
| EvTunnelStop
| EvPost (url : string) (payload : json)
| EvHttpGet (url : string)
| EvSleep (seconds : Z)
| EvPopen (cmd : list string)
| EvTerminate (proc : Popen)
| EvPrint (line : string)
| EvPrintValue (label : string) (value : json)
| EvPrintExc (e : exn).

Definition is_haikunate (e : event) : bool :=
  match e with EvHaikunate => true | _ => false end.
Definition is_get (e : event) : bool :=
  match e with EvGet _ _ => true | _ => false end.
Definition is_create (e : event) : bool :=
  match e with EvCreateOrUpdate _ _ _ => true | _ => false end.
Definition is_tunnel_start (e : event) : bool :=
  match e with EvTunnelStart _ => true | _ => false end.
Definition is_post (e : event) : bool :=
  match e with EvPost _ _ => true | _ => false end.
Definition is_http_get (e : event) : bool :=
  match e with EvHttpGet _ => true | _ => false end.
Definition is_sleep (e : event) : bool :=
  match e with EvSleep _ => true | _ => false end.
Definition is_popen (e : event) : bool :=
  match e with EvPopen _ => true | _ => false end.

(** Number of events of one kind in a trace. *)
Definition count (kind : event -> bool) (tr : list event) : nat :=
  length (List.filter kind tr).

(** The lines written with [print]. *)
Definition printed (tr : list event) : list string :=
  omap (fun e => match e with EvPrint line => Some line | _ => None end) tr.

(** ** The environment: how the outside world answers

    Every reply may depend on how many calls of the same kind came before, so
    that a service can fail first and succeed later, or a deployment list can
    drain. *)
Record Env := {
  environ_HOME : option string;
  haikunate : nat -> string;
  read_file : string -> reply string;
  container_services_get : nat -> string -> string -> reply ContainerService;
  container_services_create_or_update :
    nat -> string -> string -> ContainerService -> reply AzureOperationPoller;
  tunnel_start : nat -> TunnelArgs -> start_reply;
  requests_post : nat -> string -> json -> reply Response;
  requests_get : nat -> string -> reply Response;
  time_sleep : nat -> Z -> reply unit;
  subprocess_Popen : nat -> list string -> reply unit
}.

(** ** The world: the helper's mutable attribute, the history, the resources *)

Record World := {
  _container_service : option ContainerService;
  trace : list event;
  open_tunnels : nat;
  running : list Popen
}.

Definition log (e : event) (w : World) : World :=
  {| _container_service := _container_service w;
     trace := trace w ++ [e];
     open_tunnels := open_tunnels w;
     running := running w |}.

Definition set__container_service (cs : ContainerService) (w : World) : World :=
  {| _container_service := Some cs;
     trace := trace w;
     open_tunnels := open_tunnels w;
     running := running w |}.

Definition tunnel_opened (w : World) : World :=
  {| _container_service := _container_service w;
     trace := trace w;
     open_tunnels := S (open_tunnels w);
     running := running w |}.

Definition tunnel_closed (w : World) : World :=
  {| _container_service := _container_service w;
     trace := trace w;
     open_tunnels := Nat.pred (open_tunnels w);
     running := running w |}.

Definition proc_eqb (p q : Popen) : bool := Nat.eqb (pid p) (pid q).

Definition spawned (p : Popen) (w : World) : World :=
  {| _container_service := _container_service w;
     trace := trace w;
     open_tunnels := open_tunnels w;
     running := p :: running w |}.

Definition reaped (p : Popen) (w : World) : World :=
  {| _container_service := _container_service w;
     trace := trace w;
     open_tunnels := open_tunnels w;
     running := List.filter (fun q => negb (proc_eqb p q)) (running w) |}.

(** A helper fresh from [__init__]: nothing cached, nothing open. *)
Definition fresh : World :=
  {| _container_service := None; trace := []; open_tunnels := 0%nat; running := [] |}.

(** ** The monad: state, exceptions, and fuel for the one unbounded loop *)

Inductive outcome (A : Type) : Type :=
| Ok (a : A)
| Raise (e : exn)
| OutOfFuel.
Arguments Ok {A} a.
Arguments Raise {A} e.
Arguments OutOfFuel {A}.

Definition M (A : Type) : Type := World -> outcome A * World.

Definition ret {A} (a : A) : M A := fun w => (Ok a, w).

Definition bind {A B} (m : M A) (k : A -> M B) : M B :=
  fun w =>
    match m w with
    | (Ok a, w') => k a w'
    | (Raise e, w') => (Raise e, w')
    | (OutOfFuel, w') => (OutOfFuel, w')
    end.

Definition raise {A} (e : exn) : M A := fun w => (Raise e, w).

Definition out_of_fuel {A} : M A := fun w => (OutOfFuel, w).

Declare Scope py_scope.
Delimit Scope py_scope with py.
Notation "x <- m ;; k" := (bind m (fun x => k))
  (at level 100, m at next level, right associativity) : py_scope.
Notation "m ;; k" := (bind m (fun _ => k))
  (at level 100, right associativity) : py_scope.
Local Open Scope py_scope.

Definition emit (e : event) : M unit := fun w => (Ok tt, log e w).

Definition print (line : string) : M unit := emit (EvPrint line).

Definition of_reply {A} (r : reply A) : M A :=
  match r with
  | Returns a => ret a
  | Raises e => raise e
  end.

(** [try: m except <class>: handler] *)
Definition try_except {A} (m : M A) (caught : exn -> bool) (handler : exn -> M A)
    : M A :=
  fun w =>
    match m w with
    | (Raise e, w') => if caught e then handler e w' else (Raise e, w')
    | other => other
    end.

(** [with manager as r: body] for a manager object whose [__exit__] returns a
    false value: [__exit__] runs however the body ends, and an exception of the
    body is raised again after it. *)
Definition with_object {R A} (enter : M R) (exit : R -> M unit) (body : R -> M A)
    : M A :=
  r <- enter ;;
  fun w =>
    match body r w with
    | (Ok a, w') => (exit r ;; ret a) w'
    | (Raise e, w') => (exit r ;; raise e) w'
    | (OutOfFuel, w') => (OutOfFuel, w')
    end.

(** [with manager as r: body] for a [@contextmanager] generator whose single
    [yield] stands outside every [try]: [__enter__] runs the generator up to
    the [yield]; on a normal end of the body [__exit__] resumes it with
    [next], so the code after the [yield] runs; on an exception of the body
    [__exit__] throws it into the generator at the [yield], where no handler
    and no [finally] encloses it, so it leaves the generator at once, the code
    after the [yield] is skipped, and the exception goes on to the caller. *)
Definition with_generator {R A} (before : M R) (after : R -> M unit)
    (body : R -> M A) : M A :=
  r <- before ;;
  fun w =>
    match body r w with
    | (Ok a, w') => (after r ;; ret a) w'
    | (Raise e, w') => (Raise e, w')
    | (OutOfFuel, w') => (OutOfFuel, w')
    end.

Definition is_CloudError (e : exn) : bool :=
  match e with CloudError _ => true | _ => false end.
Definition is_HandlerSSHTunnelForwarderError (e : exn) : bool :=
  match e with HandlerSSHTunnelForwarderError => true | _ => false end.
Definition is_CalledProcessError (e : exn) : bool :=
  match e with CalledProcessError => true | _ => false end.
Definition is_KeyboardInterrupt (e : exn) : bool :=
  match e with KeyboardInterrupt => true | _ => false end.

(** ** Truth values and JSON access as Python performs them *)

(** [str(x)] for a value that may be [None]. *)
Definition str_opt (x : option string) : string :=
  match x with
  | Some s => s
  | None => "None"
  end.

(** [key in content] *)
Definition py_in (key : string) (content : json) : M bool :=
  match content with
  | JObj fields => ret (bool_decide (is_Some (fields !! key)))
  | JArr items =>
      ret (existsb (fun item => match item with
                                | JStr s => String.eqb s key
                                | _ => false
                                end) items)
  | JStr s => ret (PyStr.contains key s)
  | JNull | JBool _ | JInt _ | JReal _ => raise TypeError
  end.

(** [content[key]] for a string key *)
Definition py_getitem (content : json) (key : string) : M json :=
  match content with
  | JObj fields =>
      match fields !! key with
      | Some v => ret v
      | None => raise (KeyError key)
      end
  | _ => raise TypeError
  end.

(** [response.json()] *)
Definition response_json (response : Response) : M json :=
  match body response with
  | Some j => ret j
  | None => raise ValueError
  end.

(** ** The helper's methods *)

Section Helper.

Variable env : Env.
Variable self : ContainerServiceHelper.

(** *** Calls to collaborators: log the call, then take the environment's
    reply for this call number *)

Definition Haikunator_haikunate : M string :=
  fun w => (Ok (haikunate env (count is_haikunate (trace w))), log EvHaikunate w).

Definition container_ops_get (resource_group_name container_service_name : string)
    : M ContainerService :=
  fun w =>
    of_reply
      (container_services_get env (count is_get (trace w))
         resource_group_name container_service_name)
      (log (EvGet resource_group_name container_service_name) w).

Definition container_ops_create_or_update
    (resource_group_name container_service_name : string)
    (parameters : ContainerService) : M AzureOperationPoller :=
  fun w =>
    of_reply
      (container_services_create_or_update env (count is_create (trace w))
         resource_group_name container_service_name parameters)
      (log (EvCreateOrUpdate resource_group_name container_service_name parameters) w).

Definition poller_result (poller : AzureOperationPoller) : M ContainerService :=
  emit EvResult ;; of_reply (operation_result poller).

Definition io_open_read (path : string) : M string :=
  emit (EvOpenFile path) ;; of_reply (read_file env path).

Definition requests_post_json (url : string) (payload : json) : M Response :=
  fun w =>
    of_reply (requests_post env (count is_post (trace w)) url payload)
             (log (EvPost url payload) w).

Definition requests_get_url (url : string) : M Response :=
  fun w =>
    of_reply (requests_get env (count is_http_get (trace w)) url)
             (log (EvHttpGet url) w).

Definition sleep (seconds : Z) : M unit :=
  fun w =>
    of_reply (time_sleep env (count is_sleep (trace w)) seconds)
             (log (EvSleep seconds) w).

Definition sys_exit {A} (code : Z) : M A := raise (SystemExit code).

(** *** [get_key_path] and [_get_ssh_config] *)

Definition get_key_path : M string :=
  match environ_HOME env with
  | Some home => ret (PyStr.path_join (PyStr.path_join home ".ssh") "id_rsa")
  | None => raise (KeyError "HOME")
  end.

Definition _get_ssh_config (key_path : option string)
    : M ContainerServiceSshConfiguration :=
  key_path <- match key_path with
              | Some p => if String.eqb p EmptyString
                          then (k <- get_key_path ;; ret (k +:+ ".pub"))
                          else ret p
              | None => k <- get_key_path ;; ret (k +:+ ".pub")
              end ;;
  key <- io_open_read key_path ;;
  ret {| public_keys := [ {| key_data := key |} ] |}.

(** *** The [container_service] property *)

(** The request built in the [except CloudError] branch. *)
Definition creation_request (dns_prefix : string)
    (ssh_config : ContainerServiceSshConfiguration) : ContainerService :=
  {| location := group_location (group (resources self));
     master_profile :=
       {| master_dns_prefix := dns_prefix;
          master_count := 1;
          fqdn := None |};
     agent_pool_profiles :=
       [ {| agent_name := name self;
            agent_count := 1;
            vm_size := "Standard_D1_v2";
            agent_dns_prefix := dns_prefix +:+ "-agent" |} ];
     linux_profile :=
       {| admin_username := name self; ssh := ssh_config |};
     orchestrator_profile := {| orchestrator_type := "DCOS" |} |}.

(** The body of [if self._container_service is None]: the [try] with its
    [except CloudError] branch; both store what they obtain. *)
Definition fetch_or_create (dns_prefix : string) : M ContainerService :=
  try_except
    (found <- container_ops_get (group_name (group (resources self))) (name self) ;;
     fun w => (Ok found, set__container_service found w))
    is_CloudError
    (fun _ =>
       ssh_config <- _get_ssh_config None ;;
       let container_service := creation_request dns_prefix ssh_config in
       container_service_creation <-
         container_ops_create_or_update
           (group_name (group (resources self))) (name self) container_service ;;
       created <- poller_result container_service_creation ;;
       fun w => (Ok created, set__container_service created w)).

Definition container_service : M ContainerService :=
  dns_prefix <- Haikunator_haikunate ;;
  fun w =>
    match _container_service w with
    | None => fetch_or_create dns_prefix w
    | Some cached => (Ok cached, w)
    end.

Definition dns_prefix : M string :=
  cs <- container_service ;; ret (master_dns_prefix (master_profile cs)).

Definition master_ssh_address : M (option string) :=
  cs <- container_service ;; ret (fqdn (master_profile cs)).

Definition master_ssh_login : M string :=
  address <- master_ssh_address ;;
  ret (name self +:+ "@" +:+ str_opt address).

(** *** [ssh_tunnel_args]; the four parameters default to ['127.0.0.1'],
    ['127.0.0.1'], [80] and [8001], and the one caller passes them all. *)
Definition ssh_tunnel_args (remote_host local_host : string)
    (remote_port local_port : Z) : M TunnelArgs :=
  address <- master_ssh_address ;;
  pkey <- get_key_path ;;
  ret {| ssh_address_or_host := (address, 2200);
         ssh_username := name self;
         remote_bind_address := (remote_host, remote_port);
         local_bind_address := (local_host, local_port);
         ssh_pkey := pkey |}.

(** *** [cluster_ssh], a generator under [@contextmanager] *)

(** Up to the [yield]. *)
Definition cluster_ssh_before : M Popen :=
  try_except
    (key_path <- get_key_path ;;
     login <- master_ssh_login ;;
     let cmd := ["ssh"; "-i"; key_path; login] in
     print ("Connecting to cluster: " +:+ PyStr.join " " cmd) ;;
     fun w =>
       let proc := {| pid := count is_popen (trace w); popen_args := cmd |} in
       match subprocess_Popen env (count is_popen (trace w)) cmd with
       | Returns _ => (Ok proc, spawned proc (log (EvPopen cmd) w))
       | Raises e => (Raise e, log (EvPopen cmd) w)
       end)
    is_CalledProcessError
    (fun e =>
       login <- master_ssh_login ;;
       print ("Your SSH connection to the cluster was unsuccessful. "
              +:+ "Try `ssh " +:+ login +:+ "` to confirm that you can do so "
              +:+ "without any prompts.") ;;
       raise e).

(** After the [yield]: [proc.terminate()]. *)
Definition cluster_ssh_after (proc : Popen) : M unit :=
  fun w => (Ok tt, reaped proc (log (EvTerminate proc) w)).

(** [with self.cluster_ssh() as proc: body] *)
Definition cluster_ssh {A} (body : Popen -> M A) : M A :=
  with_generator cluster_ssh_before cluster_ssh_after body.

(** *** [deploy_container] *)

(** [__exit__] of the forwarder: its teardown routine.  A transport that is up
    is closed; when none is up the call changes nothing. *)
Definition SSHTunnelForwarder_exit (forwarder : Forwarder) : M unit :=
  fun w =>
    (Ok tt,
     if transport_active forwarder then tunnel_closed (log EvTunnelStop w)
     else log EvTunnelStop w).

(** [__enter__] of the forwarder built from the keyword arguments, as the
    sshtunnel library has it:
    [try: self.start(); return self / except KeyboardInterrupt: self.__exit__()].
    When [start()] returns, the forwarder itself is handed to the [as] name.
    When [start()] raises [KeyboardInterrupt], [__enter__] runs the teardown
    itself and ends without a [return], so the [as] name gets [None].  Any
    other exception of [start()] leaves [__enter__] as it is, and whatever
    transport was up at that moment stays up: the [with] statement calls
    [__exit__] only after an [__enter__] that returned. *)
Definition SSHTunnelForwarder_enter (args : TunnelArgs) : M Forwarder :=
  fun w =>
    let called := log (EvTunnelStart args) w in
    match tunnel_start env (count is_tunnel_start (trace w)) args with
    | Started =>
        (Ok {| forwarder_args := args; transport_active := true;
               entered_as := Some args |},
         tunnel_opened called)
    | StartRaises e transport_up =>
        let left := if transport_up then tunnel_opened called else called in
        if is_KeyboardInterrupt e then
          (Ok {| forwarder_args := args; transport_active := false;
                 entered_as := None |},
           snd (SSHTunnelForwarder_exit
                  {| forwarder_args := args; transport_active := transport_up;
                     entered_as := None |} left))
        else (Raise e, left)
    end.

(** The [while True] loop; [fuel] bounds the number of rounds. *)
Fixpoint poll (fuel : nat) (base_url : string) : M unit :=
  match fuel with
  | O => out_of_fuel
  | S fuel' =>
      print "Making sure deployment finishes." ;;
      print "Initial simple-docker deploy should take about 30 seconds." ;;
      response <- requests_get_url (base_url +:+ "deployments") ;;
      pending <- response_json response ;;
      if truthy pending then
        print "Waiting for deployment to finish..." ;;
        sleep 5 ;;
        poll fuel' base_url
      else ret tt
  end.

(** ['http://{}:{}/marathon/v2/'.format( *tunnel.local_bind_address)] *)
Definition marathon_base_url (tunnel : TunnelArgs) : string :=
  "http://" +:+ fst (local_bind_address tunnel) +:+ ":"
  +:+ PyStr.str_int (snd (local_bind_address tunnel)) +:+ "/marathon/v2/".

(** The body of the [with] statement. *)
Definition deploy_body (fuel : nat)
    (private_registry_helper : option ContainerRegistryHelper)
    (tunnel : TunnelArgs) : M unit :=
  let base_url := marathon_base_url tunnel in
  print ("Attempting to deploy Docker image " +:+ docker_tag self) ;;
  response <- requests_post_json (base_url +:+ "apps")
                (JObj (marathon_deploy_params self private_registry_helper)) ;;
  content <- response_json response ;;
  print "Deployment request successful." ;;
  has_deployments <- py_in "deployments" content ;;
  (if has_deployments then
     deployments <- py_getitem content "deployments" ;;
     emit (EvPrintValue "Deployments: " deployments)
   else emit (EvPrintValue "" content)) ;;
  poll fuel base_url.

(** The command suggested when the tunnel cannot be opened. *)
Definition manual_command (local_host : string) (local_port : Z)
    (remote_host : string) (remote_port : Z) (addr : option string) : string :=
  "ssh -N -L " +:+ local_host +:+ ":" +:+ PyStr.str_int local_port +:+ ":"
  +:+ remote_host +:+ ":" +:+ PyStr.str_int remote_port +:+ " " +:+ str_opt addr.

(** The body of the [with] statement under the [as] name: its first statement
    reads [tunnel.local_bind_address], which raises [AttributeError] when the
    name holds [None]. *)
Definition deploy_under (fuel : nat)
    (private_registry_helper : option ContainerRegistryHelper)
    (forwarder : Forwarder) : M unit :=
  match entered_as forwarder with
  | Some tunnel => deploy_body fuel private_registry_helper tunnel
  | None => raise AttributeError
  end.

Definition deploy_container (fuel : nat)
    (private_registry_helper : option ContainerRegistryHelper) : M unit :=
  let tunnel_remote_port := 80 in
  let tunnel_local_port := 8001 in
  let tunnel_host := "127.0.0.1" in
  try_except
    (args <- ssh_tunnel_args tunnel_host tunnel_host
                             tunnel_remote_port tunnel_local_port ;;
     with_object (SSHTunnelForwarder_enter args) SSHTunnelForwarder_exit
                 (deploy_under fuel private_registry_helper))
    is_HandlerSSHTunnelForwarderError
    (fun e =>
       emit (EvPrintExc e) ;;
       print "Opening SSH tunnel failed." ;;
       print "Please try the following command in a terminal:" ;;
       addr <- master_ssh_address ;;
       print (manual_command tunnel_host tunnel_local_port
                             tunnel_host tunnel_remote_port addr) ;;
       sys_exit 1).

End Helper.

(** ** Vocabulary of the statements *)

Definition is_terminate (e : event) : bool :=
  match e with EvTerminate _ => true | _ => false end.
Definition is_tunnel_stop (e : event) : bool :=
  match e with EvTunnelStop => true | _ => false end.

(** The call came back to its caller (with a value or an exception); the
    alternative is that the polling loop is still running. *)
Definition finished {A} (r : outcome A) : bool :=
  match r with
  | Ok _ | Raise _ => true
  | OutOfFuel => false
  end.

Definition raises_CloudError {A} (r : reply A) : bool :=
  match r with
  | Raises e => is_CloudError e
  | Returns _ => false
  end.

(** A computation relates the world it starts in to the world it ends in by
    [R], however it ends. *)
Definition keeps (R : World -> World -> Prop) {A} (m : M A) : Prop :=
  forall w r w', m w = (r, w') -> R w w'.

(** The events of the provisioning step. *)
Definition is_provisioning (e : event) : bool :=
  match e with
  | EvHaikunate | EvOpenFile _ | EvGet _ _ | EvCreateOrUpdate _ _ _ | EvResult => true
  | _ => false
  end.

(** Two worlds agree on the number of events of one kind. *)
Definition same_count (kind : event -> bool) (w w' : World) : Prop :=
  count kind (trace w') = count kind (trace w).

(** Two worlds agree on the number of open tunnels. *)
Definition same_tunnels (w w' : World) : Prop :=
  open_tunnels w' = open_tunnels w.

(** The world after some more events. *)
Definition logs (events : list event) (w : World) : World :=
  {| _container_service := _container_service w;
     trace := trace w ++ events;
     open_tunnels := open_tunnels w;
     running := running w |}.

(** How a POST can fail before any answer is looked at: the call raises, or
    the body of the response is not JSON. *)
Definition submission_failure (r : reply Response) : option exn :=
  match r with
  | Raises e => Some e
  | Returns response =>
      match body response with
      | Some _ => None
      | None => Some ValueError
      end
  end.

(** What one round of the polling loop that finds pending deployments leaves
    in the history, and what the round that finds none leaves. *)
Definition waiting_round (url : string) : list event :=
  [ EvPrint "Making sure deployment finishes.";
    EvPrint "Initial simple-docker deploy should take about 30 seconds.";
    EvHttpGet url;
    EvPrint "Waiting for deployment to finish...";
    EvSleep 5 ].

Definition final_round (url : string) : list event :=
  [ EvPrint "Making sure deployment finishes.";
    EvPrint "Initial simple-docker deploy should take about 30 seconds.";
    EvHttpGet url ].

(** The public key file read by [_get_ssh_config] with its default argument. *)
Definition public_key_path (home : string) : string :=
  PyStr.path_join (PyStr.path_join home ".ssh") "id_rsa" +:+ ".pub".

(** A line names every part of the tunnel that was attempted: the login
    [user@host], the SSH port and the private key. *)
Definition names_whole_tunnel (args : TunnelArgs) (line : string) : bool :=
  PyStr.contains (ssh_username args +:+ "@"
                  +:+ str_opt (fst (ssh_address_or_host args))) line
  && PyStr.contains (PyStr.str_int (snd (ssh_address_or_host args))) line
  && PyStr.contains (ssh_pkey args) line.

(** ** Concrete scenarios *)

Module Scenario.

Definition helper : ContainerServiceHelper :=
  {| resources := {| group := {| group_name := "demo-group";
                                 group_location := "westus" |} |};
     name := "acsdemo";
     docker_tag := "registry.example.com/myorg/myapp" |}.

Definition registry : ContainerRegistryHelper :=
  {| storage := {| default_share := "data" |};
     credentials_file_name := "creds.json" |}.

(** The service as Azure reports it once it exists. *)
Definition deployed (request : ContainerService) : ContainerService :=
  {| location := location request;
     master_profile :=
       {| master_dns_prefix := master_dns_prefix (master_profile request);
          master_count := master_count (master_profile request);
          fqdn := Some "acsdemo-mgmt.westus.cloudapp.azure.com" |};
     agent_pool_profiles := agent_pool_profiles request;
     linux_profile := linux_profile request;
     orchestrator_profile := orchestrator_profile request |}.

Definition accepted : Response :=
  {| status_code := 201;
     body := Some (JObj (<["deployments" := JArr [JStr "5ed4c0c5"]]> ∅)) |}.

Definition rejected : Response :=
  {| status_code := 500;
     body := Some (JObj (<["message" := JStr "Internal Server Error"]> ∅)) |}.

Definition pending_list : json := JArr [JObj (<["id" := JStr "5ed4c0c5"]> ∅)].

(** Two polls see a pending deployment, the third sees none. *)
Definition draining (n : nat) : reply Response :=
  Returns {| status_code := 200;
             body := Some (if (n <? 2)%nat then pending_list else JArr []) |}.

Definition scenario
    (lookup : reply ContainerService)
    (create : ContainerService -> reply AzureOperationPoller)
    (tunnel : start_reply)
    (post : reply Response)
    (nap : reply unit) : Env :=
  {| environ_HOME := Some "/home/operator";
     haikunate := fun _ => "calm-river-1234";
     read_file := fun _ => Returns "ssh-rsa AAAAB3Nza operator@desk";
     container_services_get := fun _ _ _ => lookup;
     container_services_create_or_update := fun _ _ _ request => create request;
     tunnel_start := fun _ _ => tunnel;
     requests_post := fun _ _ _ => post;
     requests_get := fun n _ => draining n;
     time_sleep := fun _ _ => nap;
     subprocess_Popen := fun _ _ => Returns tt |}.

Definition creates (request : ContainerService) : reply AzureOperationPoller :=
  Returns {| operation_result := Returns (deployed request) |}.

(** No cluster yet; everything works. *)
Definition green_field : Env :=
  scenario (Raises (CloudError 404)) creates Started (Returns accepted) (Returns tt).

(** No cluster yet, and the creation is refused (say, a DNS prefix clash). *)
Definition collision : Env :=
  scenario (Raises (CloudError 404)) (fun _ => Raises (CloudError 409))
           Started (Returns accepted) (Returns tt).

(** The lookup is refused for lack of permission. *)
Definition forbidden : Env :=
  scenario (Raises (CloudError 403)) creates Started (Returns accepted) (Returns tt).

(** The lookup cannot reach the service at all. *)
Definition unreachable : Env :=
  scenario (Raises (OtherException "ConnectionError")) creates
           Started (Returns accepted) (Returns tt).

(** The tunnel cannot be opened: the gateway answers, the forward fails. *)
Definition tunnel_down : Env :=
  scenario (Raises (CloudError 404)) creates
           (StartRaises HandlerSSHTunnelForwarderError true)
           (Returns accepted) (Returns tt).

(** The gateway refuses the session: nothing is up when [start()] raises. *)
Definition gateway_refused : Env :=
  scenario (Raises (CloudError 404)) creates
           (StartRaises (OtherException "BaseSSHTunnelForwarderError") false)
           (Returns accepted) (Returns tt).

(** The operator presses Ctrl-C while the tunnel is being started. *)
Definition start_interrupted : Env :=
  scenario (Raises (CloudError 404)) creates
           (StartRaises KeyboardInterrupt true)
           (Returns accepted) (Returns tt).

(** Marathon answers the POST with a server error whose body is [null]. *)
Definition post_rejected_null : Env :=
  scenario (Raises (CloudError 404)) creates Started
           (Returns {| status_code := 500; body := Some JNull |}) (Returns tt).

(** Marathon answers the POST with a server error. *)
Definition post_rejected : Env :=
  scenario (Raises (CloudError 404)) creates Started (Returns rejected) (Returns tt).

(** The POST does not get through. *)
Definition post_down : Env :=
  scenario (Raises (CloudError 404)) creates Started
           (Raises (OtherException "ConnectionError")) (Returns tt).

(** The POST is answered by something that is not JSON. *)
Definition post_garbled : Env :=
  scenario (Raises (CloudError 404)) creates Started
           (Returns {| status_code := 502; body := None |}) (Returns tt).

(** The operator presses Ctrl-C while the loop sleeps. *)
Definition interrupted : Env :=
  scenario (Raises (CloudError 404)) creates Started (Returns accepted)
           (Raises KeyboardInterrupt).

(** The tunnel arguments [deploy_container] computes in these scenarios. *)
Definition tunnel_args : TunnelArgs :=
  {| ssh_address_or_host := (Some "acsdemo-mgmt.westus.cloudapp.azure.com", 2200);
     ssh_username := "acsdemo";
     remote_bind_address := ("127.0.0.1", 80);
     local_bind_address := ("127.0.0.1", 8001);
     ssh_pkey := "/home/operator/.ssh/id_rsa" |}.

(** Two bodies for the [cluster_ssh] scope. *)
Definition quiet_body (proc : Popen) : M unit := ret tt.
Definition failing_body (proc : Popen) : M unit := raise ValueError.

End Scenario.

(** ** Vocabulary of the further properties *)

(** The private key [get_key_path] names for a given home directory. *)
Definition private_key_path (home : string) : string :=
  PyStr.path_join (PyStr.path_join home ".ssh") "id_rsa".

(** What stands between [home] and [.ssh/id_rsa] in the key path. *)
Definition home_separator (home : string) : string :=
  if String.eqb home EmptyString || PyStr.ends_with_slash home then EmptyString
  else "/".

(** Why the public key cannot be had, if it cannot: [HOME] is not set, or the
    key file cannot be read. *)
Definition public_key_failure (env : Env) : option exn :=
  match environ_HOME env with
  | None => Some (KeyError "HOME")
  | Some home =>
      match read_file env (public_key_path home) with
      | Raises e => Some e
      | Returns _ => None
      end
  end.

(** The command line [cluster_ssh] starts. *)
Definition ssh_command (self : ContainerServiceHelper) (home : string)
    (cs : ContainerService) : list string :=
  [ "ssh"; "-i"; private_key_path home;
    name self +:+ "@" +:+ str_opt (fqdn (master_profile cs)) ].

(** The hint printed when [Popen] raises [CalledProcessError]. *)
Definition ssh_hint (self : ContainerServiceHelper) (cs : ContainerService) : string :=
  "Your SSH connection to the cluster was unsuccessful. Try `ssh "
  +:+ (name self +:+ "@" +:+ str_opt (fqdn (master_profile cs)))
  +:+ "` to confirm that you can do so without any prompts.".

(** Two worlds agree on the running subprocesses. *)
Definition same_running (w w' : World) : Prop := running w' = running w.

(** If [cs] is stored in the first world, it is still stored in the second and
    no lookup and no creation happened in between. *)
Definition cache_holds (cs : ContainerService) (w w' : World) : Prop :=
  _container_service w = Some cs ->
  _container_service w' = Some cs /\
  count is_get (trace w') = count is_get (trace w) /\
  count is_create (trace w') = count is_create (trace w).

(** Either [cs] is stored and lookup number [lookups] has been made, or
    nothing is stored and that lookup is the next one; [creations] creation
    requests have been made. *)
Definition found_or_pending (cs : ContainerService) (lookups creations : nat)
    (w : World) : Prop :=
  count is_create (trace w) = creations /\
  ((_container_service w = Some cs /\ count is_get (trace w) = S lookups) \/
   (_container_service w = None /\ count is_get (trace w) = lookups)).

(** A step from one world to the next that keeps [found_or_pending]. *)
Definition stays_settled (cs : ContainerService) (lookups creations : nat)
    (w w' : World) : Prop :=
  found_or_pending cs lookups creations w ->
  found_or_pending cs lookups creations w'.

(** What [deploy_container] prints about the decoded answer to the POST;
    [None] when looking for ['deployments'] in it, or indexing it, raises
    [TypeError]. *)
Definition content_report (content : json) : option event :=
  match content with
  | JObj fields =>
      match fields !! "deployments" with
      | Some deployments => Some (EvPrintValue "Deployments: " deployments)
      | None => Some (EvPrintValue "" content)
      end
  | JArr items =>
      if existsb (fun item => match item with
                              | JStr s => String.eqb s "deployments"
                              | _ => false
                              end) items
      then None else Some (EvPrintValue "" content)
  | JStr s =>
      if PyStr.contains "deployments" s then None
      else Some (EvPrintValue "" content)
  | JNull | JBool _ | JInt _ | JReal _ => None
  end.

(** The transports a call of [start()] leaves up once [__enter__] is over:
    none when it returned (the scope owns the tunnel from then on) and none
    after Ctrl-C, which [__enter__] answers with the teardown; after any other
    exception, whatever was up when it was raised. *)
Definition leftover (reply : start_reply) : nat :=
  match reply with
  | Started => 0%nat
  | StartRaises e transport_up =>
      if is_KeyboardInterrupt e then 0%nat
      else if transport_up then 1%nat else 0%nat
  end.

(** What the [start()] of a call of [deploy_container] from [w] leaves up: the
    forwarder is started with the arguments of [ssh_tunnel_args], if these can
    be built at all. *)
Definition left_by_start (env : Env) (self : ContainerServiceHelper) (w : World)
    : nat :=
  match ssh_tunnel_args env self "127.0.0.1" "127.0.0.1" 80 8001 w with
  | (Ok args, w1) =>
      leftover (tunnel_start env (count is_tunnel_start (trace w1)) args)
  | _ => 0%nat
  end.

(** The second world has the history of the first, and possibly more. *)
Definition extends (w w' : World) : Prop :=
  exists rest, trace w' = trace w ++ rest.

(** The next [n] GETs of the deployments from [w] on find something pending,
    and the sleeps after them return. *)
Definition still_pending (env : Env) (base_url : string) (n : nat) (w : World)
    : Prop :=
  forall i, (i < n)%nat ->
    (exists response j,
       requests_get env (count is_http_get (trace w) + i)
         (base_url +:+ "deployments") = Returns response /\
       body response = Some j /\ truthy j = true) /\
    time_sleep env (count is_sleep (trace w) + i) 5 = Returns tt.

(** ** Further scenarios *)

Module Cases.

Definition environment
    (home : option string) (key : reply string)
    (lookup : reply ContainerService)
    (create : ContainerService -> reply AzureOperationPoller)
    (tunnel : start_reply) (post : reply Response)
    (gets : nat -> reply Response) (naps : nat -> reply unit)
    (popen : reply unit) : Env :=
  {| environ_HOME := home;
     haikunate := fun _ => "calm-river-1234";
     read_file := fun _ => key;
     container_services_get := fun _ _ _ => lookup;
     container_services_create_or_update := fun _ _ _ request => create request;
     tunnel_start := fun _ _ => tunnel;
     requests_post := fun _ _ _ => post;
     requests_get := fun n _ => gets n;
     time_sleep := fun n _ => naps n;
     subprocess_Popen := fun _ _ => popen |}.

Definition key_text : string := "ssh-rsa AAAAB3Nza operator@desk".

(** The service exists already. *)
Definition service : ContainerService :=
  Scenario.deployed
    (creation_request Scenario.helper "brave-hill-0042"
       {| public_keys := [ {| key_data := key_text |} ] |}).

Definition pending_answer : reply Response :=
  Returns {| status_code := 200; body := Some Scenario.pending_list |}.

Definition empty_answer : reply Response :=
  Returns {| status_code := 200; body := Some (JArr []) |}.

Definition existing : Env :=
  environment (Some "/home/operator") (Returns key_text) (Returns service)
    Scenario.creates Started (Returns Scenario.accepted)
    (fun _ => empty_answer) (fun _ => Returns tt) (Returns tt).

(** Nothing exists yet and everything works; the first poll finds nothing
    pending. *)
Definition first_time : Env :=
  environment (Some "/home/operator") (Returns key_text) (Raises (CloudError 404))
    Scenario.creates Started (Returns Scenario.accepted)
    (fun _ => empty_answer) (fun _ => Returns tt) (Returns tt).

(** [HOME] is not set. *)
Definition home_unset : Env :=
  environment None (Returns key_text) (Returns service)
    Scenario.creates Started (Returns Scenario.accepted)
    (fun _ => empty_answer) (fun _ => Returns tt) (Returns tt).

Definition home_unset_first_time : Env :=
  environment None (Returns key_text) (Raises (CloudError 404))
    Scenario.creates Started (Returns Scenario.accepted)
    (fun _ => empty_answer) (fun _ => Returns tt) (Returns tt).

(** The public key file is missing. *)
Definition key_missing : Env :=
  environment (Some "/home/operator")
    (Raises (IOError "/home/operator/.ssh/id_rsa.pub")) (Raises (CloudError 404))
    Scenario.creates Started (Returns Scenario.accepted)
    (fun _ => empty_answer) (fun _ => Returns tt) (Returns tt).

(** The deployment never finishes. *)
Definition stuck : Env :=
  environment (Some "/home/operator") (Returns key_text) (Returns service)
    Scenario.creates Started (Returns Scenario.accepted)
    (fun _ => pending_answer) (fun _ => Returns tt) (Returns tt).

(** The third GET does not get through. *)
Definition get_breaks : Env :=
  environment (Some "/home/operator") (Returns key_text) (Returns service)
    Scenario.creates Started (Returns Scenario.accepted)
    (fun n => if (n <? 2)%nat then pending_answer
              else Raises (OtherException "ConnectionError"))
    (fun _ => Returns tt) (Returns tt).

(** Ctrl-C during the second sleep. *)
Definition nap_interrupted : Env :=
  environment (Some "/home/operator") (Returns key_text) (Returns service)
    Scenario.creates Started (Returns Scenario.accepted)
    (fun _ => pending_answer)
    (fun n => if (n <? 1)%nat then Returns tt else Raises KeyboardInterrupt)
    (Returns tt).

(** [ssh] cannot be started. *)
Definition popen_refused : Env :=
  environment (Some "/home/operator") (Returns key_text) (Returns service)
    Scenario.creates Started (Returns Scenario.accepted)
    (fun _ => empty_answer) (fun _ => Returns tt) (Raises CalledProcessError).

Definition popen_missing : Env :=
  environment (Some "/home/operator") (Returns key_text) (Returns service)
    Scenario.creates Started (Returns Scenario.accepted)
    (fun _ => empty_answer) (fun _ => Returns tt)
    (Raises (OtherException "FileNotFoundError")).

(** Marathon answers the POST with a bare number. *)
Definition post_number : Env :=
  environment (Some "/home/operator") (Returns key_text) (Returns service)
    Scenario.creates Started
    (Returns {| status_code := 200; body := Some (JInt 7) |})
    (fun _ => empty_answer) (fun _ => Returns tt) (Returns tt).

(** A world in which [service] is already stored. *)
Definition provisioned : World := set__container_service service fresh.

Definition tunnel_args : TunnelArgs :=
  {| ssh_address_or_host := (Some "acsdemo-mgmt.westus.cloudapp.azure.com", 2200);
     ssh_username := "acsdemo";
     remote_bind_address := ("127.0.0.1", 80);
     local_bind_address := ("127.0.0.1", 8001);
     ssh_pkey := "/home/operator/.ssh/id_rsa" |}.

End Cases.

(** * Properties *)

(** ** Strings *)

Lemma append_assoc (a b c : string) : (a +:+ b) +:+ c = a +:+ (b +:+ c).
Proof.
  induction a as [|x a IH]; [reflexivity|].
  change (String x ((a +:+ b) +:+ c) = String x (a +:+ (b +:+ c))).
  now rewrite IH.
Qed.

Lemma split_not_nil (sep : ascii) (s : string) : PyStr.split sep s <> [].
Proof.
  destruct s as [|c rest]; simpl; [discriminate|].
  destruct (Ascii.eqb c sep); [discriminate|].
  destruct (PyStr.split sep rest); discriminate.
Qed.

Lemma join_push (sep : string) (c : ascii) (field : string) (fields : list string) :
  PyStr.join sep (String c field :: fields) =
  String c (PyStr.join sep (field :: fields)).
Proof. destruct fields; reflexivity. Qed.

(** Joining the fields with the separator gives the string back. *)
Lemma join_split (sep : ascii) (s : string) :
  PyStr.join (String sep EmptyString) (PyStr.split sep s) = s.
Proof.
  induction s as [|c rest IH]; simpl; [reflexivity|].
  destruct (Ascii.eqb_spec c sep) as [->|Hne].
  - pose proof (split_not_nil sep rest) as Hnil.
    destruct (PyStr.split sep rest) as [|f fs] eqn:E; [congruence|].
    change (PyStr.join (String sep EmptyString) (EmptyString :: f :: fs))
      with (String sep (PyStr.join (String sep EmptyString) (f :: fs))).
    now rewrite IH.
  - destruct (PyStr.split sep rest) as [|f fs] eqn:E.
    + now destruct (split_not_nil sep rest).
    + rewrite join_push. now rewrite IH.
Qed.

(** No field contains the separator. *)
Lemma split_fields_clean (sep : ascii) (s : string) :
  Forall (fun field => PyStr.contains_char sep field = false) (PyStr.split sep s).
Proof.
  induction s as [|c rest IH]; simpl.
  - repeat constructor.
  - destruct (Ascii.eqb_spec c sep) as [->|Hne].
    + constructor; [reflexivity | exact IH].
    + destruct (PyStr.split sep rest) as [|f fs]; [repeat constructor; simpl|].
      * rewrite (proj2 (Ascii.eqb_neq c sep) Hne). reflexivity.
      * inversion IH as [|? ? Hf Hfs]; subst. constructor; [|exact Hfs].
        simpl. now rewrite (proj2 (Ascii.eqb_neq c sep) Hne).
Qed.

Lemma join_snoc (sep : string) (init : list string) (x : string) :
  PyStr.join sep (init ++ [x]) =
  match init with
  | [] => x
  | _ :: _ => PyStr.join sep init +:+ sep +:+ x
  end.
Proof.
  induction init as [|a init IH]; [reflexivity|].
  destruct init as [|b init]; [reflexivity|].
  change (PyStr.join sep ((a :: b :: init) ++ [x]))
    with (a +:+ sep +:+ PyStr.join sep ((b :: init) ++ [x])).
  rewrite IH. cbv iota.
  change (PyStr.join sep (a :: b :: init))
    with (a +:+ sep +:+ PyStr.join sep (b :: init)).
  now rewrite !append_assoc.
Qed.

(** The last field of a split: it has no separator, and the string is either
    that field alone or some prefix, the separator, and that field. *)
Lemma last_split (sep : ascii) (s : string) :
  exists segment,
    last (PyStr.split sep s) = Some segment /\
    PyStr.contains_char sep segment = false /\
    ((PyStr.contains_char sep s = false /\ segment = s) \/
     exists before, s = before +:+ String sep EmptyString +:+ segment).
Proof.
  pose proof (split_not_nil sep s) as Hnil.
  pose proof (join_split sep s) as Hjoin.
  pose proof (split_fields_clean sep s) as Hclean.
  destruct (last (PyStr.split sep s)) as [segment|] eqn:Hlast.
  2:{ apply last_None in Hlast. contradiction. }
  apply last_Some in Hlast as [init Hinit].
  rewrite Hinit in Hjoin, Hclean.
  rewrite join_snoc in Hjoin.
  apply Forall_app in Hclean as [_ Hseg].
  apply List.Forall_inv in Hseg.
  exists segment. split; [reflexivity|]. split; [exact Hseg|].
  destruct init as [|a init].
  - left. rewrite <- Hjoin. auto.
  - right. eexists. symmetry. exact Hjoin.
Qed.

Lemma length_append (a b : string) :
  String.length (a +:+ b) = (String.length a + String.length b)%nat.
Proof.
  induction a as [|x a IH]; [reflexivity|].
  change (S (String.length (a +:+ b)) = S (String.length a + String.length b)).
  now rewrite IH.
Qed.

(** A string never equals itself followed by something non-empty. *)
Lemma append_nonempty_neq (s : string) (c : ascii) (t : string) :
  s +:+ String c t <> s.
Proof.
  intros H. apply (f_equal String.length) in H.
  rewrite length_append in H. simpl in H. lia.
Qed.

(** ** The deployment request *)

(** C8: the id of the deployment request, the value under the key ["id"] of
    what [marathon_deploy_params] builds with or without a registry helper, is
    the part of the image reference after its last ['/']: it contains no
    ['/'], and either the reference has no ['/'] and the id is the whole
    reference, or the reference is some prefix, a ['/'], and the id. *)
Theorem deployment_id_final_segment
    (self : ContainerServiceHelper)
    (private_registry_helper : option ContainerRegistryHelper) :
  marathon_deploy_params self private_registry_helper !! "id"
    = Some (JStr (deployment_id self)) /\
  PyStr.contains_char "/" (deployment_id self) = false /\
  ((PyStr.contains_char "/" (docker_tag self) = false /\
    deployment_id self = docker_tag self) \/
   exists before, docker_tag self = before +:+ "/" +:+ deployment_id self).
Proof.
  split.
  - unfold marathon_deploy_params. destruct private_registry_helper.
    + rewrite lookup_insert_ne by discriminate. apply lookup_insert_eq.
    + apply lookup_insert_eq.
  - unfold deployment_id.
    destruct (last_split "/" (docker_tag self)) as (segment & -> & Hclean & Hshape).
    split; [exact Hclean | exact Hshape].
Qed.

Example deployment_id_myapp :
  deployment_id Scenario.helper = "myapp".
Proof. reflexivity. Qed.

Example marathon_id_field :
  marathon_deploy_params Scenario.helper None !! "id" = Some (JStr "myapp") /\
  marathon_deploy_params Scenario.helper (Some Scenario.registry) !! "id"
    = Some (JStr "myapp").
Proof. split; reflexivity. Qed.

(** C9: with a registry helper the request has the key ["uris"] holding exactly
    the one URI [file:///mnt/<share>/<file>]; without one the key is absent;
    and the request with the key removed is the request built without a
    registry helper. *)
Theorem marathon_deploy_params_uris
    (self : ContainerServiceHelper) (registry : ContainerRegistryHelper) :
  marathon_deploy_params self (Some registry) !! "uris" =
    Some (JArr [JStr ("file:///mnt/" +:+ default_share (storage registry)
                      +:+ "/" +:+ credentials_file_name registry)]) /\
  marathon_deploy_params self None !! "uris" = None /\
  delete "uris" (marathon_deploy_params self (Some registry)) =
    marathon_deploy_params self None.
Proof.
  assert (Habsent : marathon_deploy_params self None !! "uris" = None).
  { unfold marathon_deploy_params. now rewrite !lookup_insert_ne by discriminate. }
  split; [|split].
  - unfold marathon_deploy_params. apply lookup_insert_eq.
  - exact Habsent.
  - unfold marathon_deploy_params in *. now apply delete_insert_id.
Qed.

Example marathon_uris_data_creds :
  marathon_deploy_params Scenario.helper (Some Scenario.registry) !! "uris" =
    Some (JArr [JStr "file:///mnt/data/creds.json"]).
Proof. reflexivity. Qed.

(** ** Reasoning about computations *)

Lemma count_app (kind : event -> bool) (tr tr' : list event) :
  count kind (tr ++ tr') = (count kind tr + count kind tr')%nat.
Proof. unfold count. now rewrite List.filter_app, length_app. Qed.

Lemma count_log (kind : event -> bool) (e : event) (w : World) :
  count kind (trace (log e w)) =
  (count kind (trace w) + if kind e then 1 else 0)%nat.
Proof. simpl. rewrite count_app. unfold count. simpl. now destruct (kind e). Qed.

Lemma count_log_other (kind : event -> bool) (e : event) (w : World) :
  kind e = false -> count kind (trace (log e w)) = count kind (trace w).
Proof. intros H. rewrite count_log, H. lia. Qed.

Section Keeps.

Variable R : World -> World -> Prop.
Hypothesis R_refl : forall w, R w w.
Hypothesis R_trans : forall w1 w2 w3, R w1 w2 -> R w2 w3 -> R w1 w3.

Lemma keeps_ret {A} (a : A) : keeps R (ret a).
Proof. intros w r w' H. inversion H; subst. apply R_refl. Qed.

Lemma keeps_raise {A} (e : exn) : keeps R (@raise A e).
Proof. intros w r w' H. inversion H; subst. apply R_refl. Qed.

Lemma keeps_out_of_fuel {A} : keeps R (@out_of_fuel A).
Proof. intros w r w' H. inversion H; subst. apply R_refl. Qed.

Lemma keeps_of_reply {A} (r : reply A) : keeps R (of_reply r).
Proof. destruct r; [apply keeps_ret | apply keeps_raise]. Qed.

Lemma keeps_bind {A B} (m : M A) (k : A -> M B) :
  keeps R m -> (forall a, keeps R (k a)) -> keeps R (bind m k).
Proof.
  intros Hm Hk w r w' H. unfold bind in H.
  destruct (m w) as [[a|e|] w1] eqn:E.
  - eapply R_trans; [eapply Hm; exact E | eapply Hk; exact H].
  - inversion H; subst. eapply Hm; exact E.
  - inversion H; subst. eapply Hm; exact E.
Qed.

Lemma keeps_try_except {A} (m : M A) (caught : exn -> bool) (handler : exn -> M A) :
  keeps R m -> (forall e, keeps R (handler e)) ->
  keeps R (try_except m caught handler).
Proof.
  intros Hm Hh w r w' H. unfold try_except in H.
  destruct (m w) as [[a|e|] w1] eqn:E.
  - inversion H; subst. eapply Hm; exact E.
  - destruct (caught e).
    + eapply R_trans; [eapply Hm; exact E | eapply Hh; exact H].
    + inversion H; subst. eapply Hm; exact E.
  - inversion H; subst. eapply Hm; exact E.
Qed.

End Keeps.

Section KeepsHelper.

Variable env : Env.
Variable self : ContainerServiceHelper.
Variable R : World -> World -> Prop.
Hypothesis R_refl : forall w, R w w.
Hypothesis R_trans : forall w1 w2 w3, R w1 w2 -> R w2 w3 -> R w1 w3.
Hypothesis R_log : forall e w, is_provisioning e = true -> R w (log e w).
Hypothesis R_cache : forall cs w, R w (set__container_service cs w).

Lemma keeps_call {A} (answer : World -> reply A) (e : event) :
  is_provisioning e = true ->
  keeps R (fun w => of_reply (answer w) (log e w)).
Proof.
  intros He w r w' H. destruct (answer w); inversion H; subst; now apply R_log.
Qed.

Lemma keeps_store (cs : ContainerService) :
  keeps R (fun w => (Ok cs, set__container_service cs w)).
Proof. intros w r w' H. inversion H; subst. apply R_cache. Qed.

Lemma keeps_get_key_path : keeps R (get_key_path env).
Proof.
  unfold get_key_path. destruct (environ_HOME env);
    [now apply keeps_ret | now apply keeps_raise].
Qed.

Lemma keeps_io_open_read (path : string) : keeps R (io_open_read env path).
Proof.
  unfold io_open_read. apply keeps_bind; auto.
  - intros w r w' H. inversion H; subst. now apply R_log.
  - intros _. now apply keeps_of_reply.
Qed.

Lemma keeps_get_ssh_config (key_path : option string) :
  keeps R (_get_ssh_config env key_path).
Proof.
  assert (Hdefault : keeps R (k <- get_key_path env ;; ret (k +:+ ".pub"))).
  { apply keeps_bind; auto using keeps_get_key_path. intros. now apply keeps_ret. }
  unfold _get_ssh_config. apply keeps_bind; auto.
  - destruct key_path as [p|]; [|exact Hdefault].
    destruct (String.eqb p EmptyString); [exact Hdefault | now apply keeps_ret].
  - intros p. apply keeps_bind; auto using keeps_io_open_read.
    intros. now apply keeps_ret.
Qed.

Lemma keeps_fetch_or_create (prefix : string) :
  keeps R (fetch_or_create env self prefix).
Proof.
  unfold fetch_or_create. apply keeps_try_except; auto.
  - apply keeps_bind; auto.
    + unfold container_ops_get. now apply keeps_call.
    + intros found. apply keeps_store.
  - intros _. apply keeps_bind; auto using keeps_get_ssh_config.
    intros config. apply keeps_bind; auto.
    + unfold container_ops_create_or_update. now apply keeps_call.
    + intros poller. apply keeps_bind; auto.
      * unfold poller_result. apply keeps_bind; auto.
        -- intros w r w' H. inversion H; subst. now apply R_log.
        -- intros _. now apply keeps_of_reply.
      * intros created. apply keeps_store.
Qed.

Lemma keeps_container_service : keeps R (container_service env self).
Proof.
  unfold container_service. apply keeps_bind; auto.
  { intros w r w' H. inversion H; subst. now apply R_log. }
  intros prefix w r w' H.
  destruct (_container_service w) as [cached|].
  - inversion H; subst. apply R_refl.
  - eapply keeps_fetch_or_create; exact H.
Qed.

Lemma keeps_master_ssh_address : keeps R (master_ssh_address env self).
Proof.
  unfold master_ssh_address. apply keeps_bind; auto using keeps_container_service.
  intros. now apply keeps_ret.
Qed.

Lemma keeps_ssh_tunnel_args (remote_host local_host : string) (remote_port local_port : Z) :
  keeps R (ssh_tunnel_args env self remote_host local_host remote_port local_port).
Proof.
  unfold ssh_tunnel_args. apply keeps_bind; auto using keeps_master_ssh_address.
  intros address. apply keeps_bind; auto using keeps_get_key_path.
  intros. now apply keeps_ret.
Qed.

End KeepsHelper.

(** ** Provisioning *)

Lemma container_service_cached (env : Env) (self : ContainerServiceHelper)
    (w : World) (cs : ContainerService) :
  _container_service w = Some cs ->
  container_service env self w = (Ok cs, log EvHaikunate w).
Proof.
  intros H. unfold container_service, bind, Haikunator_haikunate. simpl.
  now rewrite H.
Qed.

(** Unfold one provisioning run down to the replies of the environment. *)
Ltac run_provisioning :=
  cbv beta iota delta
    [container_service fetch_or_create try_except bind
     Haikunator_haikunate container_ops_get container_ops_create_or_update
     poller_result _get_ssh_config get_key_path io_open_read emit
     of_reply ret raise] in *;
  simpl in *.

(** Case analysis on the innermost reply that blocks the computation. *)
Ltac split_replies :=
  repeat match goal with
         | |- context [match ?x with _ => _ end] =>
             lazymatch x with
             | context [match _ with _ => _ end] => fail
             | _ => destruct x eqn:?; simpl
             end
         end.

Lemma count_snoc_other (kind : event -> bool) (tr : list event) (e : event) :
  kind e = false -> count kind (tr ++ [e]) = count kind tr.
Proof. intros H. rewrite count_app. unfold count. simpl. rewrite H. simpl. lia. Qed.

Lemma count_snoc_same (kind : event -> bool) (tr : list event) (e : event) :
  kind e = true -> count kind (tr ++ [e]) = S (count kind tr).
Proof. intros H. rewrite count_app. unfold count. simpl. rewrite H. simpl. lia. Qed.

Lemma fetch_or_create_outcome (env : Env) (self : ContainerServiceHelper)
    (prefix : string) (w : World) :
  (count is_create (trace (snd (fetch_or_create env self prefix w)))
     <= count is_create (trace w) + 1)%nat /\
  (forall cs, fst (fetch_or_create env self prefix w) = Ok cs ->
     _container_service (snd (fetch_or_create env self prefix w)) = Some cs).
Proof.
  run_provisioning. split_replies;
    repeat first [ rewrite count_snoc_other by reflexivity
                 | rewrite count_snoc_same by reflexivity ];
    (split; [lia | intros ? [=]; subst; reflexivity]).
Qed.

Lemma fetch_or_create_result (env : Env) (self : ContainerServiceHelper)
    (prefix : string) (w w' : World) (r : outcome ContainerService) :
  fetch_or_create env self prefix w = (r, w') ->
  (count is_create (trace w') <= count is_create (trace w) + 1)%nat /\
  (forall cs, r = Ok cs -> _container_service w' = Some cs).
Proof.
  intros H. pose proof (fetch_or_create_outcome env self prefix w) as Hout.
  rewrite H in Hout. exact Hout.
Qed.

Lemma container_service_result (env : Env) (self : ContainerServiceHelper)
    (w w' : World) (r : outcome ContainerService) :
  container_service env self w = (r, w') ->
  (count is_create (trace w') <= count is_create (trace w) + 1)%nat /\
  (forall cs, r = Ok cs -> _container_service w' = Some cs).
Proof.
  unfold container_service, bind, Haikunator_haikunate. simpl.
  destruct (_container_service w) as [cached|] eqn:Hcache.
  - intros [= <- <-]. simpl. rewrite count_snoc_other by reflexivity.
    split; [lia | now intros cs [= <-]].
  - intros H. apply fetch_or_create_result in H as [Hcount Hstore].
    simpl in Hcount. rewrite count_snoc_other in Hcount by reflexivity.
    split; assumption.
Qed.

(** C1, as the code has it: once a call of [container_service] has returned a
    service, that call has asked for at most one creation, and every later
    call on the same helper returns the same service from the attribute,
    running only the local name generator: no lookup, no creation. *)
Theorem container_service_cached_after_success
    (env : Env) (self : ContainerServiceHelper)
    (w w1 : World) (cs : ContainerService) :
  container_service env self w = (Ok cs, w1) ->
  (count is_create (trace w1) <= count is_create (trace w) + 1)%nat /\
  container_service env self w1 = (Ok cs, log EvHaikunate w1) /\
  (count is_create (trace (log EvHaikunate w1)) <= count is_create (trace w) + 1)%nat /\
  (forall w2, _container_service w2 = Some cs ->
     container_service env self w2 = (Ok cs, log EvHaikunate w2)).
Proof.
  intros H. apply container_service_result in H as [Hcount Hstore].
  specialize (Hstore cs eq_refl).
  repeat split.
  - exact Hcount.
  - now apply container_service_cached.
  - rewrite count_log_other by reflexivity. exact Hcount.
  - intros w2 Hw2. now apply container_service_cached.
Qed.

Lemma container_service_cached_after_success_witness :
  let w1 := snd (container_service Scenario.green_field Scenario.helper fresh) in
  let cs := Scenario.deployed
              (creation_request Scenario.helper "calm-river-1234"
                 {| public_keys := [ {| key_data := "ssh-rsa AAAAB3Nza operator@desk" |} ] |}) in
  (count is_create (trace w1) <= count is_create (trace fresh) + 1)%nat /\
  container_service Scenario.green_field Scenario.helper w1 = (Ok cs, log EvHaikunate w1) /\
  (count is_create (trace (log EvHaikunate w1)) <= count is_create (trace fresh) + 1)%nat /\
  (forall w2, _container_service w2 = Some cs ->
     container_service Scenario.green_field Scenario.helper w2 = (Ok cs, log EvHaikunate w2)).
Proof.
  apply (container_service_cached_after_success
           Scenario.green_field Scenario.helper fresh).
  reflexivity.
Defined.

(** C1 as stated fails: when the creation is refused, nothing is stored, and a
    second call looks up and asks for the creation again. *)
Lemma container_service_creates_again_after_failure :
  ~ (count is_create
       (trace (snd (container_service Scenario.collision Scenario.helper
                      (snd (container_service Scenario.collision Scenario.helper
                              fresh)))))
     <= 1)%nat.
Proof. vm_compute. lia. Qed.

Example container_service_collision_outcomes :
  fst (container_service Scenario.collision Scenario.helper fresh)
    = Raise (CloudError 409) /\
  _container_service
    (snd (container_service Scenario.collision Scenario.helper fresh)) = None.
Proof. split; reflexivity. Qed.

(** C2, as the code has it: with a readable public key, a creation request is
    issued exactly when the lookup raises [CloudError], whatever its status;
    when the lookup raises anything else, nothing is created and that
    exception reaches the caller unchanged, right after the lookup. *)
Theorem creation_iff_CloudError
    (env : Env) (self : ContainerServiceHelper) (w : World) (home key : string) :
  _container_service w = None ->
  environ_HOME env = Some home ->
  read_file env (public_key_path home) = Returns key ->
  count is_create (trace (snd (container_service env self w))) =
    (count is_create (trace w) +
     if raises_CloudError
          (container_services_get env (count is_get (trace w))
             (group_name (group (resources self))) (name self))
     then 1 else 0)%nat /\
  (forall e,
     container_services_get env (count is_get (trace w))
       (group_name (group (resources self))) (name self) = Raises e ->
     is_CloudError e = false ->
     container_service env self w =
       (Raise e,
        log (EvGet (group_name (group (resources self))) (name self))
            (log EvHaikunate w))).
Proof.
  intros Hcache Hhome Hkey. unfold public_key_path in Hkey.
  run_provisioning. rewrite Hcache, Hhome. simpl.
  rewrite !count_snoc_other by reflexivity.
  destruct (container_services_get env (count is_get (trace w))
              (group_name (group (resources self))) (name self))
    as [found|e]; simpl.
  - split; [|discriminate].
    rewrite !count_snoc_other by reflexivity. lia.
  - destruct (is_CloudError e) eqn:He; simpl.
    + split; [|intros ? [= <-]; congruence].
      rewrite Hkey. simpl.
      rewrite !count_snoc_other by reflexivity.
      match goal with
      | |- context [container_services_create_or_update ?a ?b ?c ?d ?f] =>
          destruct (container_services_create_or_update a b c d f) as [poller|e']
      end; simpl.
      * destruct (operation_result poller); simpl;
          rewrite !count_app; unfold count; simpl; lia.
      * rewrite !count_app; unfold count; simpl; lia.
    + split.
      * rewrite !count_snoc_other by reflexivity. lia.
      * intros e0 [= <-] _. reflexivity.
Qed.

Lemma creation_iff_CloudError_witness :
  (count is_create
     (trace (snd (container_service Scenario.forbidden Scenario.helper fresh))) =
   (count is_create (trace fresh) +
    if raises_CloudError (Raises (A := ContainerService) (CloudError 403))
    then 1 else 0)%nat /\
   (forall e,
      Raises (A := ContainerService) (CloudError 403) = Raises e ->
      is_CloudError e = false ->
      container_service Scenario.forbidden Scenario.helper fresh =
        (Raise e, log (EvGet "demo-group" "acsdemo") (log EvHaikunate fresh)))) /\
  container_service Scenario.unreachable Scenario.helper fresh =
    (Raise (OtherException "ConnectionError"),
     log (EvGet "demo-group" "acsdemo") (log EvHaikunate fresh)).
Proof.
  split.
  - apply (creation_iff_CloudError Scenario.forbidden Scenario.helper fresh
             "/home/operator" "ssh-rsa AAAAB3Nza operator@desk");
      reflexivity.
  - apply (creation_iff_CloudError Scenario.unreachable Scenario.helper fresh
             "/home/operator" "ssh-rsa AAAAB3Nza operator@desk");
      reflexivity.
Defined.

(** C2 as stated fails: a lookup refused with status 403, which is not a
    not-found error, is answered by a creation request and the refusal never
    reaches the caller. *)
Lemma creation_after_forbidden_lookup :
  ~ (count is_create
       (trace (snd (container_service Scenario.forbidden Scenario.helper fresh)))
     = 0%nat /\
     fst (container_service Scenario.forbidden Scenario.helper fresh)
     = Raise (CloudError 403)).
Proof. intros [H _]. vm_compute in H. discriminate H. Qed.

Lemma creation_request_fields (self : ContainerServiceHelper)
    (prefix key : string) :
  let request :=
    creation_request self prefix {| public_keys := [ {| key_data := key |} ] |} in
  master_count (master_profile request) = 1 /\
  master_dns_prefix (master_profile request) = prefix /\
  (exists pool,
     agent_pool_profiles request = [pool] /\
     vm_size pool = "Standard_D1_v2" /\
     agent_dns_prefix pool =
       master_dns_prefix (master_profile request) +:+ "-agent" /\
     agent_dns_prefix pool <> master_dns_prefix (master_profile request)) /\
  public_keys (ssh (linux_profile request)) = [ {| key_data := key |} ] /\
  orchestrator_type (orchestrator_profile request) = "DCOS".
Proof.
  simpl. repeat split.
  eexists. repeat split. simpl. apply append_nonempty_neq.
Qed.

Lemma creation_trace
    (env : Env) (self : ContainerServiceHelper) (w : World)
    (home key : string) (status : Z) :
  _container_service w = None ->
  container_services_get env (count is_get (trace w))
    (group_name (group (resources self))) (name self) = Raises (CloudError status) ->
  environ_HOME env = Some home ->
  read_file env (public_key_path home) = Returns key ->
  exists rest,
    trace (snd (container_service env self w)) =
      trace w ++
      [ EvHaikunate;
        EvGet (group_name (group (resources self))) (name self);
        EvOpenFile (public_key_path home);
        EvCreateOrUpdate (group_name (group (resources self))) (name self)
          (creation_request self (haikunate env (count is_haikunate (trace w)))
             {| public_keys := [ {| key_data := key |} ] |}) ]
      ++ rest /\
    count is_create rest = 0%nat.
Proof.
  intros Hcache Hlookup Hhome Hkey. unfold public_key_path in *.
  run_provisioning. rewrite Hcache, Hhome. simpl.
  rewrite !count_snoc_other by reflexivity. rewrite Hlookup. simpl.
  rewrite Hkey. simpl.
  match goal with
  | |- context [container_services_create_or_update ?a ?b ?c ?d ?f] =>
      destruct (container_services_create_or_update a b c d f) as [poller|e']
  end; simpl.
  - destruct (operation_result poller); simpl; rewrite <- !app_assoc; simpl;
      (exists [EvResult]; split; reflexivity).
  - rewrite <- !app_assoc; simpl. exists []. split; reflexivity.
Qed.

(** C7: when the lookup raises [CloudError] (not-found included) and the public
    key can be read, exactly one creation request follows the lookup.  It has
    one master, named by the generated prefix; exactly one agent pool, of size
    [Standard_D1_v2], whose prefix is the master's followed by [-agent] and so
    differs from it; the key read from the public key file as its only SSH key;
    and the orchestrator [DCOS]. *)
Theorem creation_request_shape
    (env : Env) (self : ContainerServiceHelper) (w : World)
    (home key : string) (status : Z) :
  _container_service w = None ->
  container_services_get env (count is_get (trace w))
    (group_name (group (resources self))) (name self) = Raises (CloudError status) ->
  environ_HOME env = Some home ->
  read_file env (public_key_path home) = Returns key ->
  exists request rest,
    trace (snd (container_service env self w)) =
      trace w ++
      [ EvHaikunate;
        EvGet (group_name (group (resources self))) (name self);
        EvOpenFile (public_key_path home);
        EvCreateOrUpdate (group_name (group (resources self))) (name self) request ]
      ++ rest /\
    count is_create rest = 0%nat /\
    master_count (master_profile request) = 1 /\
    master_dns_prefix (master_profile request) =
      haikunate env (count is_haikunate (trace w)) /\
    (exists pool,
       agent_pool_profiles request = [pool] /\
       vm_size pool = "Standard_D1_v2" /\
       agent_dns_prefix pool =
         master_dns_prefix (master_profile request) +:+ "-agent" /\
       agent_dns_prefix pool <> master_dns_prefix (master_profile request)) /\
    public_keys (ssh (linux_profile request)) = [ {| key_data := key |} ] /\
    orchestrator_type (orchestrator_profile request) = "DCOS".
Proof.
  intros Hcache Hlookup Hhome Hkey.
  destruct (creation_trace env self w home key status Hcache Hlookup Hhome Hkey)
    as (rest & Htrace & Hrest).
  eexists _, rest. split; [exact Htrace|]. split; [exact Hrest|].
  apply creation_request_fields.
Qed.

Lemma creation_request_shape_witness :
  exists request rest,
    trace (snd (container_service Scenario.green_field Scenario.helper fresh)) =
      [ EvHaikunate;
        EvGet "demo-group" "acsdemo";
        EvOpenFile "/home/operator/.ssh/id_rsa.pub";
        EvCreateOrUpdate "demo-group" "acsdemo" request ]
      ++ rest /\
    count is_create rest = 0%nat /\
    master_count (master_profile request) = 1 /\
    master_dns_prefix (master_profile request) = "calm-river-1234" /\
    (exists pool,
       agent_pool_profiles request = [pool] /\
       vm_size pool = "Standard_D1_v2" /\
       agent_dns_prefix pool =
         master_dns_prefix (master_profile request) +:+ "-agent" /\
       agent_dns_prefix pool <> master_dns_prefix (master_profile request)) /\
    public_keys (ssh (linux_profile request)) =
      [ {| key_data := "ssh-rsa AAAAB3Nza operator@desk" |} ] /\
    orchestrator_type (orchestrator_profile request) = "DCOS".
Proof.
  exact (creation_request_shape Scenario.green_field Scenario.helper fresh
           "/home/operator" "ssh-rsa AAAAB3Nza operator@desk" 404
           eq_refl eq_refl eq_refl eq_refl).
Defined.

(** ** The polling loop *)

Lemma logs_log (e : event) (w : World) : log e w = logs [e] w.
Proof. reflexivity. Qed.

Lemma logs_logs (evs evs' : list event) (w : World) :
  logs evs' (logs evs w) = logs (evs ++ evs') w.
Proof. unfold logs. simpl. now rewrite app_assoc. Qed.

Lemma count_logs (kind : event -> bool) (evs : list event) (w : World) :
  count kind (trace (logs evs w)) = (count kind (trace w) + count kind evs)%nat.
Proof. simpl. apply count_app. Qed.

Lemma bind_ok {A B} (m : M A) (k : A -> M B) (w w' : World) (a : A) :
  m w = (Ok a, w') -> bind m k w = k a w'.
Proof. intros H. unfold bind. now rewrite H. Qed.

Lemma bind_raise {A B} (m : M A) (k : A -> M B) (w w' : World) (e : exn) :
  m w = (Raise e, w') -> bind m k w = (Raise e, w').
Proof. intros H. unfold bind. now rewrite H. Qed.

Lemma bind_print {B} (line : string) (k : unit -> M B) (w : World) :
  bind (print line) k w = k tt (log (EvPrint line) w).
Proof. reflexivity. Qed.

Lemma bind_emit {B} (e : event) (k : unit -> M B) (w : World) :
  bind (emit e) k w = k tt (log e w).
Proof. reflexivity. Qed.

Section Polling.

Variable env : Env.
Variable base_url : string.

Local Abbreviation url := (base_url +:+ "deployments").

Lemma requests_get_url_returns (w : World) (response : Response) :
  requests_get env (count is_http_get (trace w)) url = Returns response ->
  requests_get_url env url w = (Ok response, log (EvHttpGet url) w).
Proof. intros H. unfold requests_get_url. now rewrite H. Qed.

Lemma sleep_returns (w : World) (seconds : Z) :
  time_sleep env (count is_sleep (trace w)) seconds = Returns tt ->
  sleep env seconds w = (Ok tt, log (EvSleep seconds) w).
Proof. intros H. unfold sleep. now rewrite H. Qed.

Lemma response_json_some (response : Response) (j : json) (w : World) :
  body response = Some j -> response_json response w = (Ok j, w).
Proof. intros H. unfold response_json. now rewrite H. Qed.

(** A round that finds pending deployments sleeps and goes round again. *)
Lemma poll_round_pending (fuel : nat) (w : World) (response : Response) (j : json) :
  requests_get env (count is_http_get (trace w)) url = Returns response ->
  body response = Some j ->
  truthy j = true ->
  time_sleep env (count is_sleep (trace w)) 5 = Returns tt ->
  poll env (S fuel) base_url w = poll env fuel base_url (logs (waiting_round url) w).
Proof.
  intros Hget Hbody Htruthy Hsleep.
  cbn [poll]. rewrite !bind_print.
  erewrite bind_ok.
  2:{ apply requests_get_url_returns.
      rewrite !count_log_other by reflexivity. exact Hget. }
  erewrite bind_ok by (apply response_json_some; exact Hbody).
  rewrite Htruthy, bind_print.
  erewrite bind_ok.
  2:{ apply sleep_returns. rewrite !count_log_other by reflexivity. exact Hsleep. }
  rewrite !logs_log, !logs_logs. reflexivity.
Qed.

(** A round that finds none ends the loop. *)
Lemma poll_round_done (fuel : nat) (w : World) (response : Response) (j : json) :
  requests_get env (count is_http_get (trace w)) url = Returns response ->
  body response = Some j ->
  truthy j = false ->
  poll env (S fuel) base_url w = (Ok tt, logs (final_round url) w).
Proof.
  intros Hget Hbody Htruthy.
  cbn [poll]. rewrite !bind_print.
  erewrite bind_ok.
  2:{ apply requests_get_url_returns.
      rewrite !count_log_other by reflexivity. exact Hget. }
  erewrite bind_ok by (apply response_json_some; exact Hbody).
  rewrite Htruthy.
  rewrite !logs_log, !logs_logs. reflexivity.
Qed.

Lemma count_rounds (kind : event -> bool) (n : nat) :
  count kind (concat (replicate n (waiting_round url))) =
  (n * count kind (waiting_round url))%nat.
Proof.
  induction n as [|n IH]; [reflexivity|].
  change (concat (replicate (S n) (waiting_round url)))
    with (waiting_round url ++ concat (replicate n (waiting_round url))).
  rewrite count_app, IH. lia.
Qed.

(** C4: when the GETs are answered by non-empty lists and then by the empty
    list, and the sleeps in between return, the loop ends normally after one
    GET per answer: its history is one waiting round (the GET, then a sleep of
    5 seconds) per non-empty answer and then the final GET, so there are as
    many GETs as answers and as many sleeps as non-empty answers. *)
Theorem poll_drains (pending : list json) (fuel : nat) (w : World) :
  Forall (fun j => exists first others, j = JArr (first :: others)) pending ->
  (forall i j, (pending ++ [JArr []]) !! i = Some j ->
     exists status,
       requests_get env (count is_http_get (trace w) + i) url =
       Returns {| status_code := status; body := Some j |}) ->
  (forall i, (i < length pending)%nat ->
     time_sleep env (count is_sleep (trace w) + i) 5 = Returns tt) ->
  (length pending < fuel)%nat ->
  poll env fuel base_url w =
    (Ok tt,
     logs (concat (replicate (length pending) (waiting_round url))
           ++ final_round url) w) /\
  count is_http_get (trace (snd (poll env fuel base_url w))) =
    (count is_http_get (trace w) + length (pending ++ [JArr []]))%nat /\
  count is_sleep (trace (snd (poll env fuel base_url w))) =
    (count is_sleep (trace w) + length pending)%nat.
Proof.
  intros Hpending Hgets Hsleeps Hfuel.
  assert (Hrun : poll env fuel base_url w =
    (Ok tt, logs (concat (replicate (length pending) (waiting_round url))
                  ++ final_round url) w)).
  { revert fuel w Hgets Hsleeps Hfuel.
    induction Hpending as [|j pending (first & others & ->) _ IH];
      intros fuel w Hgets Hsleeps Hfuel.
    - destruct fuel as [|fuel]; [simpl in Hfuel; lia|].
      destruct (Hgets 0%nat (JArr []) eq_refl) as [status Hget].
      rewrite Nat.add_0_r in Hget.
      now rewrite (poll_round_done fuel w _ (JArr []) Hget eq_refl eq_refl).
    - destruct fuel as [|fuel]; [simpl in Hfuel; lia|].
      destruct (Hgets 0%nat (JArr (first :: others)) eq_refl) as [status Hget].
      rewrite Nat.add_0_r in Hget.
      rewrite (poll_round_pending fuel w _ _ Hget eq_refl eq_refl).
      2:{ rewrite <- (Nat.add_0_r (count is_sleep (trace w))).
          apply Hsleeps. simpl. lia. }
      rewrite IH.
      + rewrite logs_logs. reflexivity.
      + intros i j Hj. rewrite count_logs.
        change (count is_http_get (waiting_round url)) with 1%nat.
        replace (count is_http_get (trace w) + 1 + i)%nat
          with (count is_http_get (trace w) + S i)%nat by lia.
        apply Hgets. exact Hj.
      + intros i Hi. rewrite count_logs.
        change (count is_sleep (waiting_round url)) with 1%nat.
        replace (count is_sleep (trace w) + 1 + i)%nat
          with (count is_sleep (trace w) + S i)%nat by lia.
        apply Hsleeps. simpl. lia.
      + simpl in Hfuel. lia. }
  rewrite Hrun. split; [reflexivity|]. cbn [snd].
  rewrite !count_logs, !count_app, !count_rounds, length_app.
  change (count is_http_get (waiting_round url)) with 1%nat.
  change (count is_http_get (final_round url)) with 1%nat.
  change (count is_sleep (waiting_round url)) with 1%nat.
  change (count is_sleep (final_round url)) with 0%nat.
  simpl length. split; lia.
Qed.

End Polling.

Lemma poll_drains_witness :
  poll Scenario.green_field 3 "http://127.0.0.1:8001/marathon/v2/" fresh =
    (Ok tt,
     logs (concat (replicate 2
                     (waiting_round "http://127.0.0.1:8001/marathon/v2/deployments"))
           ++ final_round "http://127.0.0.1:8001/marathon/v2/deployments") fresh) /\
  count is_http_get
    (trace (snd (poll Scenario.green_field 3 "http://127.0.0.1:8001/marathon/v2/" fresh)))
    = 3%nat /\
  count is_sleep
    (trace (snd (poll Scenario.green_field 3 "http://127.0.0.1:8001/marathon/v2/" fresh)))
    = 2%nat.
Proof.
  apply (poll_drains Scenario.green_field "http://127.0.0.1:8001/marathon/v2/"
           [Scenario.pending_list; Scenario.pending_list] 3 fresh).
  - repeat constructor; eexists; eexists; reflexivity.
  - intros i j H. destruct i as [|[|[|i]]]; simpl in H.
    + injection H as <-. eexists. reflexivity.
    + injection H as <-. eexists. reflexivity.
    + injection H as <-. eexists. reflexivity.
    + discriminate H.
  - intros i _. reflexivity.
  - simpl. lia.
Defined.

(** ** The tunnel *)

Lemma same_tunnels_refl (w : World) : same_tunnels w w.
Proof. reflexivity. Qed.

Lemma same_tunnels_trans (w1 w2 w3 : World) :
  same_tunnels w1 w2 -> same_tunnels w2 w3 -> same_tunnels w1 w3.
Proof. unfold same_tunnels. congruence. Qed.

Lemma same_count_refl (kind : event -> bool) (w : World) : same_count kind w w.
Proof. reflexivity. Qed.

Lemma same_count_trans (kind : event -> bool) (w1 w2 w3 : World) :
  same_count kind w1 w2 -> same_count kind w2 w3 -> same_count kind w1 w3.
Proof. unfold same_count. congruence. Qed.

Lemma keeps_logged (R : World -> World -> Prop) {A}
    (answer : World -> reply A) (e : event) :
  (forall w, R w (log e w)) ->
  keeps R (fun w => of_reply (answer w) (log e w)).
Proof. intros He w r w' H. destruct (answer w); inversion H; subst; apply He. Qed.

Lemma keeps_emit (R : World -> World -> Prop) (e : event) :
  (forall w, R w (log e w)) -> keeps R (emit e).
Proof. intros He w r w' H. inversion H; subst. apply He. Qed.

Lemma tunnels_bind {A B} (m : M A) (k : A -> M B) :
  keeps same_tunnels m -> (forall a, keeps same_tunnels (k a)) ->
  keeps same_tunnels (bind m k).
Proof. apply keeps_bind, same_tunnels_trans. Qed.

Lemma tunnels_ret {A} (a : A) : keeps same_tunnels (ret a).
Proof. apply keeps_ret, same_tunnels_refl. Qed.

Lemma tunnels_raise {A} (e : exn) : keeps same_tunnels (@raise A e).
Proof. apply keeps_raise, same_tunnels_refl. Qed.

Lemma tunnels_out_of_fuel {A} : keeps same_tunnels (@out_of_fuel A).
Proof. apply keeps_out_of_fuel, same_tunnels_refl. Qed.

Lemma tunnels_emit (e : event) : keeps same_tunnels (emit e).
Proof. apply keeps_emit. reflexivity. Qed.

Lemma tunnels_logged {A} (answer : World -> reply A) (e : event) :
  keeps same_tunnels (fun w => of_reply (answer w) (log e w)).
Proof. apply keeps_logged. reflexivity. Qed.

(** Walk through a computation built from the pieces above. *)
Ltac keep_tunnels :=
  repeat (intros; first
    [ assumption
    | apply tunnels_bind
    | apply tunnels_emit
    | apply tunnels_ret
    | apply tunnels_raise
    | apply tunnels_out_of_fuel
    | apply tunnels_logged
    | match goal with
      | |- keeps _ (match ?c with _ => _ end) => destruct c
      end ]).

Section Tunnels.

Variable env : Env.
Variable self : ContainerServiceHelper.

Lemma tunnels_poll (fuel : nat) (base_url : string) :
  keeps same_tunnels (poll env fuel base_url).
Proof.
  induction fuel as [|fuel IH]; cbn [poll];
    unfold print, requests_get_url, response_json, sleep; keep_tunnels.
Qed.

Lemma tunnels_deploy_body (fuel : nat)
    (registry : option ContainerRegistryHelper) (tunnel : TunnelArgs) :
  keeps same_tunnels (deploy_body env self fuel registry tunnel).
Proof.
  pose proof (tunnels_poll fuel (marathon_base_url tunnel)) as Hpoll.
  unfold deploy_body, print, requests_post_json, response_json, py_in, py_getitem.
  keep_tunnels.
Qed.

Lemma tunnels_master_ssh_address : keeps same_tunnels (master_ssh_address env self).
Proof.
  apply (keeps_master_ssh_address env self same_tunnels
           same_tunnels_refl same_tunnels_trans); reflexivity.
Qed.

Lemma tunnels_ssh_tunnel_args (rh lh : string) (rp lp : Z) :
  keeps same_tunnels (ssh_tunnel_args env self rh lh rp lp).
Proof.
  apply (keeps_ssh_tunnel_args env self same_tunnels
           same_tunnels_refl same_tunnels_trans); reflexivity.
Qed.

Lemma tunnels_deploy_under (fuel : nat)
    (registry : option ContainerRegistryHelper) (forwarder : Forwarder) :
  keeps same_tunnels (deploy_under env self fuel registry forwarder).
Proof.
  unfold deploy_under. destruct (entered_as forwarder).
  - apply tunnels_deploy_body.
  - apply tunnels_raise.
Qed.

(** The [with] statement over the forwarder: if it comes back at all, every
    tunnel of a scope that was entered is closed again, and what is open on
    top of before is what a failed [start()] left up. *)
Lemma with_tunnel_balanced {A} (args : TunnelArgs) (body : Forwarder -> M A)
    (w w' : World) (r : outcome A) :
  (forall forwarder, keeps same_tunnels (body forwarder)) ->
  with_object (SSHTunnelForwarder_enter env args) SSHTunnelForwarder_exit body w
    = (r, w') ->
  finished r = true ->
  open_tunnels w' =
    (open_tunnels w
     + leftover (tunnel_start env (count is_tunnel_start (trace w)) args))%nat.
Proof.
  intros Hbody H Hfinished.
  unfold with_object, bind, SSHTunnelForwarder_enter in H.
  destruct (tunnel_start env (count is_tunnel_start (trace w)) args)
    as [|e up]; cbn [leftover].
  - match type of H with
    | context [body ?f ?w0] =>
        destruct (body f w0) as [[a|e|] w2] eqn:Hrun
    end;
      apply Hbody in Hrun; unfold same_tunnels in Hrun; simpl in *;
      inversion H; subst; simpl in *; try discriminate;
      rewrite Hrun; lia.
  - destruct (is_KeyboardInterrupt e).
    + match type of H with
      | context [body ?f ?w0] =>
          destruct (body f w0) as [[a|e'|] w2] eqn:Hrun
      end;
        apply Hbody in Hrun; unfold same_tunnels in Hrun;
        destruct up; simpl in *;
        inversion H; subst; simpl in *; try discriminate;
        rewrite Hrun; lia.
    + destruct up; inversion H; subst; simpl; lia.
Qed.

End Tunnels.

(** C3, as the code has it: whenever [deploy_container] comes back to its
    caller, with a value or with any exception (an error of the POST or of a
    GET, Ctrl-C during a sleep or during the start, the exit after a failed
    tunnel), every tunnel whose scope was entered has been stopped, and the
    tunnels open on top of those open before the call are exactly the
    transports that a [start()] which raised had left up: [deploy_container]
    stops nothing when entering the scope fails. *)
Theorem deploy_container_closes_tunnel
    (env : Env) (self : ContainerServiceHelper) (fuel : nat)
    (registry : option ContainerRegistryHelper) (w : World) :
  finished (fst (deploy_container env self fuel registry w)) = true ->
  open_tunnels (snd (deploy_container env self fuel registry w))
    = (open_tunnels w + left_by_start env self w)%nat.
Proof.
  destruct (deploy_container env self fuel registry w) as [r w'] eqn:H.
  simpl. intros Hfinished.
  unfold deploy_container, try_except in H.
  match type of H with
  | (let (_, _) := ?inner w in _) = _ =>
      destruct (inner w) as [ri wi] eqn:Hinner
  end.
  assert (Hbalanced : finished ri = true ->
            open_tunnels wi = (open_tunnels w + left_by_start env self w)%nat).
  { intros Hri. unfold bind in Hinner. unfold left_by_start.
    destruct (ssh_tunnel_args env self "127.0.0.1" "127.0.0.1" 80 8001 w)
      as [[args|e|] w1] eqn:Hargs.
    - rewrite <- (tunnels_ssh_tunnel_args env self _ _ _ _ _ _ _ Hargs).
      eapply with_tunnel_balanced;
        [apply tunnels_deploy_under | exact Hinner | exact Hri].
    - inversion Hinner; subst.
      rewrite (tunnels_ssh_tunnel_args env self _ _ _ _ _ _ _ Hargs). lia.
    - inversion Hinner; subst. discriminate Hri. }
  destruct ri as [a|e|].
  - inversion H; subst. now apply Hbalanced.
  - destruct (is_HandlerSSHTunnelForwarderError e).
    + rewrite <- Hbalanced by reflexivity.
      change (same_tunnels wi w').
      revert H. generalize wi r w'.
      change (keeps same_tunnels
        (emit (EvPrintExc e) ;;
         print "Opening SSH tunnel failed." ;;
         print "Please try the following command in a terminal:" ;;
         addr <- master_ssh_address env self ;;
         print (manual_command "127.0.0.1" 8001 "127.0.0.1" 80 addr) ;;
         sys_exit (A := unit) 1)).
      pose proof (tunnels_master_ssh_address env self).
      unfold print, sys_exit. keep_tunnels.
    + inversion H; subst. now apply Hbalanced.
  - inversion H; subst. discriminate Hfinished.
Qed.

Lemma deploy_container_closes_tunnel_witness :
  open_tunnels
    (snd (deploy_container Scenario.green_field Scenario.helper 5 None fresh))
    = (open_tunnels fresh
       + left_by_start Scenario.green_field Scenario.helper fresh)%nat /\
  open_tunnels
    (snd (deploy_container Scenario.interrupted Scenario.helper 5 None fresh))
    = (open_tunnels fresh
       + left_by_start Scenario.interrupted Scenario.helper fresh)%nat /\
  open_tunnels
    (snd (deploy_container Scenario.start_interrupted Scenario.helper 5 None fresh))
    = (open_tunnels fresh
       + left_by_start Scenario.start_interrupted Scenario.helper fresh)%nat /\
  open_tunnels
    (snd (deploy_container Scenario.tunnel_down Scenario.helper 5 None fresh))
    = (open_tunnels fresh
       + left_by_start Scenario.tunnel_down Scenario.helper fresh)%nat.
Proof.
  split; [|split; [|split]].
  - apply (deploy_container_closes_tunnel
             Scenario.green_field Scenario.helper 5 None fresh).
    vm_compute. reflexivity.
  - apply (deploy_container_closes_tunnel
             Scenario.interrupted Scenario.helper 5 None fresh).
    vm_compute. reflexivity.
  - apply (deploy_container_closes_tunnel
             Scenario.start_interrupted Scenario.helper 5 None fresh).
    vm_compute. reflexivity.
  - apply (deploy_container_closes_tunnel
             Scenario.tunnel_down Scenario.helper 5 None fresh).
    vm_compute. reflexivity.
Defined.

(** C3 as stated fails: the session to the gateway is established, the forward
    cannot be set up and [start()] raises; [deploy_container] comes back with
    [SystemExit(1)] while that transport is still up. *)
Lemma failed_start_leaves_transport_up :
  ~ (finished
       (fst (deploy_container Scenario.tunnel_down Scenario.helper 5 None fresh))
     = true ->
     open_tunnels
       (snd (deploy_container Scenario.tunnel_down Scenario.helper 5 None fresh))
     = open_tunnels fresh).
Proof. intros H. specialize (H eq_refl). vm_compute in H. discriminate H. Qed.

(** The same run in figures: no teardown is called, and one transport is up. *)
Example failed_start_outcome :
  fst (deploy_container Scenario.tunnel_down Scenario.helper 5 None fresh)
    = Raise (SystemExit 1) /\
  count is_tunnel_stop
    (trace (snd (deploy_container Scenario.tunnel_down Scenario.helper 5 None fresh)))
    = 0%nat /\
  open_tunnels
    (snd (deploy_container Scenario.tunnel_down Scenario.helper 5 None fresh))
    = 1%nat /\
  left_by_start Scenario.tunnel_down Scenario.helper fresh = 1%nat.
Proof. vm_compute. repeat split. Qed.

(** A gateway that refuses the session raises the base class, which the
    handler does not take; nothing was up, nothing is left. *)
Example refused_gateway_outcome :
  fst (deploy_container Scenario.gateway_refused Scenario.helper 5 None fresh)
    = Raise (OtherException "BaseSSHTunnelForwarderError") /\
  printed
    (trace (snd (deploy_container Scenario.gateway_refused Scenario.helper
                   5 None fresh))) = [] /\
  open_tunnels
    (snd (deploy_container Scenario.gateway_refused Scenario.helper 5 None fresh))
    = 0%nat.
Proof. vm_compute. repeat split. Qed.

(** Ctrl-C during the start: [__enter__] tears down and hands over [None], the
    first statement of the body raises [AttributeError], and [__exit__] runs
    once more. *)
Example start_interrupted_outcome :
  fst (deploy_container Scenario.start_interrupted Scenario.helper 5 None fresh)
    = Raise AttributeError /\
  count is_tunnel_stop
    (trace (snd (deploy_container Scenario.start_interrupted Scenario.helper
                   5 None fresh)))
    = 2%nat /\
  count is_post
    (trace (snd (deploy_container Scenario.start_interrupted Scenario.helper
                   5 None fresh)))
    = 0%nat /\
  open_tunnels
    (snd (deploy_container Scenario.start_interrupted Scenario.helper 5 None fresh))
    = 0%nat.
Proof. vm_compute. repeat split. Qed.

(** In the runs whose scope is entered, nothing is left open. *)
Example entered_scope_outcomes :
  left_by_start Scenario.green_field Scenario.helper fresh = 0%nat /\
  open_tunnels
    (snd (deploy_container Scenario.green_field Scenario.helper 5 None fresh))
    = 0%nat /\
  open_tunnels
    (snd (deploy_container Scenario.post_down Scenario.helper 5 None fresh))
    = 0%nat /\
  open_tunnels
    (snd (deploy_container Scenario.interrupted Scenario.helper 5 None fresh))
    = 0%nat.
Proof. vm_compute. repeat split. Qed.

Example deploy_container_outcomes :
  fst (deploy_container Scenario.green_field Scenario.helper 5 None fresh) = Ok tt /\
  fst (deploy_container Scenario.post_down Scenario.helper 5 None fresh)
    = Raise (OtherException "ConnectionError") /\
  fst (deploy_container Scenario.interrupted Scenario.helper 5 None fresh)
    = Raise KeyboardInterrupt /\
  count is_tunnel_stop
    (trace (snd (deploy_container Scenario.interrupted Scenario.helper 5 None fresh)))
    = 1%nat.
Proof. vm_compute. repeat split. Qed.

(** While the loop is still running the tunnel is open. *)
Example deploy_container_still_polling :
  fst (deploy_container Scenario.green_field Scenario.helper 2 None fresh) = OutOfFuel /\
  open_tunnels
    (snd (deploy_container Scenario.green_field Scenario.helper 2 None fresh)) = 1%nat.
Proof. vm_compute. split; reflexivity. Qed.

(** ** What [deploy_container] does before the tunnel *)

Section BeforeTunnel.

Variable env : Env.
Variable self : ContainerServiceHelper.

Lemma master_ssh_address_cached (w : World) (cs : ContainerService) :
  _container_service w = Some cs ->
  master_ssh_address env self w = (Ok (fqdn (master_profile cs)), log EvHaikunate w).
Proof.
  intros H. unfold master_ssh_address.
  now rewrite (bind_ok _ _ _ _ _ (container_service_cached env self w cs H)).
Qed.

Lemma ssh_tunnel_args_ok (rh lh : string) (rp lp : Z)
    (w w1 : World) (args : TunnelArgs) :
  ssh_tunnel_args env self rh lh rp lp w = (Ok args, w1) ->
  exists cs home,
    _container_service w1 = Some cs /\
    environ_HOME env = Some home /\
    args = {| ssh_address_or_host := (fqdn (master_profile cs), 2200);
              ssh_username := name self;
              remote_bind_address := (rh, rp);
              local_bind_address := (lh, lp);
              ssh_pkey := PyStr.path_join (PyStr.path_join home ".ssh") "id_rsa" |}.
Proof.
  unfold ssh_tunnel_args, master_ssh_address, get_key_path, bind.
  destruct (container_service env self w) as [[cs|e|] w2] eqn:Hcs;
    cbn [ret]; try discriminate.
  apply container_service_result in Hcs as [_ Hstore].
  destruct (environ_HOME env) as [home|]; cbn [ret raise]; [|discriminate].
  intros [= <- <-]. exists cs, home. auto.
Qed.

Lemma ssh_tunnel_args_same_count (kind : event -> bool) (rh lh : string) (rp lp : Z) :
  (forall e, is_provisioning e = true -> kind e = false) ->
  keeps (same_count kind) (ssh_tunnel_args env self rh lh rp lp).
Proof.
  intros Hkind.
  apply (keeps_ssh_tunnel_args env self (same_count kind)
           (same_count_refl kind) (same_count_trans kind)).
  - intros e w He. apply count_log_other. now apply Hkind.
  - reflexivity.
Qed.

Lemma tunnel_start_raises (args : TunnelArgs) (w : World) (e : exn)
    (transport_up : bool) :
  tunnel_start env (count is_tunnel_start (trace w)) args
    = StartRaises e transport_up ->
  is_KeyboardInterrupt e = false ->
  SSHTunnelForwarder_enter env args w =
    (Raise e,
     if transport_up then tunnel_opened (log (EvTunnelStart args) w)
     else log (EvTunnelStart args) w).
Proof. intros H He. unfold SSHTunnelForwarder_enter. now rewrite H, He. Qed.

Lemma tunnel_start_returns (args : TunnelArgs) (w : World) :
  tunnel_start env (count is_tunnel_start (trace w)) args = Started ->
  SSHTunnelForwarder_enter env args w =
    (Ok {| forwarder_args := args; transport_active := true;
           entered_as := Some args |},
     tunnel_opened (log (EvTunnelStart args) w)).
Proof. intros H. unfold SSHTunnelForwarder_enter. now rewrite H. Qed.

End BeforeTunnel.

(** C5, as the code has it: when starting the forwarder raises
    [HandlerSSHTunnelForwarderError], [deploy_container] prints the traceback,
    two lines of explanation and the command
    [ssh -N -L <local host>:<local port>:<remote host>:<remote port> <master>],
    whose five parts are the local and remote bind addresses and the master
    host of the tunnel it tried to open, and leaves with [SystemExit(1)]; no
    POST and no GET is made. *)
Theorem tunnel_failure_reported
    (env : Env) (self : ContainerServiceHelper) (fuel : nat)
    (registry : option ContainerRegistryHelper)
    (w w1 : World) (args : TunnelArgs) (transport_up : bool) :
  ssh_tunnel_args env self "127.0.0.1" "127.0.0.1" 80 8001 w = (Ok args, w1) ->
  tunnel_start env (count is_tunnel_start (trace w1)) args
    = StartRaises HandlerSSHTunnelForwarderError transport_up ->
  fst (deploy_container env self fuel registry w) = Raise (SystemExit 1) /\
  trace (snd (deploy_container env self fuel registry w)) =
    trace w1 ++
    [ EvTunnelStart args;
      EvPrintExc HandlerSSHTunnelForwarderError;
      EvPrint "Opening SSH tunnel failed.";
      EvPrint "Please try the following command in a terminal:";
      EvHaikunate;
      EvPrint (manual_command
                 (fst (local_bind_address args)) (snd (local_bind_address args))
                 (fst (remote_bind_address args)) (snd (remote_bind_address args))
                 (fst (ssh_address_or_host args))) ] /\
  count is_post (trace (snd (deploy_container env self fuel registry w)))
    = count is_post (trace w) /\
  count is_http_get (trace (snd (deploy_container env self fuel registry w)))
    = count is_http_get (trace w).
Proof.
  intros Hargs Hstart.
  assert (Hrun : deploy_container env self fuel registry w =
    (Raise (SystemExit 1),
     logs [ EvPrintExc HandlerSSHTunnelForwarderError;
            EvPrint "Opening SSH tunnel failed.";
            EvPrint "Please try the following command in a terminal:";
            EvHaikunate;
            EvPrint (manual_command
                       (fst (local_bind_address args)) (snd (local_bind_address args))
                       (fst (remote_bind_address args)) (snd (remote_bind_address args))
                       (fst (ssh_address_or_host args))) ]
       (if transport_up then tunnel_opened (log (EvTunnelStart args) w1)
        else log (EvTunnelStart args) w1))).
  { destruct (ssh_tunnel_args_ok env self _ _ _ _ _ _ _ Hargs)
      as (cs & home & Hcache & _ & Hshape).
    unfold deploy_container, try_except.
    rewrite (bind_ok _ _ _ _ _ Hargs). unfold with_object.
    rewrite (bind_raise _ _ _ _ _
               (tunnel_start_raises env args w1 _ _ Hstart eq_refl)).
    cbn [is_HandlerSSHTunnelForwarderError].
    rewrite bind_emit, !bind_print.
    erewrite bind_ok.
    2:{ apply master_ssh_address_cached with (cs := cs).
        destruct transport_up; exact Hcache. }
    rewrite bind_print. unfold sys_exit, raise.
    rewrite !logs_log, !logs_logs. rewrite Hshape. reflexivity. }
  rewrite Hrun. cbn [fst snd].
  assert (Htrace :
    trace (if transport_up then tunnel_opened (log (EvTunnelStart args) w1)
           else log (EvTunnelStart args) w1) = trace w1 ++ [EvTunnelStart args])
    by (destruct transport_up; reflexivity).
  split; [reflexivity|].
  cbn [logs trace]. rewrite Htrace, <- app_assoc.
  split; [reflexivity|].
  rewrite !count_app.
  rewrite (ssh_tunnel_args_same_count env self is_post _ _ _ _
             ltac:(intros []; simpl; congruence) _ _ _ Hargs).
  rewrite (ssh_tunnel_args_same_count env self is_http_get _ _ _ _
             ltac:(intros []; simpl; congruence) _ _ _ Hargs).
  unfold count. simpl. split; lia.
Qed.

Lemma tunnel_failure_reported_witness :
  fst (deploy_container Scenario.tunnel_down Scenario.helper 5 None fresh)
    = Raise (SystemExit 1) /\
  trace (snd (deploy_container Scenario.tunnel_down Scenario.helper 5 None fresh)) =
    trace (snd (ssh_tunnel_args Scenario.tunnel_down Scenario.helper
                  "127.0.0.1" "127.0.0.1" 80 8001 fresh)) ++
    [ EvTunnelStart Scenario.tunnel_args;
      EvPrintExc HandlerSSHTunnelForwarderError;
      EvPrint "Opening SSH tunnel failed.";
      EvPrint "Please try the following command in a terminal:";
      EvHaikunate;
      EvPrint (manual_command "127.0.0.1" 8001 "127.0.0.1" 80
                 (Some "acsdemo-mgmt.westus.cloudapp.azure.com")) ] /\
  count is_post
    (trace (snd (deploy_container Scenario.tunnel_down Scenario.helper 5 None fresh)))
    = count is_post (trace fresh) /\
  count is_http_get
    (trace (snd (deploy_container Scenario.tunnel_down Scenario.helper 5 None fresh)))
    = count is_http_get (trace fresh).
Proof.
  apply (tunnel_failure_reported Scenario.tunnel_down Scenario.helper 5 None fresh
           (snd (ssh_tunnel_args Scenario.tunnel_down Scenario.helper
                   "127.0.0.1" "127.0.0.1" 80 8001 fresh))
           Scenario.tunnel_args true).
  - vm_compute. reflexivity.
  - reflexivity.
Defined.

Example manual_command_printed :
  manual_command "127.0.0.1" 8001 "127.0.0.1" 80
    (Some "acsdemo-mgmt.westus.cloudapp.azure.com")
  = "ssh -N -L 127.0.0.1:8001:127.0.0.1:80 acsdemo-mgmt.westus.cloudapp.azure.com".
Proof. vm_compute. reflexivity. Qed.

(** C5 as stated fails: the tunnel that could not be opened logs in as
    [acsdemo] on port 2200 with the key [/home/operator/.ssh/id_rsa], and no
    printed line carries that login, that port and that key. *)
Lemma manual_command_omits_login_port_key :
  ~ (exists line,
       In line
          (printed
             (trace (snd (deploy_container Scenario.tunnel_down Scenario.helper
                            5 None fresh)))) /\
       names_whole_tunnel Scenario.tunnel_args line = true).
Proof.
  intros (line & Hin & Hnames). vm_compute in Hin.
  repeat (destruct Hin as [<-|Hin]; [vm_compute in Hnames; discriminate Hnames|]).
  exact Hin.
Qed.

Example manual_command_parts_missing :
  PyStr.contains "acsdemo@"
    (manual_command "127.0.0.1" 8001 "127.0.0.1" 80
       (Some "acsdemo-mgmt.westus.cloudapp.azure.com")) = false /\
  PyStr.contains "2200"
    (manual_command "127.0.0.1" 8001 "127.0.0.1" 80
       (Some "acsdemo-mgmt.westus.cloudapp.azure.com")) = false /\
  PyStr.contains "id_rsa"
    (manual_command "127.0.0.1" 8001 "127.0.0.1" 80
       (Some "acsdemo-mgmt.westus.cloudapp.azure.com")) = false.
Proof. vm_compute. repeat split. Qed.

(** ** Submission *)

Section Submission.

Variable env : Env.
Variable self : ContainerServiceHelper.

Lemma requests_post_json_raises (url : string) (payload : json) (w : World) (e : exn) :
  requests_post env (count is_post (trace w)) url payload = Raises e ->
  requests_post_json env url payload w = (Raise e, log (EvPost url payload) w).
Proof. intros H. unfold requests_post_json. now rewrite H. Qed.

Lemma requests_post_json_returns (url : string) (payload : json) (w : World)
    (response : Response) :
  requests_post env (count is_post (trace w)) url payload = Returns response ->
  requests_post_json env url payload w = (Ok response, log (EvPost url payload) w).
Proof. intros H. unfold requests_post_json. now rewrite H. Qed.

(** A POST that raises, or whose answer is not JSON, ends the body at once. *)
Lemma deploy_body_submission_failure (fuel : nat)
    (registry : option ContainerRegistryHelper) (tunnel : TunnelArgs)
    (w : World) (e : exn) :
  submission_failure
    (requests_post env (count is_post (trace w))
       (marathon_base_url tunnel +:+ "apps")
       (JObj (marathon_deploy_params self registry))) = Some e ->
  deploy_body env self fuel registry tunnel w =
    (Raise e,
     logs [ EvPrint ("Attempting to deploy Docker image " +:+ docker_tag self);
            EvPost (marathon_base_url tunnel +:+ "apps")
                   (JObj (marathon_deploy_params self registry)) ] w).
Proof.
  intros H. unfold deploy_body. rewrite bind_print.
  destruct (requests_post env (count is_post (trace w))
              (marathon_base_url tunnel +:+ "apps")
              (JObj (marathon_deploy_params self registry)))
    as [response|e'] eqn:Hpost; simpl in H.
  - destruct (body response) as [j|] eqn:Hbody; [discriminate|].
    injection H as <-.
    erewrite bind_ok.
    2:{ apply requests_post_json_returns.
        rewrite count_log_other by reflexivity. exact Hpost. }
    unfold response_json. rewrite Hbody.
    rewrite !logs_log, !logs_logs. reflexivity.
  - injection H as <-.
    erewrite bind_raise.
    2:{ apply requests_post_json_raises.
        rewrite count_log_other by reflexivity. exact Hpost. }
    rewrite !logs_log, !logs_logs. reflexivity.
Qed.

End Submission.

Lemma bind_ret {A B} (a : A) (k : A -> M B) (w : World) :
  bind (ret a) k w = k a w.
Proof. reflexivity. Qed.

Lemma deploy_body_steps
    (env : Env) (self : ContainerServiceHelper) (fuel : nat)
    (registry : option ContainerRegistryHelper) (tunnel : TunnelArgs)
    (w : World) (response : Response) (content : json) :
  requests_post env (count is_post (trace w))
    (marathon_base_url tunnel +:+ "apps")
    (JObj (marathon_deploy_params self registry)) = Returns response ->
  body response = Some content ->
  deploy_body env self fuel registry tunnel w =
    match content_report content with
    | Some report =>
        poll env fuel (marathon_base_url tunnel)
          (logs [ EvPrint ("Attempting to deploy Docker image " +:+ docker_tag self);
                  EvPost (marathon_base_url tunnel +:+ "apps")
                         (JObj (marathon_deploy_params self registry));
                  EvPrint "Deployment request successful.";
                  report ] w)
    | None =>
        (Raise TypeError,
         logs [ EvPrint ("Attempting to deploy Docker image " +:+ docker_tag self);
                EvPost (marathon_base_url tunnel +:+ "apps")
                       (JObj (marathon_deploy_params self registry));
                EvPrint "Deployment request successful." ] w)
    end.
Proof.
  intros Hpost Hbody. unfold deploy_body. rewrite bind_print.
  erewrite bind_ok.
  2:{ apply requests_post_json_returns.
      rewrite count_log_other by reflexivity. exact Hpost. }
  erewrite bind_ok by (apply response_json_some; exact Hbody).
  rewrite bind_print.
  destruct content as [| b | n | q | s | items | fields];
    cbn [py_in content_report];
    try (unfold bind, raise; rewrite !logs_log, !logs_logs; reflexivity).
  - rewrite bind_ret.
    destruct (PyStr.contains "deployments" s).
    + cbn [py_getitem]. unfold bind, raise.
      rewrite !logs_log, !logs_logs. reflexivity.
    + rewrite bind_emit. rewrite !logs_log, !logs_logs. reflexivity.
  - rewrite bind_ret.
    destruct (existsb _ items).
    + cbn [py_getitem]. unfold bind, raise.
      rewrite !logs_log, !logs_logs. reflexivity.
    + rewrite bind_emit. rewrite !logs_log, !logs_logs. reflexivity.
  - rewrite bind_ret. cbv beta. cbn [py_getitem].
    destruct (fields !! "deployments") as [deployments|] eqn:Hfield.
    + rewrite bool_decide_eq_true_2 by eauto.
      unfold bind, ret, emit. rewrite !logs_log, !logs_logs. reflexivity.
    + rewrite bool_decide_eq_false_2 by (intros [? ?]; discriminate).
      unfold bind, ret, emit. rewrite !logs_log, !logs_logs. reflexivity.
Qed.

(** ** The history only grows *)

Lemma extends_refl (w : World) : extends w w.
Proof. exists []. now rewrite app_nil_r. Qed.

Lemma extends_trans (w1 w2 w3 : World) :
  extends w1 w2 -> extends w2 w3 -> extends w1 w3.
Proof.
  intros [rest1 H1] [rest2 H2]. exists (rest1 ++ rest2).
  now rewrite H2, H1, app_assoc.
Qed.

Lemma extends_log (e : event) (w : World) : extends w (log e w).
Proof. exists [e]. reflexivity. Qed.

(** Walk through a computation that only logs events. *)
Ltac keep_history :=
  repeat (intros; first
    [ assumption
    | apply (keeps_bind extends extends_trans)
    | apply (keeps_ret extends extends_refl)
    | apply (keeps_raise extends extends_refl)
    | apply (keeps_out_of_fuel extends extends_refl)
    | apply (keeps_emit extends); intros; apply extends_log
    | apply (keeps_logged extends); intros; apply extends_log
    | match goal with
      | |- keeps _ (match ?c with _ => _ end) => destruct c
      end ]).

Section History.

Variable env : Env.
Variable self : ContainerServiceHelper.

Lemma extends_poll (fuel : nat) (base_url : string) :
  keeps extends (poll env fuel base_url).
Proof.
  induction fuel as [|fuel IH]; cbn [poll];
    unfold print, requests_get_url, response_json, sleep; keep_history.
Qed.

Lemma extends_master_ssh_address : keeps extends (master_ssh_address env self).
Proof.
  apply (keeps_master_ssh_address env self extends extends_refl extends_trans).
  - intros e w _. apply extends_log.
  - intros cs w. exists []. simpl. now rewrite app_nil_r.
Qed.

Lemma bind_extends {A B} (m : M A) (k : A -> M B) (w w' : World)
    (r : outcome B) :
  (forall a, keeps extends (k a)) ->
  bind m k w = (r, w') -> extends (snd (m w)) w'.
Proof.
  intros Hk. unfold bind. destruct (m w) as [[a|e|] w1]; intros H; simpl.
  - exact (Hk a _ _ _ H).
  - inversion H; subst. apply extends_refl.
  - inversion H; subst. apply extends_refl.
Qed.

Lemma requests_get_url_logs (url : string) (w : World) :
  snd (requests_get_url env url w) = log (EvHttpGet url) w.
Proof.
  unfold requests_get_url. now destruct (requests_get env _ url).
Qed.

(** The first round of the loop makes its GET, whatever comes after. *)
Lemma poll_first_round (fuel : nat) (base_url : string) (w w' : World)
    (r : outcome unit) :
  poll env (S fuel) base_url w = (r, w') ->
  exists rest,
    trace w' = trace w ++ final_round (base_url +:+ "deployments") ++ rest.
Proof.
  cbn [poll]. rewrite !bind_print. intros H.
  apply bind_extends in H.
  - rewrite requests_get_url_logs in H. destruct H as [rest H].
    exists rest. rewrite H. cbn [log trace]. now rewrite <- !app_assoc.
  - intros response.
    pose proof (extends_poll fuel base_url) as Hpoll.
    unfold print, response_json, sleep. keep_history.
Qed.

(** Once the tunnel is up, the history at the end of [deploy_container] has
    the history at the end of the body of the [with] statement as a prefix. *)
Lemma deploy_container_after_body (fuel : nat)
    (registry : option ContainerRegistryHelper)
    (w w1 wb : World) (args : TunnelArgs) (rb : outcome unit) :
  ssh_tunnel_args env self "127.0.0.1" "127.0.0.1" 80 8001 w = (Ok args, w1) ->
  tunnel_start env (count is_tunnel_start (trace w1)) args = Started ->
  deploy_body env self fuel registry args
    (tunnel_opened (log (EvTunnelStart args) w1)) = (rb, wb) ->
  extends wb (snd (deploy_container env self fuel registry w)).
Proof.
  intros Hargs Hstart Hbody.
  set (closed := tunnel_closed (log EvTunnelStop wb)).
  assert (Hclosed : extends wb closed) by (exists [EvTunnelStop]; reflexivity).
  assert (Hinner :
    with_object (SSHTunnelForwarder_enter env args) SSHTunnelForwarder_exit
      (deploy_under env self fuel registry) w1 =
    match rb with
    | Ok a => (Ok a, closed)
    | Raise e => (Raise e, closed)
    | OutOfFuel => (OutOfFuel, wb)
    end).
  { unfold with_object.
    rewrite (bind_ok _ _ _ _ _ (tunnel_start_returns env args w1 Hstart)).
    unfold deploy_under. cbn [entered_as]. rewrite Hbody.
    destruct rb as [[]|e|]; reflexivity. }
  unfold deploy_container, try_except.
  rewrite (bind_ok _ _ _ _ _ Hargs), Hinner.
  destruct rb as [[]|e|]; cbn [snd].
  - exact Hclosed.
  - destruct (is_HandlerSSHTunnelForwarderError e); [|exact Hclosed].
    apply (extends_trans _ closed); [exact Hclosed|].
    cbv beta.
    match goal with
    | |- extends ?w0 (snd (?handler ?w0)) =>
        destruct (handler w0) as [rh wh] eqn:Hh;
        revert Hh; generalize w0 rh wh
    end.
    change (keeps extends
      (emit (EvPrintExc e) ;;
       print "Opening SSH tunnel failed." ;;
       print "Please try the following command in a terminal:" ;;
       addr <- master_ssh_address env self ;;
       print (manual_command "127.0.0.1" 8001 "127.0.0.1" 80 addr) ;;
       sys_exit (A := unit) 1)).
    pose proof extends_master_ssh_address.
    unfold print, sys_exit. keep_history.
  - apply extends_refl.
Qed.

End History.

(** C6, as the code has it, once the tunnel is up.  A POST that raises (a
    transport error) or whose answer cannot be decoded as JSON ends
    [deploy_container] at once with that exception: the tunnel is stopped, the
    POST is made once, no GET and no sleep follow.  (An exception of the
    class [HandlerSSHTunnelForwarderError] is excluded: the handler of the
    failed tunnel takes it.)  The status code of the answer is never looked
    at: an answer of any status whose decoded body can be searched for
    ['deployments'] and reported, as every JSON object can, is announced as
    successful and reported, and the first GET of the polling loop follows;
    a decoded body that cannot, such as [null], raises [TypeError] after the
    announcement, and no GET follows. *)
Theorem submission_failure_is_fatal
    (env : Env) (self : ContainerServiceHelper) (fuel : nat)
    (registry : option ContainerRegistryHelper)
    (w w1 : World) (args : TunnelArgs) :
  ssh_tunnel_args env self "127.0.0.1" "127.0.0.1" 80 8001 w = (Ok args, w1) ->
  tunnel_start env (count is_tunnel_start (trace w1)) args = Started ->
  (forall e,
     submission_failure
       (requests_post env (count is_post (trace w1))
          (marathon_base_url args +:+ "apps")
          (JObj (marathon_deploy_params self registry))) = Some e ->
     is_HandlerSSHTunnelForwarderError e = false ->
     fst (deploy_container env self fuel registry w) = Raise e /\
     trace (snd (deploy_container env self fuel registry w)) =
       trace w1 ++
       [ EvTunnelStart args;
         EvPrint ("Attempting to deploy Docker image " +:+ docker_tag self);
         EvPost (marathon_base_url args +:+ "apps")
                (JObj (marathon_deploy_params self registry));
         EvTunnelStop ] /\
     count is_post (trace (snd (deploy_container env self fuel registry w)))
       = S (count is_post (trace w)) /\
     count is_http_get (trace (snd (deploy_container env self fuel registry w)))
       = count is_http_get (trace w) /\
     count is_sleep (trace (snd (deploy_container env self fuel registry w)))
       = count is_sleep (trace w) /\
     open_tunnels (snd (deploy_container env self fuel registry w))
       = open_tunnels w) /\
  (forall response content,
     requests_post env (count is_post (trace w1))
       (marathon_base_url args +:+ "apps")
       (JObj (marathon_deploy_params self registry)) = Returns response ->
     body response = Some content ->
     match content_report content with
     | Some report =>
         exists rest,
           trace (snd (deploy_container env self (S fuel) registry w)) =
             trace w1 ++
             [ EvTunnelStart args;
               EvPrint ("Attempting to deploy Docker image " +:+ docker_tag self);
               EvPost (marathon_base_url args +:+ "apps")
                      (JObj (marathon_deploy_params self registry));
               EvPrint "Deployment request successful.";
               report ]
             ++ final_round (marathon_base_url args +:+ "deployments") ++ rest
     | None =>
         fst (deploy_container env self fuel registry w) = Raise TypeError /\
         trace (snd (deploy_container env self fuel registry w)) =
           trace w1 ++
           [ EvTunnelStart args;
             EvPrint ("Attempting to deploy Docker image " +:+ docker_tag self);
             EvPost (marathon_base_url args +:+ "apps")
                    (JObj (marathon_deploy_params self registry));
             EvPrint "Deployment request successful.";
             EvTunnelStop ]
     end).
Proof.
  intros Hargs Hstart. split.
  - intros e Hpost Hclass.
    assert (Hrun : deploy_container env self fuel registry w =
      (Raise e,
       tunnel_closed
         (logs [ EvTunnelStart args;
                 EvPrint ("Attempting to deploy Docker image " +:+ docker_tag self);
                 EvPost (marathon_base_url args +:+ "apps")
                        (JObj (marathon_deploy_params self registry));
                 EvTunnelStop ] (tunnel_opened w1)))).
    { unfold deploy_container, try_except.
      rewrite (bind_ok _ _ _ _ _ Hargs). unfold with_object.
      rewrite (bind_ok _ _ _ _ _ (tunnel_start_returns env args w1 Hstart)).
      unfold deploy_under. cbn [entered_as].
      rewrite (deploy_body_submission_failure env self fuel registry args _ e).
      2:{ cbn [tunnel_opened trace]. rewrite count_log_other by reflexivity.
          exact Hpost. }
      unfold SSHTunnelForwarder_exit, bind, raise. cbn [transport_active].
      rewrite Hclass.
      f_equal. unfold tunnel_closed, tunnel_opened, log, logs. simpl.
      f_equal. now rewrite <- !app_assoc. }
    rewrite Hrun. cbn [fst snd].
    split; [reflexivity|]. split; [reflexivity|].
    cbn [tunnel_closed tunnel_opened logs trace open_tunnels].
    rewrite !count_app.
    rewrite (ssh_tunnel_args_same_count env self is_post _ _ _ _
               ltac:(intros []; simpl; congruence) _ _ _ Hargs).
    rewrite (ssh_tunnel_args_same_count env self is_http_get _ _ _ _
               ltac:(intros []; simpl; congruence) _ _ _ Hargs).
    rewrite (ssh_tunnel_args_same_count env self is_sleep _ _ _ _
               ltac:(intros []; simpl; congruence) _ _ _ Hargs).
    rewrite (tunnels_ssh_tunnel_args env self _ _ _ _ _ _ _ Hargs).
    unfold count. simpl. repeat split; lia.
  - intros response content Hpost Hbody.
    assert (Hsteps : forall fuel',
      deploy_body env self fuel' registry args
        (tunnel_opened (log (EvTunnelStart args) w1)) = _)
      by (intros fuel'; apply (deploy_body_steps env self fuel' registry args
            (tunnel_opened (log (EvTunnelStart args) w1)) response content);
          [cbn [tunnel_opened trace]; rewrite count_log_other by reflexivity;
           exact Hpost | exact Hbody]).
    destruct (content_report content) as [report|].
    + specialize (Hsteps (S fuel)).
      destruct (poll env (S fuel) (marathon_base_url args)
                  (logs [ EvPrint ("Attempting to deploy Docker image "
                                   +:+ docker_tag self);
                          EvPost (marathon_base_url args +:+ "apps")
                                 (JObj (marathon_deploy_params self registry));
                          EvPrint "Deployment request successful.";
                          report ]
                     (tunnel_opened (log (EvTunnelStart args) w1))))
        as [rb wb] eqn:Hpoll.
      destruct (poll_first_round env _ _ _ _ _ Hpoll) as [rest1 Hfirst].
      destruct (deploy_container_after_body env self (S fuel) registry
                  w w1 wb args rb Hargs Hstart Hsteps) as [rest2 Hafter].
      exists (rest1 ++ rest2). rewrite Hafter, Hfirst.
      cbn [logs tunnel_opened log trace].
      rewrite <- !app_assoc. reflexivity.
    + specialize (Hsteps fuel).
      assert (Hrun : deploy_container env self fuel registry w =
        (Raise TypeError,
         tunnel_closed
           (log EvTunnelStop
              (logs [ EvPrint ("Attempting to deploy Docker image "
                               +:+ docker_tag self);
                      EvPost (marathon_base_url args +:+ "apps")
                             (JObj (marathon_deploy_params self registry));
                      EvPrint "Deployment request successful." ]
                 (tunnel_opened (log (EvTunnelStart args) w1)))))).
      { unfold deploy_container, try_except.
        rewrite (bind_ok _ _ _ _ _ Hargs). unfold with_object.
        rewrite (bind_ok _ _ _ _ _ (tunnel_start_returns env args w1 Hstart)).
        unfold deploy_under. cbn [entered_as]. rewrite Hsteps.
        reflexivity. }
      rewrite Hrun. cbn [fst snd]. split; [reflexivity|].
      cbn [tunnel_closed tunnel_opened log logs trace].
      rewrite <- !app_assoc. reflexivity.
Qed.

Lemma submission_failure_is_fatal_witness :
  (fst (deploy_container Scenario.post_down Scenario.helper 5 None fresh)
     = Raise (OtherException "ConnectionError") /\
   trace (snd (deploy_container Scenario.post_down Scenario.helper 5 None fresh)) =
     trace (snd (ssh_tunnel_args Scenario.post_down Scenario.helper
                   "127.0.0.1" "127.0.0.1" 80 8001 fresh)) ++
     [ EvTunnelStart Scenario.tunnel_args;
       EvPrint ("Attempting to deploy Docker image " +:+ docker_tag Scenario.helper);
       EvPost (marathon_base_url Scenario.tunnel_args +:+ "apps")
              (JObj (marathon_deploy_params Scenario.helper None));
       EvTunnelStop ] /\
   count is_post
     (trace (snd (deploy_container Scenario.post_down Scenario.helper 5 None fresh)))
     = S (count is_post (trace fresh)) /\
   count is_http_get
     (trace (snd (deploy_container Scenario.post_down Scenario.helper 5 None fresh)))
     = count is_http_get (trace fresh) /\
   count is_sleep
     (trace (snd (deploy_container Scenario.post_down Scenario.helper 5 None fresh)))
     = count is_sleep (trace fresh) /\
   open_tunnels
     (snd (deploy_container Scenario.post_down Scenario.helper 5 None fresh))
     = open_tunnels fresh) /\
  fst (deploy_container Scenario.post_garbled Scenario.helper 5 None fresh)
    = Raise ValueError /\
  (exists rest,
     trace (snd (deploy_container Scenario.post_rejected Scenario.helper 5 None fresh)) =
       trace (snd (ssh_tunnel_args Scenario.post_rejected Scenario.helper
                     "127.0.0.1" "127.0.0.1" 80 8001 fresh)) ++
       [ EvTunnelStart Scenario.tunnel_args;
         EvPrint ("Attempting to deploy Docker image " +:+ docker_tag Scenario.helper);
         EvPost (marathon_base_url Scenario.tunnel_args +:+ "apps")
                (JObj (marathon_deploy_params Scenario.helper None));
         EvPrint "Deployment request successful.";
         EvPrintValue "" (JObj {[ "message" := JStr "Internal Server Error" ]}) ]
       ++ final_round (marathon_base_url Scenario.tunnel_args +:+ "deployments")
       ++ rest) /\
  fst (deploy_container Scenario.post_rejected_null Scenario.helper 5 None fresh)
    = Raise TypeError.
Proof.
  split; [|split; [|split]].
  - apply (proj1 (submission_failure_is_fatal
             Scenario.post_down Scenario.helper 5 None fresh
             (snd (ssh_tunnel_args Scenario.post_down Scenario.helper
                     "127.0.0.1" "127.0.0.1" 80 8001 fresh))
             Scenario.tunnel_args ltac:(vm_compute; reflexivity) eq_refl)
           (OtherException "ConnectionError")).
    + reflexivity.
    + reflexivity.
  - apply (proj1 (submission_failure_is_fatal
             Scenario.post_garbled Scenario.helper 5 None fresh
             (snd (ssh_tunnel_args Scenario.post_garbled Scenario.helper
                     "127.0.0.1" "127.0.0.1" 80 8001 fresh))
             Scenario.tunnel_args ltac:(vm_compute; reflexivity) eq_refl)
           ValueError).
    + reflexivity.
    + reflexivity.
  - exact (proj2 (submission_failure_is_fatal
             Scenario.post_rejected Scenario.helper 4 None fresh
             (snd (ssh_tunnel_args Scenario.post_rejected Scenario.helper
                     "127.0.0.1" "127.0.0.1" 80 8001 fresh))
             Scenario.tunnel_args ltac:(vm_compute; reflexivity) eq_refl)
           Scenario.rejected _ eq_refl eq_refl).
  - exact (proj1 (proj2 (submission_failure_is_fatal
             Scenario.post_rejected_null Scenario.helper 5 None fresh
             (snd (ssh_tunnel_args Scenario.post_rejected_null Scenario.helper
                     "127.0.0.1" "127.0.0.1" 80 8001 fresh))
             Scenario.tunnel_args ltac:(vm_compute; reflexivity) eq_refl)
           {| status_code := 500; body := Some JNull |} JNull eq_refl eq_refl)).
Defined.

(** C6 as stated fails: Marathon answers the POST with status 500 and a JSON
    body, and [deploy_container] neither raises nor skips the polling. *)
Lemma rejected_post_is_polled :
  ~ ((exists e,
        fst (deploy_container Scenario.post_rejected Scenario.helper 5 None fresh)
        = Raise e) /\
     count is_http_get
       (trace (snd (deploy_container Scenario.post_rejected Scenario.helper
                      5 None fresh)))
     = 0%nat).
Proof. intros [_ H]. vm_compute in H. discriminate H. Qed.

Example rejected_post_outcome :
  status_code Scenario.rejected = 500 /\
  fst (deploy_container Scenario.post_rejected Scenario.helper 5 None fresh) = Ok tt /\
  In "Deployment request successful."
     (printed (trace (snd (deploy_container Scenario.post_rejected Scenario.helper
                             5 None fresh)))) /\
  count is_http_get
    (trace (snd (deploy_container Scenario.post_rejected Scenario.helper 5 None fresh)))
    = 3%nat.
Proof.
  split; [reflexivity|]. split; [vm_compute; reflexivity|].
  split; [|vm_compute; reflexivity].
  vm_compute. right. left. reflexivity.
Qed.

(** ** The [ssh] subprocess *)

Section ClusterSsh.

Variable env : Env.
Variable self : ContainerServiceHelper.

(** When the code before the [yield] hands over a process, that process has
    just been started. *)
Lemma cluster_ssh_before_spawns (w w1 : World) (proc : Popen) :
  cluster_ssh_before env self w = (Ok proc, w1) -> In proc (running w1).
Proof.
  unfold cluster_ssh_before, try_except.
  match goal with
  | |- (let (_, _) := ?m w in _) = _ -> _ => destruct (m w) as [[p|e|] w'] eqn:Hm
  end.
  - intros [= <- <-]. unfold bind in Hm.
    destruct (get_key_path env w) as [[key_path|e|] wa]; try discriminate.
    destruct (master_ssh_login env self wa) as [[login|e|] wb]; try discriminate.
    cbn [print emit] in Hm.
    destruct (subprocess_Popen env (count is_popen (trace (log _ wb))) _);
      [|discriminate].
    injection Hm as <- <-. left. reflexivity.
  - destruct (is_CalledProcessError e); [|discriminate].
    unfold bind. destruct (master_ssh_login env self w') as [[login|e'|] wb];
      discriminate.
  - discriminate.
Qed.

Lemma reaped_not_running (proc : Popen) (w : World) :
  ~ In proc (running (reaped proc w)).
Proof.
  unfold reaped. simpl. intros H. apply List.filter_In in H as [_ H].
  unfold proc_eqb in H. now rewrite Nat.eqb_refl in H.
Qed.

End ClusterSsh.

(** C10: in [with self.cluster_ssh() as proc: body], once the subprocess has
    been started, the scope ends as the body ends.  If the body raises, the
    world is left exactly as the body left it: no [terminate] is sent and the
    list of running processes is untouched.  If the body ends normally,
    [terminate] is sent exactly once and the process is no longer running. *)
Theorem cluster_ssh_terminates_only_on_normal_exit
    (env : Env) (self : ContainerServiceHelper) {A} (body : Popen -> M A)
    (w w1 w2 : World) (proc : Popen) (r : outcome A) :
  cluster_ssh_before env self w = (Ok proc, w1) ->
  body proc w1 = (r, w2) ->
  In proc (running w1) /\
  fst (cluster_ssh env self body w) = r /\
  match r with
  | Ok _ =>
      trace (snd (cluster_ssh env self body w)) = trace w2 ++ [EvTerminate proc] /\
      count is_terminate (trace (snd (cluster_ssh env self body w))) =
        S (count is_terminate (trace w2)) /\
      ~ In proc (running (snd (cluster_ssh env self body w)))
  | Raise _ =>
      snd (cluster_ssh env self body w) = w2 /\
      count is_terminate (trace (snd (cluster_ssh env self body w))) =
        count is_terminate (trace w2) /\
      running (snd (cluster_ssh env self body w)) = running w2
  | OutOfFuel => snd (cluster_ssh env self body w) = w2
  end.
Proof.
  intros Hbefore Hbody.
  split; [eapply cluster_ssh_before_spawns; exact Hbefore|].
  unfold cluster_ssh, with_generator.
  rewrite (bind_ok _ _ _ _ _ Hbefore), Hbody.
  destruct r as [a|e|]; cbn [fst snd].
  - unfold bind, cluster_ssh_after, ret. cbn [fst snd].
    split; [reflexivity|]. split; [reflexivity|]. split.
    + cbn [reaped trace log]. now apply count_snoc_same.
    + apply reaped_not_running.
  - repeat split.
  - split; reflexivity.
Qed.

Lemma cluster_ssh_terminates_only_on_normal_exit_witness :
  (fst (cluster_ssh Scenario.green_field Scenario.helper Scenario.failing_body fresh)
     = Raise ValueError /\
   count is_terminate
     (trace (snd (cluster_ssh Scenario.green_field Scenario.helper
                    Scenario.failing_body fresh))) = 0%nat /\
   length (running (snd (cluster_ssh Scenario.green_field Scenario.helper
                           Scenario.failing_body fresh))) = 1%nat) /\
  (fst (cluster_ssh Scenario.green_field Scenario.helper Scenario.quiet_body fresh)
     = Ok tt /\
   count is_terminate
     (trace (snd (cluster_ssh Scenario.green_field Scenario.helper
                    Scenario.quiet_body fresh))) = 1%nat /\
   running (snd (cluster_ssh Scenario.green_field Scenario.helper
                   Scenario.quiet_body fresh)) = []).
Proof.
  pose (w1 := snd (cluster_ssh_before Scenario.green_field Scenario.helper fresh)).
  pose (proc := {| pid := 0;
                   popen_args := ["ssh"; "-i"; "/home/operator/.ssh/id_rsa";
                                  "acsdemo@acsdemo-mgmt.westus.cloudapp.azure.com"] |}).
  split.
  - destruct (cluster_ssh_terminates_only_on_normal_exit
                Scenario.green_field Scenario.helper Scenario.failing_body
                fresh w1 w1 proc (Raise ValueError) eq_refl eq_refl)
      as (_ & Hr & Hw & Hcount & Hrunning).
    split; [exact Hr|]. split.
    + rewrite Hcount. reflexivity.
    + rewrite Hrunning. reflexivity.
  - destruct (cluster_ssh_terminates_only_on_normal_exit
                Scenario.green_field Scenario.helper Scenario.quiet_body
                fresh w1 w1 proc (Ok tt) eq_refl eq_refl)
      as (_ & Hr & Htrace & Hcount & Hgone).
    split; [exact Hr|]. split.
    + rewrite Hcount. reflexivity.
    + reflexivity.
Defined.

(** * Further properties of the helper *)

(** ** Provisioning: what a call stores and what it asks *)

(** X1. When a call of [container_service] returns a service, that service is
    stored in [_container_service]; when it raises, the attribute is what it
    was before the call. *)
Theorem container_service_stores_only_on_success
    (env : Env) (self : ContainerServiceHelper) (w : World) :
  (forall cs, fst (container_service env self w) = Ok cs ->
     _container_service (snd (container_service env self w)) = Some cs) /\
  (forall e, fst (container_service env self w) = Raise e ->
     _container_service (snd (container_service env self w))
     = _container_service w).
Proof.
  run_provisioning.
  destruct (_container_service w) as [cached|] eqn:Hcache; simpl.
  - split; [intros cs [= <-]; exact Hcache | discriminate].
  - split_replies; simpl; split; intros x Hx;
      first [discriminate Hx | injection Hx as <-; reflexivity | exact Hcache].
Qed.

Lemma container_service_stores_only_on_success_witness :
  _container_service (snd (container_service Scenario.green_field Scenario.helper fresh))
    = Some (Scenario.deployed
              (creation_request Scenario.helper "calm-river-1234"
                 {| public_keys := [ {| key_data := "ssh-rsa AAAAB3Nza operator@desk" |} ] |})) /\
  _container_service (snd (container_service Scenario.collision Scenario.helper fresh))
    = _container_service fresh.
Proof.
  split.
  - apply (proj1 (container_service_stores_only_on_success
                    Scenario.green_field Scenario.helper fresh)).
    vm_compute. reflexivity.
  - apply (proj2 (container_service_stores_only_on_success
                    Scenario.collision Scenario.helper fresh)
             (CloudError 409)).
    vm_compute. reflexivity.
Defined.

(** X2. Every access runs the name generator once; an access with nothing stored
    makes exactly one lookup, whatever comes of it, and an access with a
    stored service makes none. *)
Theorem container_service_lookups
    (env : Env) (self : ContainerServiceHelper) (w : World) :
  count is_haikunate (trace (snd (container_service env self w))) =
    S (count is_haikunate (trace w)) /\
  count is_get (trace (snd (container_service env self w))) =
    (count is_get (trace w) +
     match _container_service w with Some _ => 0 | None => 1 end)%nat.
Proof.
  run_provisioning.
  destruct (_container_service w) as [cached|] eqn:Hcache; simpl.
  - rewrite count_snoc_same, count_snoc_other by reflexivity. split; lia.
  - split_replies;
      repeat first [ rewrite count_snoc_other by reflexivity
                   | rewrite count_snoc_same by reflexivity ];
      split; lia.
Qed.

(** X3. When the lookup raises [CloudError] but the public key cannot be had
    ([HOME] unset, or the key file unreadable), the key error reaches the
    caller, no creation request is made and nothing is stored. *)
Theorem provisioning_needs_public_key
    (env : Env) (self : ContainerServiceHelper) (w : World)
    (status : Z) (e : exn) :
  _container_service w = None ->
  container_services_get env (count is_get (trace w))
    (group_name (group (resources self))) (name self) = Raises (CloudError status) ->
  public_key_failure env = Some e ->
  fst (container_service env self w) = Raise e /\
  count is_create (trace (snd (container_service env self w))) =
    count is_create (trace w) /\
  _container_service (snd (container_service env self w)) = None.
Proof.
  intros Hcache Hlookup Hkey. unfold public_key_failure, public_key_path in Hkey.
  run_provisioning. rewrite Hcache. simpl.
  rewrite !count_snoc_other by reflexivity. rewrite Hlookup. simpl.
  destruct (environ_HOME env) as [home|]; simpl.
  - destruct (read_file env _) as [key|e']; [discriminate|].
    injection Hkey as <-. simpl.
    rewrite !count_snoc_other by reflexivity. auto.
  - injection Hkey as <-.
    rewrite !count_snoc_other by reflexivity. auto.
Qed.

Lemma provisioning_needs_public_key_witness :
  (fst (container_service Cases.home_unset_first_time Scenario.helper fresh)
     = Raise (KeyError "HOME") /\
   count is_create
     (trace (snd (container_service Cases.home_unset_first_time Scenario.helper fresh)))
     = count is_create (trace fresh) /\
   _container_service
     (snd (container_service Cases.home_unset_first_time Scenario.helper fresh)) = None)
  /\
  (fst (container_service Cases.key_missing Scenario.helper fresh)
     = Raise (IOError "/home/operator/.ssh/id_rsa.pub") /\
   count is_create
     (trace (snd (container_service Cases.key_missing Scenario.helper fresh)))
     = count is_create (trace fresh) /\
   _container_service
     (snd (container_service Cases.key_missing Scenario.helper fresh)) = None).
Proof.
  split.
  - apply (provisioning_needs_public_key Cases.home_unset_first_time
             Scenario.helper fresh 404 (KeyError "HOME")); reflexivity.
  - apply (provisioning_needs_public_key Cases.key_missing
             Scenario.helper fresh 404 (IOError "/home/operator/.ssh/id_rsa.pub"));
      reflexivity.
Defined.

(** ** Key paths *)

Lemma ends_with_slash_append (a : string) (c : ascii) (b : string) :
  PyStr.ends_with_slash (a +:+ String c b) = PyStr.ends_with_slash (String c b).
Proof.
  induction a as [|x a IH]; [reflexivity|].
  change (String x a +:+ String c b) with (String x (a +:+ String c b)).
  destruct a as [|y a]; [reflexivity|].
  change (PyStr.ends_with_slash (String x (String y a +:+ String c b)))
    with (PyStr.ends_with_slash (String y a +:+ String c b)).
  exact IH.
Qed.

Lemma path_join_cons (c : ascii) (a b : string) :
  PyStr.path_join (String c a) b =
  if PyStr.ends_with_slash (String c a) then String c a +:+ b
  else String c a +:+ "/" +:+ b.
Proof. reflexivity. Qed.

Lemma private_key_path_joins (home : string) :
  private_key_path home = home +:+ home_separator home +:+ ".ssh/id_rsa".
Proof.
  destruct home as [|c home]; [reflexivity|].
  unfold private_key_path, home_separator.
  rewrite (path_join_cons c home ".ssh").
  cbn [String.eqb orb].
  destruct (PyStr.ends_with_slash (String c home)) eqn:Hslash.
  - change (String c home +:+ ".ssh") with (String c (home +:+ ".ssh")).
    rewrite path_join_cons.
    change (String c (home +:+ ".ssh")) with (String c home +:+ ".ssh").
    rewrite (ends_with_slash_append (String c home) "." "ssh").
    change (PyStr.ends_with_slash ".ssh") with false.
    rewrite !append_assoc. reflexivity.
  - change ("/" +:+ ".ssh") with "/.ssh".
    change (String c home +:+ "/.ssh") with (String c (home +:+ "/.ssh")).
    rewrite path_join_cons.
    change (String c (home +:+ "/.ssh")) with (String c home +:+ "/.ssh").
    rewrite (ends_with_slash_append (String c home) "/" ".ssh").
    change (PyStr.ends_with_slash "/.ssh") with false.
    rewrite !append_assoc. reflexivity.
Qed.

(** X4. [get_key_path] joins [HOME], [.ssh] and [id_rsa] with single slashes: a
    [HOME] that ends in a slash gets no second one, and an empty [HOME] gives
    the relative path [.ssh/id_rsa].  The world is not touched. *)
Theorem get_key_path_joins_home
    (env : Env) (home : string) (w : World) :
  environ_HOME env = Some home ->
  get_key_path env w = (Ok (home +:+ home_separator home +:+ ".ssh/id_rsa"), w).
Proof.
  intros Hhome. unfold get_key_path. rewrite Hhome.
  fold (private_key_path home). now rewrite private_key_path_joins.
Qed.

Lemma get_key_path_joins_home_witness :
  get_key_path Cases.existing fresh = (Ok "/home/operator/.ssh/id_rsa", fresh).
Proof.
  exact (get_key_path_joins_home Cases.existing "/home/operator" fresh eq_refl).
Defined.

Example get_key_path_edge_homes :
  home_separator "/root/" = "" /\ home_separator "" = "" /\
  private_key_path "/root/" = "/root/.ssh/id_rsa" /\
  private_key_path "" = ".ssh/id_rsa".
Proof. repeat split. Qed.

(** X5. [_get_ssh_config] with a key path of its own reads exactly that file and
    never looks at [HOME]; an empty path counts as none. *)
Theorem get_ssh_config_explicit_path (env : Env) (path : string) (w : World) :
  path <> EmptyString ->
  _get_ssh_config env (Some path) w =
    (match read_file env path with
     | Returns key => Ok {| public_keys := [ {| key_data := key |} ] |}
     | Raises e => Raise e
     end,
     log (EvOpenFile path) w) /\
  _get_ssh_config env (Some EmptyString) w = _get_ssh_config env None w.
Proof.
  intros Hpath. split; [|reflexivity].
  unfold _get_ssh_config, io_open_read, bind, emit, of_reply, ret, raise.
  destruct (String.eqb_spec path EmptyString) as [->|_]; [contradiction|].
  destruct (read_file env path); reflexivity.
Qed.

Lemma get_ssh_config_explicit_path_witness :
  _get_ssh_config Cases.home_unset (Some "/srv/keys/deploy.pub") fresh =
    (match read_file Cases.home_unset "/srv/keys/deploy.pub" with
     | Returns key => Ok {| public_keys := [ {| key_data := key |} ] |}
     | Raises e => Raise e
     end,
     log (EvOpenFile "/srv/keys/deploy.pub") fresh) /\
  _get_ssh_config Cases.home_unset (Some EmptyString) fresh =
    _get_ssh_config Cases.home_unset None fresh.
Proof.
  apply (get_ssh_config_explicit_path Cases.home_unset "/srv/keys/deploy.pub" fresh).
  discriminate.
Defined.

(** ** The tunnel arguments and the login *)

Lemma master_ssh_login_cached (env : Env) (self : ContainerServiceHelper)
    (w : World) (cs : ContainerService) :
  _container_service w = Some cs ->
  master_ssh_login env self w =
    (Ok (name self +:+ "@" +:+ str_opt (fqdn (master_profile cs))),
     log EvHaikunate w).
Proof.
  intros H. unfold master_ssh_login.
  now rewrite (bind_ok _ _ _ _ _ (master_ssh_address_cached env self w cs H)).
Qed.

(** X6. When [ssh_tunnel_args] returns, the tunnel goes to port 2200 of the master
    of the service now stored, as the user the helper is named after, between
    the bind addresses asked for, with the private key under [HOME]; and
    [master_ssh_login] then gives that same user at that same master. *)
Theorem ssh_tunnel_args_agree_with_login
    (env : Env) (self : ContainerServiceHelper)
    (remote_host local_host : string) (remote_port local_port : Z)
    (w w1 : World) (args : TunnelArgs) :
  ssh_tunnel_args env self remote_host local_host remote_port local_port w
    = (Ok args, w1) ->
  snd (ssh_address_or_host args) = 2200 /\
  ssh_username args = name self /\
  remote_bind_address args = (remote_host, remote_port) /\
  local_bind_address args = (local_host, local_port) /\
  (exists home, environ_HOME env = Some home /\
                ssh_pkey args = private_key_path home) /\
  (exists cs, _container_service w1 = Some cs /\
              fst (ssh_address_or_host args) = fqdn (master_profile cs)) /\
  master_ssh_login env self w1 =
    (Ok (ssh_username args +:+ "@" +:+ str_opt (fst (ssh_address_or_host args))),
     log EvHaikunate w1).
Proof.
  intros H.
  destruct (ssh_tunnel_args_ok env self _ _ _ _ _ _ _ H)
    as (cs & home & Hcache & Hhome & ->).
  cbn [ssh_address_or_host ssh_username remote_bind_address local_bind_address
       ssh_pkey fst snd].
  repeat split.
  - exists home. split; [exact Hhome | reflexivity].
  - exists cs. split; [exact Hcache | reflexivity].
  - now apply master_ssh_login_cached.
Qed.

Lemma ssh_tunnel_args_agree_with_login_witness :
  snd (ssh_address_or_host Cases.tunnel_args) = 2200 /\
  ssh_username Cases.tunnel_args = name Scenario.helper /\
  remote_bind_address Cases.tunnel_args = ("127.0.0.1", 80) /\
  local_bind_address Cases.tunnel_args = ("127.0.0.1", 8001) /\
  (exists home, environ_HOME Cases.existing = Some home /\
                ssh_pkey Cases.tunnel_args = private_key_path home) /\
  (exists cs,
     _container_service
       (snd (ssh_tunnel_args Cases.existing Scenario.helper
               "127.0.0.1" "127.0.0.1" 80 8001 fresh)) = Some cs /\
     fst (ssh_address_or_host Cases.tunnel_args) = fqdn (master_profile cs)) /\
  master_ssh_login Cases.existing Scenario.helper
    (snd (ssh_tunnel_args Cases.existing Scenario.helper
            "127.0.0.1" "127.0.0.1" 80 8001 fresh)) =
    (Ok "acsdemo@acsdemo-mgmt.westus.cloudapp.azure.com",
     log EvHaikunate
       (snd (ssh_tunnel_args Cases.existing Scenario.helper
               "127.0.0.1" "127.0.0.1" 80 8001 fresh))).
Proof.
  apply (ssh_tunnel_args_agree_with_login Cases.existing Scenario.helper
           "127.0.0.1" "127.0.0.1" 80 8001 fresh).
  reflexivity.
Defined.

(** ** Without [HOME] *)

Lemma container_service_finished (env : Env) (self : ContainerServiceHelper)
    (w : World) :
  finished (fst (container_service env self w)) = true.
Proof.
  run_provisioning.
  destruct (_container_service w); simpl; [reflexivity|].
  split_replies; reflexivity.
Qed.

Lemma master_ssh_address_finished (env : Env) (self : ContainerServiceHelper)
    (w : World) :
  finished (fst (master_ssh_address env self w)) = true.
Proof.
  unfold master_ssh_address, bind.
  pose proof (container_service_finished env self w) as H.
  destruct (container_service env self w) as [[cs|e|] w1]; simpl in *;
    [reflexivity | reflexivity | discriminate].
Qed.

Lemma master_ssh_address_same_count (env : Env) (self : ContainerServiceHelper)
    (kind : event -> bool) :
  (forall e, is_provisioning e = true -> kind e = false) ->
  keeps (same_count kind) (master_ssh_address env self).
Proof.
  intros Hkind.
  apply (keeps_master_ssh_address env self (same_count kind)
           (same_count_refl kind) (same_count_trans kind)).
  - intros e w He. apply count_log_other. now apply Hkind.
  - reflexivity.
Qed.

Lemma ssh_tunnel_args_without_home (env : Env) (self : ContainerServiceHelper)
    (rh lh : string) (rp lp : Z) (w : World) :
  environ_HOME env = None ->
  exists e, fst (ssh_tunnel_args env self rh lh rp lp w) = Raise e.
Proof.
  intros Hhome. unfold ssh_tunnel_args, bind.
  pose proof (master_ssh_address_finished env self w) as H.
  destruct (master_ssh_address env self w) as [[address|e|] w1]; simpl in *.
  - unfold get_key_path. rewrite Hhome. simpl. eauto.
  - eauto.
  - discriminate.
Qed.

(** X7. With [HOME] unset [deploy_container] always ends with an exception, and it
    never gets as far as starting a tunnel or posting anything. *)
Theorem deploy_container_without_home
    (env : Env) (self : ContainerServiceHelper) (fuel : nat)
    (registry : option ContainerRegistryHelper) (w : World) :
  environ_HOME env = None ->
  (exists e, fst (deploy_container env self fuel registry w) = Raise e) /\
  count is_tunnel_start (trace (snd (deploy_container env self fuel registry w)))
    = count is_tunnel_start (trace w) /\
  count is_post (trace (snd (deploy_container env self fuel registry w)))
    = count is_post (trace w).
Proof.
  intros Hhome.
  destruct (ssh_tunnel_args_without_home env self
              "127.0.0.1" "127.0.0.1" 80 8001 w Hhome) as [e He].
  destruct (ssh_tunnel_args env self "127.0.0.1" "127.0.0.1" 80 8001 w)
    as [r w1] eqn:Hargs.
  simpl in He. subst r.
  pose proof (ssh_tunnel_args_same_count env self is_tunnel_start _ _ _ _
                ltac:(intros []; simpl; congruence) _ _ _ Hargs) as Hstart.
  pose proof (ssh_tunnel_args_same_count env self is_post _ _ _ _
                ltac:(intros []; simpl; congruence) _ _ _ Hargs) as Hpost.
  unfold same_count in Hstart, Hpost.
  destruct (deploy_container env self fuel registry w) as [r w'] eqn:Hrun.
  cbn [fst snd].
  unfold deploy_container, try_except in Hrun.
  rewrite (bind_raise _ _ _ _ _ Hargs) in Hrun.
  destruct (is_HandlerSSHTunnelForwarderError e).
  - rewrite bind_emit, !bind_print in Hrun. unfold bind, print, emit in Hrun.
    match type of Hrun with
    | context [master_ssh_address env self ?w2] =>
        pose proof (master_ssh_address_finished env self w2) as Hfin;
        destruct (master_ssh_address env self w2) as [[addr|e'|] w3] eqn:Haddr
    end; simpl in Hfin; try discriminate;
      apply (master_ssh_address_same_count env self is_tunnel_start
               ltac:(intros []; simpl; congruence)) in Haddr as Hs;
      apply (master_ssh_address_same_count env self is_post
               ltac:(intros []; simpl; congruence)) in Haddr as Hp;
      unfold same_count in Hs, Hp;
      rewrite !count_log_other in Hs, Hp by reflexivity;
      injection Hrun as <- <-;
      rewrite ?count_log_other by reflexivity;
      (split; [eauto|]; split; congruence).
  - injection Hrun as <- <-. split; [eauto|]. split; assumption.
Qed.

Lemma deploy_container_without_home_witness :
  (exists e,
     fst (deploy_container Cases.home_unset Scenario.helper 5 None fresh) = Raise e) /\
  count is_tunnel_start
    (trace (snd (deploy_container Cases.home_unset Scenario.helper 5 None fresh)))
    = count is_tunnel_start (trace fresh) /\
  count is_post
    (trace (snd (deploy_container Cases.home_unset Scenario.helper 5 None fresh)))
    = count is_post (trace fresh).
Proof.
  apply (deploy_container_without_home Cases.home_unset Scenario.helper 5 None fresh).
  reflexivity.
Defined.

Example deploy_container_home_unset_outcome :
  fst (deploy_container Cases.home_unset Scenario.helper 5 None fresh)
    = Raise (KeyError "HOME") /\
  count is_get
    (trace (snd (deploy_container Cases.home_unset Scenario.helper 5 None fresh)))
    = 1%nat.
Proof. vm_compute. split; reflexivity. Qed.

(** ** The [ssh] subprocess: starting it *)

(** X8. [cluster_ssh] asks for the key path before anything else: with [HOME]
    unset it raises [KeyError] at once, without a lookup, a creation, a
    started process or a run of the body; the world is untouched. *)
Theorem cluster_ssh_without_home
    (env : Env) (self : ContainerServiceHelper) {A} (body : Popen -> M A)
    (w : World) :
  environ_HOME env = None ->
  cluster_ssh env self body w = (Raise (KeyError "HOME"), w).
Proof.
  intros Hhome.
  unfold cluster_ssh, with_generator, cluster_ssh_before, try_except, bind,
    get_key_path.
  rewrite Hhome. reflexivity.
Qed.

Lemma cluster_ssh_without_home_witness :
  cluster_ssh Cases.home_unset_first_time Scenario.helper Scenario.quiet_body fresh
    = (Raise (KeyError "HOME"), fresh).
Proof.
  apply (cluster_ssh_without_home Cases.home_unset_first_time Scenario.helper).
  reflexivity.
Defined.

Section StartingSsh.

Variable env : Env.
Variable self : ContainerServiceHelper.
Variable w : World.
Variable cs : ContainerService.
Variable home : string.
Hypothesis Hcache : _container_service w = Some cs.
Hypothesis Hhome : environ_HOME env = Some home.

(** The world when [Popen] has been called. *)
Lemma cluster_ssh_before_steps :
  cluster_ssh_before env self w =
    match subprocess_Popen env (count is_popen (trace w)) (ssh_command self home cs) with
    | Returns _ =>
        (Ok {| pid := count is_popen (trace w);
               popen_args := ssh_command self home cs |},
         spawned {| pid := count is_popen (trace w);
                    popen_args := ssh_command self home cs |}
           (logs [ EvHaikunate;
                   EvPrint ("Connecting to cluster: "
                            +:+ PyStr.join " " (ssh_command self home cs));
                   EvPopen (ssh_command self home cs) ] w))
    | Raises e =>
        (Raise e,
         logs ([ EvHaikunate;
                 EvPrint ("Connecting to cluster: "
                          +:+ PyStr.join " " (ssh_command self home cs));
                 EvPopen (ssh_command self home cs) ]
               ++ if is_CalledProcessError e
                  then [ EvHaikunate; EvPrint (ssh_hint self cs) ]
                  else []) w)
    end.
Proof.
  unfold cluster_ssh_before, try_except.
  erewrite bind_ok by (unfold get_key_path; rewrite Hhome; reflexivity).
  erewrite bind_ok by (apply master_ssh_login_cached; exact Hcache).
  rewrite bind_print.
  fold (private_key_path home). fold (ssh_command self home cs).
  rewrite !count_log_other by reflexivity.
  destruct (subprocess_Popen env (count is_popen (trace w)) (ssh_command self home cs))
    as [[]|e].
  - rewrite !logs_log, !logs_logs. reflexivity.
  - destruct (is_CalledProcessError e).
    + erewrite bind_ok by (apply master_ssh_login_cached; exact Hcache).
      rewrite bind_print. unfold raise.
      fold (ssh_hint self cs).
      rewrite !logs_log, !logs_logs. reflexivity.
    + rewrite !logs_log, !logs_logs, app_nil_r. reflexivity.
Qed.

End StartingSsh.

(** X9. With a stored service and [HOME] set, [cluster_ssh] starts
    [ssh -i <key> <name>@<master>], after announcing it, hands the body that
    process, and when the body ends normally sends the process [terminate];
    however the body ends, that is how the scope ends. *)
Theorem cluster_ssh_runs_body
    (env : Env) (self : ContainerServiceHelper) {A} (body : Popen -> M A)
    (w : World) (cs : ContainerService) (home : string) :
  _container_service w = Some cs ->
  environ_HOME env = Some home ->
  subprocess_Popen env (count is_popen (trace w)) (ssh_command self home cs)
    = Returns tt ->
  let proc := {| pid := count is_popen (trace w);
                 popen_args := ssh_command self home cs |} in
  let started :=
    spawned proc
      (logs [ EvHaikunate;
              EvPrint ("Connecting to cluster: "
                       +:+ PyStr.join " " (ssh_command self home cs));
              EvPopen (ssh_command self home cs) ] w) in
  cluster_ssh env self body w =
    match body proc started with
    | (Ok a, w2) => (Ok a, reaped proc (log (EvTerminate proc) w2))
    | (Raise e, w2) => (Raise e, w2)
    | (OutOfFuel, w2) => (OutOfFuel, w2)
    end.
Proof.
  intros Hcache Hhome Hpopen proc started.
  unfold cluster_ssh, with_generator.
  erewrite bind_ok.
  2:{ rewrite (cluster_ssh_before_steps env self w cs home Hcache Hhome), Hpopen.
      reflexivity. }
  fold proc. fold started.
  destruct (body proc started) as [[a|e|] w2]; reflexivity.
Qed.

Lemma cluster_ssh_runs_body_witness :
  cluster_ssh Cases.existing Scenario.helper Scenario.quiet_body Cases.provisioned =
    (Ok tt,
     reaped {| pid := 0; popen_args := ssh_command Scenario.helper "/home/operator"
                                         Cases.service |}
       (log (EvTerminate {| pid := 0;
                            popen_args := ssh_command Scenario.helper "/home/operator"
                                            Cases.service |})
          (spawned {| pid := 0;
                      popen_args := ssh_command Scenario.helper "/home/operator"
                                      Cases.service |}
             (logs [ EvHaikunate;
                     EvPrint "Connecting to cluster: ssh -i /home/operator/.ssh/id_rsa acsdemo@acsdemo-mgmt.westus.cloudapp.azure.com";
                     EvPopen (ssh_command Scenario.helper "/home/operator"
                                Cases.service) ] Cases.provisioned)))).
Proof.
  exact (cluster_ssh_runs_body Cases.existing Scenario.helper Scenario.quiet_body
           Cases.provisioned Cases.service "/home/operator"
           eq_refl eq_refl eq_refl).
Defined.

(** X10. When [Popen] raises, the body never runs and no process is left running;
    the exception reaches the caller, and only for [CalledProcessError] is the
    hint with the login printed first (after one more access to the
    service). *)
Theorem cluster_ssh_popen_failure
    (env : Env) (self : ContainerServiceHelper) {A} (body : Popen -> M A)
    (w : World) (cs : ContainerService) (home : string) (e : exn) :
  _container_service w = Some cs ->
  environ_HOME env = Some home ->
  subprocess_Popen env (count is_popen (trace w)) (ssh_command self home cs)
    = Raises e ->
  cluster_ssh env self body w =
    (Raise e,
     logs ([ EvHaikunate;
             EvPrint ("Connecting to cluster: "
                      +:+ PyStr.join " " (ssh_command self home cs));
             EvPopen (ssh_command self home cs) ]
           ++ if is_CalledProcessError e
              then [ EvHaikunate; EvPrint (ssh_hint self cs) ]
              else []) w) /\
  running (snd (cluster_ssh env self body w)) = running w.
Proof.
  intros Hcache Hhome Hpopen.
  assert (Hrun : cluster_ssh env self body w =
    (Raise e,
     logs ([ EvHaikunate;
             EvPrint ("Connecting to cluster: "
                      +:+ PyStr.join " " (ssh_command self home cs));
             EvPopen (ssh_command self home cs) ]
           ++ if is_CalledProcessError e
              then [ EvHaikunate; EvPrint (ssh_hint self cs) ]
              else []) w)).
  { unfold cluster_ssh, with_generator.
    erewrite bind_raise; [reflexivity|].
    rewrite (cluster_ssh_before_steps env self w cs home Hcache Hhome), Hpopen.
    reflexivity. }
  rewrite Hrun. split; reflexivity.
Qed.

Lemma cluster_ssh_popen_failure_witness :
  (cluster_ssh Cases.popen_refused Scenario.helper Scenario.quiet_body
     Cases.provisioned =
     (Raise CalledProcessError,
      logs ([ EvHaikunate;
              EvPrint ("Connecting to cluster: "
                       +:+ PyStr.join " " (ssh_command Scenario.helper
                                             "/home/operator" Cases.service));
              EvPopen (ssh_command Scenario.helper "/home/operator" Cases.service) ]
            ++ [ EvHaikunate; EvPrint (ssh_hint Scenario.helper Cases.service) ])
        Cases.provisioned) /\
   running (snd (cluster_ssh Cases.popen_refused Scenario.helper Scenario.quiet_body
                   Cases.provisioned)) = running Cases.provisioned) /\
  (cluster_ssh Cases.popen_missing Scenario.helper Scenario.quiet_body
     Cases.provisioned =
     (Raise (OtherException "FileNotFoundError"),
      logs ([ EvHaikunate;
              EvPrint ("Connecting to cluster: "
                       +:+ PyStr.join " " (ssh_command Scenario.helper
                                             "/home/operator" Cases.service));
              EvPopen (ssh_command Scenario.helper "/home/operator" Cases.service) ]
            ++ [])
        Cases.provisioned) /\
   running (snd (cluster_ssh Cases.popen_missing Scenario.helper Scenario.quiet_body
                   Cases.provisioned)) = running Cases.provisioned).
Proof.
  split.
  - exact (cluster_ssh_popen_failure Cases.popen_refused Scenario.helper
             Scenario.quiet_body Cases.provisioned Cases.service "/home/operator"
             CalledProcessError eq_refl eq_refl eq_refl).
  - exact (cluster_ssh_popen_failure Cases.popen_missing Scenario.helper
             Scenario.quiet_body Cases.provisioned Cases.service "/home/operator"
             (OtherException "FileNotFoundError") eq_refl eq_refl eq_refl).
Defined.

Example ssh_hint_text :
  ssh_hint Scenario.helper Cases.service =
  "Your SSH connection to the cluster was unsuccessful. Try `ssh acsdemo@acsdemo-mgmt.westus.cloudapp.azure.com` to confirm that you can do so without any prompts.".
Proof. vm_compute. reflexivity. Qed.

(** ** The polling loop: when it does not end well *)

Section PollingOn.

Variable env : Env.
Variable base_url : string.

Local Abbreviation url := (base_url +:+ "deployments").

Lemma poll_after_rounds (n fuel : nat) (w : World) :
  still_pending env base_url n w ->
  poll env (n + fuel) base_url w =
    poll env fuel base_url (logs (concat (replicate n (waiting_round url))) w).
Proof.
  revert w. induction n as [|n IH]; intros w Hpending.
  - simpl. unfold logs. rewrite app_nil_r. now destruct w.
  - destruct (Hpending 0%nat ltac:(lia)) as [(response & j & Hget & Hbody & Htruthy) Hsleep].
    rewrite !Nat.add_0_r in *.
    change (S n + fuel)%nat with (S (n + fuel)).
    rewrite (poll_round_pending env base_url (n + fuel) w response j
               Hget Hbody Htruthy Hsleep).
    rewrite IH.
    + rewrite logs_logs. reflexivity.
    + intros i Hi. rewrite !count_logs.
      change (count is_http_get (waiting_round url)) with 1%nat.
      change (count is_sleep (waiting_round url)) with 1%nat.
      replace (count is_http_get (trace w) + 1 + i)%nat
        with (count is_http_get (trace w) + S i)%nat by lia.
      replace (count is_sleep (trace w) + 1 + i)%nat
        with (count is_sleep (trace w) + S i)%nat by lia.
      apply Hpending. lia.
Qed.

Lemma poll_round_get_fails (fuel : nat) (w : World) (e : exn) :
  submission_failure (requests_get env (count is_http_get (trace w)) url) = Some e ->
  poll env (S fuel) base_url w = (Raise e, logs (final_round url) w).
Proof.
  intros H. cbn [poll]. rewrite !bind_print.
  destruct (requests_get env (count is_http_get (trace w)) url)
    as [response|e'] eqn:Hget; simpl in H.
  - destruct (body response) as [j|] eqn:Hbody; [discriminate|].
    injection H as <-.
    erewrite bind_ok.
    2:{ apply requests_get_url_returns.
        rewrite !count_log_other by reflexivity. exact Hget. }
    unfold response_json. rewrite Hbody.
    rewrite !logs_log, !logs_logs. reflexivity.
  - injection H as <-.
    erewrite bind_raise.
    2:{ unfold requests_get_url. rewrite !count_log_other by reflexivity.
        rewrite Hget. reflexivity. }
    rewrite !logs_log, !logs_logs. reflexivity.
Qed.

Lemma poll_round_sleep_fails (fuel : nat) (w : World) (response : Response)
    (j : json) (e : exn) :
  requests_get env (count is_http_get (trace w)) url = Returns response ->
  body response = Some j ->
  truthy j = true ->
  time_sleep env (count is_sleep (trace w)) 5 = Raises e ->
  poll env (S fuel) base_url w = (Raise e, logs (waiting_round url) w).
Proof.
  intros Hget Hbody Htruthy Hsleep.
  cbn [poll]. rewrite !bind_print.
  erewrite bind_ok.
  2:{ apply requests_get_url_returns.
      rewrite !count_log_other by reflexivity. exact Hget. }
  erewrite bind_ok by (apply response_json_some; exact Hbody).
  rewrite Htruthy, bind_print.
  erewrite bind_raise.
  2:{ unfold sleep. rewrite !count_log_other by reflexivity.
      rewrite Hsleep. reflexivity. }
  rewrite !logs_log, !logs_logs. reflexivity.
Qed.

End PollingOn.

(** X11. The loop has no limit of its own: as long as every GET finds something
    pending and every sleep returns, it is still running after any number of
    rounds, having made one GET and one sleep per round. *)
Theorem poll_never_gives_up
    (env : Env) (base_url : string) (w : World) (fuel : nat) :
  (forall n, still_pending env base_url n w) ->
  poll env fuel base_url w =
    (OutOfFuel,
     logs (concat (replicate fuel (waiting_round (base_url +:+ "deployments")))) w) /\
  count is_http_get (trace (snd (poll env fuel base_url w))) =
    (count is_http_get (trace w) + fuel)%nat /\
  count is_sleep (trace (snd (poll env fuel base_url w))) =
    (count is_sleep (trace w) + fuel)%nat.
Proof.
  intros Hpending.
  assert (Hrun : poll env fuel base_url w =
    (OutOfFuel,
     logs (concat (replicate fuel (waiting_round (base_url +:+ "deployments")))) w)).
  { rewrite <- (Nat.add_0_r fuel) at 1.
    now rewrite (poll_after_rounds env base_url fuel 0 w (Hpending fuel)). }
  rewrite Hrun. split; [reflexivity|]. cbn [snd].
  rewrite !count_logs, !count_rounds.
  change (count is_http_get (waiting_round (base_url +:+ "deployments"))) with 1%nat.
  change (count is_sleep (waiting_round (base_url +:+ "deployments"))) with 1%nat.
  split; lia.
Qed.

Lemma poll_never_gives_up_witness :
  poll Cases.stuck 7 "http://127.0.0.1:8001/marathon/v2/" fresh =
    (OutOfFuel,
     logs (concat (replicate 7
             (waiting_round ("http://127.0.0.1:8001/marathon/v2/" +:+ "deployments"))))
       fresh) /\
  count is_http_get
    (trace (snd (poll Cases.stuck 7 "http://127.0.0.1:8001/marathon/v2/" fresh)))
    = (count is_http_get (trace fresh) + 7)%nat /\
  count is_sleep
    (trace (snd (poll Cases.stuck 7 "http://127.0.0.1:8001/marathon/v2/" fresh)))
    = (count is_sleep (trace fresh) + 7)%nat.
Proof.
  apply (poll_never_gives_up Cases.stuck "http://127.0.0.1:8001/marathon/v2/" fresh 7).
  intros n i _. split; [|reflexivity].
  eexists _, _. repeat split; reflexivity.
Defined.

(** X12. A GET that raises, or whose answer is not JSON, ends the loop at once with
    that exception, however many rounds went well before: there is one GET per
    round and no sleep after the failed one. *)
Theorem poll_get_failure
    (env : Env) (base_url : string) (w : World) (n fuel : nat) (e : exn) :
  still_pending env base_url n w ->
  submission_failure
    (requests_get env (count is_http_get (trace w) + n)
       (base_url +:+ "deployments")) = Some e ->
  poll env (n + S fuel) base_url w =
    (Raise e,
     logs (concat (replicate n (waiting_round (base_url +:+ "deployments")))
           ++ final_round (base_url +:+ "deployments")) w).
Proof.
  intros Hpending Hfail.
  rewrite (poll_after_rounds env base_url n (S fuel) w Hpending).
  rewrite (poll_round_get_fails env base_url fuel _ e).
  - now rewrite logs_logs.
  - rewrite count_logs, count_rounds.
    change (count is_http_get (waiting_round (base_url +:+ "deployments")))
      with 1%nat.
    rewrite Nat.mul_1_r. exact Hfail.
Qed.

Lemma poll_get_failure_witness :
  poll Cases.get_breaks (2 + 4) "http://127.0.0.1:8001/marathon/v2/" fresh =
    (Raise (OtherException "ConnectionError"),
     logs (concat (replicate 2
             (waiting_round ("http://127.0.0.1:8001/marathon/v2/" +:+ "deployments")))
           ++ final_round ("http://127.0.0.1:8001/marathon/v2/" +:+ "deployments"))
       fresh).
Proof.
  apply (poll_get_failure Cases.get_breaks "http://127.0.0.1:8001/marathon/v2/"
           fresh 2 3 (OtherException "ConnectionError")).
  - intros i Hi. split; [|reflexivity].
    destruct i as [|[|i]]; [| |lia];
      (eexists _, _; repeat split; reflexivity).
  - reflexivity.
Defined.

(** X13. A sleep that raises (Ctrl-C, say) ends the loop with that exception right
    after the GET that found something pending; no further GET is made. *)
Theorem poll_sleep_interrupted
    (env : Env) (base_url : string) (w : World) (n fuel : nat)
    (response : Response) (j : json) (e : exn) :
  still_pending env base_url n w ->
  requests_get env (count is_http_get (trace w) + n) (base_url +:+ "deployments")
    = Returns response ->
  body response = Some j ->
  truthy j = true ->
  time_sleep env (count is_sleep (trace w) + n) 5 = Raises e ->
  poll env (n + S fuel) base_url w =
    (Raise e,
     logs (concat (replicate n (waiting_round (base_url +:+ "deployments")))
           ++ waiting_round (base_url +:+ "deployments")) w) /\
  count is_http_get (trace (snd (poll env (n + S fuel) base_url w))) =
    (count is_http_get (trace w) + S n)%nat.
Proof.
  intros Hpending Hget Hbody Htruthy Hsleep.
  assert (Hrun : poll env (n + S fuel) base_url w =
    (Raise e,
     logs (concat (replicate n (waiting_round (base_url +:+ "deployments")))
           ++ waiting_round (base_url +:+ "deployments")) w)).
  { rewrite (poll_after_rounds env base_url n (S fuel) w Hpending).
    rewrite (poll_round_sleep_fails env base_url fuel _ response j e);
      try assumption.
    - now rewrite logs_logs.
    - rewrite count_logs, count_rounds.
      change (count is_http_get (waiting_round (base_url +:+ "deployments")))
        with 1%nat.
      rewrite Nat.mul_1_r. exact Hget.
    - rewrite count_logs, count_rounds.
      change (count is_sleep (waiting_round (base_url +:+ "deployments")))
        with 1%nat.
      rewrite Nat.mul_1_r. exact Hsleep. }
  rewrite Hrun. split; [reflexivity|]. cbn [snd].
  rewrite count_logs, count_app, count_rounds.
  change (count is_http_get (waiting_round (base_url +:+ "deployments"))) with 1%nat.
  lia.
Qed.

Lemma poll_sleep_interrupted_witness :
  poll Cases.nap_interrupted (1 + 5) "http://127.0.0.1:8001/marathon/v2/" fresh =
    (Raise KeyboardInterrupt,
     logs (concat (replicate 1
             (waiting_round ("http://127.0.0.1:8001/marathon/v2/" +:+ "deployments")))
           ++ waiting_round ("http://127.0.0.1:8001/marathon/v2/" +:+ "deployments"))
       fresh) /\
  count is_http_get
    (trace (snd (poll Cases.nap_interrupted (1 + 5)
                   "http://127.0.0.1:8001/marathon/v2/" fresh)))
    = (count is_http_get (trace fresh) + 2)%nat.
Proof.
  apply (poll_sleep_interrupted Cases.nap_interrupted
           "http://127.0.0.1:8001/marathon/v2/" fresh 1 4
           {| status_code := 200; body := Some Scenario.pending_list |}
           Scenario.pending_list KeyboardInterrupt).
  - intros i Hi. split; [|destruct i as [|i]; [reflexivity | lia]].
    eexists _, _. repeat split; reflexivity.
  - reflexivity.
  - reflexivity.
  - reflexivity.
  - reflexivity.
Defined.

(** ** After the POST *)

(** X14. What [deploy_container] does with a decoded answer to the POST, whatever
    its status: it prints that the request was successful, then prints the
    deployments of an object that has them, or else the whole answer, and
    starts polling.  An answer that is [null], a boolean or a number, or a
    string or array that mentions ['deployments'], raises [TypeError] after
    the success line, without any polling. *)
Theorem deploy_body_after_post
    (env : Env) (self : ContainerServiceHelper) (fuel : nat)
    (registry : option ContainerRegistryHelper) (tunnel : TunnelArgs)
    (w : World) (response : Response) (content : json) :
  requests_post env (count is_post (trace w))
    (marathon_base_url tunnel +:+ "apps")
    (JObj (marathon_deploy_params self registry)) = Returns response ->
  body response = Some content ->
  deploy_body env self fuel registry tunnel w =
    match content_report content with
    | Some report =>
        poll env fuel (marathon_base_url tunnel)
          (logs [ EvPrint ("Attempting to deploy Docker image " +:+ docker_tag self);
                  EvPost (marathon_base_url tunnel +:+ "apps")
                         (JObj (marathon_deploy_params self registry));
                  EvPrint "Deployment request successful.";
                  report ] w)
    | None =>
        (Raise TypeError,
         logs [ EvPrint ("Attempting to deploy Docker image " +:+ docker_tag self);
                EvPost (marathon_base_url tunnel +:+ "apps")
                       (JObj (marathon_deploy_params self registry));
                EvPrint "Deployment request successful." ] w)
    end.
Proof. apply deploy_body_steps. Qed.

Lemma deploy_body_after_post_witness :
  deploy_body Cases.post_number Scenario.helper 5 None Cases.tunnel_args fresh =
    (Raise TypeError,
     logs [ EvPrint ("Attempting to deploy Docker image "
                     +:+ docker_tag Scenario.helper);
            EvPost (marathon_base_url Cases.tunnel_args +:+ "apps")
                   (JObj (marathon_deploy_params Scenario.helper None));
            EvPrint "Deployment request successful." ] fresh) /\
  deploy_body Cases.existing Scenario.helper 5 None Cases.tunnel_args fresh =
    poll Cases.existing 5 (marathon_base_url Cases.tunnel_args)
      (logs [ EvPrint ("Attempting to deploy Docker image "
                       +:+ docker_tag Scenario.helper);
              EvPost (marathon_base_url Cases.tunnel_args +:+ "apps")
                     (JObj (marathon_deploy_params Scenario.helper None));
              EvPrint "Deployment request successful.";
              EvPrintValue "Deployments: " (JArr [JStr "5ed4c0c5"]) ] fresh).
Proof.
  split.
  - exact (deploy_body_after_post Cases.post_number Scenario.helper 5 None
             Cases.tunnel_args fresh _ (JInt 7) eq_refl eq_refl).
  - exact (deploy_body_after_post Cases.existing Scenario.helper 5 None
             Cases.tunnel_args fresh _ _ eq_refl eq_refl).
Defined.

(** ** The whole workflow, the first time *)

Section FirstTime.

Variable env : Env.
Variable self : ContainerServiceHelper.
Variable w : World.
Variable status : Z.
Variable home key : string.
Variable poller : AzureOperationPoller.
Variable cs : ContainerService.

Local Abbreviation group_of_self := (group_name (group (resources self))).
Local Abbreviation request :=
  (creation_request self (haikunate env (count is_haikunate (trace w)))
     {| public_keys := [ {| key_data := key |} ] |}).
Local Abbreviation provisioning :=
  [ EvHaikunate;
    EvGet group_of_self (name self);
    EvOpenFile (public_key_path home);
    EvCreateOrUpdate group_of_self (name self) request;
    EvResult ].

Hypothesis Hcache : _container_service w = None.
Hypothesis Hlookup :
  container_services_get env (count is_get (trace w)) group_of_self (name self)
    = Raises (CloudError status).
Hypothesis Hhome : environ_HOME env = Some home.
Hypothesis Hkey : read_file env (public_key_path home) = Returns key.
Hypothesis Hcreate :
  container_services_create_or_update env (count is_create (trace w))
    group_of_self (name self) request = Returns poller.
Hypothesis Hresult : operation_result poller = Returns cs.

Lemma container_service_creates :
  container_service env self w =
    (Ok cs, set__container_service cs (logs provisioning w)).
Proof.
  unfold public_key_path in *.
  run_provisioning. rewrite Hcache, Hhome. simpl.
  rewrite !count_snoc_other by reflexivity. rewrite Hlookup. simpl.
  rewrite Hkey. simpl.
  rewrite !count_snoc_other by reflexivity. rewrite Hcreate. simpl.
  rewrite Hresult. simpl.
  unfold set__container_service, logs. simpl.
  now rewrite <- !app_assoc.
Qed.

Lemma ssh_tunnel_args_first_time (rh lh : string) (rp lp : Z) :
  ssh_tunnel_args env self rh lh rp lp w =
    (Ok {| ssh_address_or_host := (fqdn (master_profile cs), 2200);
           ssh_username := name self;
           remote_bind_address := (rh, rp);
           local_bind_address := (lh, lp);
           ssh_pkey := private_key_path home |},
     set__container_service cs (logs provisioning w)).
Proof.
  unfold ssh_tunnel_args, master_ssh_address.
  rewrite (bind_ok _ _ _ _ _
             (bind_ok _ _ _ _ _ container_service_creates)).
  unfold get_key_path. rewrite Hhome. reflexivity.
Qed.

End FirstTime.

Lemma count_provisioning_other (kind : event -> bool) (w : World)
    (cs : ContainerService) (events : list event) :
  count kind events = 0%nat ->
  count kind (trace (set__container_service cs (logs events w))) =
  count kind (trace w).
Proof. intros H. cbn [set__container_service logs trace]. rewrite count_app, H. lia. Qed.

(** X15. The whole of [deploy_container] on a cluster that does not exist yet, when
    everything works and the first poll finds nothing pending: one lookup, one
    read of the public key, one creation request and the wait for its result;
    one tunnel to port 2200 of the new master, forwarding 127.0.0.1:8001 to
    127.0.0.1:80; one POST of the deployment request to [/marathon/v2/apps];
    one GET of [/marathon/v2/deployments]; the tunnel stopped.  In that order
    and nothing else; the new service is stored. *)
Theorem deploy_container_first_time
    (env : Env) (self : ContainerServiceHelper) (fuel : nat)
    (registry : option ContainerRegistryHelper) (w : World)
    (status : Z) (home key : string) (poller : AzureOperationPoller)
    (cs : ContainerService) (response answer : Response)
    (content pending : json) (report : event) :
  _container_service w = None ->
  container_services_get env (count is_get (trace w))
    (group_name (group (resources self))) (name self) = Raises (CloudError status) ->
  environ_HOME env = Some home ->
  read_file env (public_key_path home) = Returns key ->
  container_services_create_or_update env (count is_create (trace w))
    (group_name (group (resources self))) (name self)
    (creation_request self (haikunate env (count is_haikunate (trace w)))
       {| public_keys := [ {| key_data := key |} ] |}) = Returns poller ->
  operation_result poller = Returns cs ->
  tunnel_start env (count is_tunnel_start (trace w))
    {| ssh_address_or_host := (fqdn (master_profile cs), 2200);
       ssh_username := name self;
       remote_bind_address := ("127.0.0.1", 80);
       local_bind_address := ("127.0.0.1", 8001);
       ssh_pkey := private_key_path home |} = Started ->
  requests_post env (count is_post (trace w))
    "http://127.0.0.1:8001/marathon/v2/apps"
    (JObj (marathon_deploy_params self registry)) = Returns response ->
  body response = Some content ->
  content_report content = Some report ->
  requests_get env (count is_http_get (trace w))
    "http://127.0.0.1:8001/marathon/v2/deployments" = Returns answer ->
  body answer = Some pending ->
  truthy pending = false ->
  fst (deploy_container env self (S fuel) registry w) = Ok tt /\
  trace (snd (deploy_container env self (S fuel) registry w)) =
    trace w ++
    [ EvHaikunate;
      EvGet (group_name (group (resources self))) (name self);
      EvOpenFile (public_key_path home);
      EvCreateOrUpdate (group_name (group (resources self))) (name self)
        (creation_request self (haikunate env (count is_haikunate (trace w)))
           {| public_keys := [ {| key_data := key |} ] |});
      EvResult;
      EvTunnelStart
        {| ssh_address_or_host := (fqdn (master_profile cs), 2200);
           ssh_username := name self;
           remote_bind_address := ("127.0.0.1", 80);
           local_bind_address := ("127.0.0.1", 8001);
           ssh_pkey := private_key_path home |};
      EvPrint ("Attempting to deploy Docker image " +:+ docker_tag self);
      EvPost "http://127.0.0.1:8001/marathon/v2/apps"
             (JObj (marathon_deploy_params self registry));
      EvPrint "Deployment request successful.";
      report;
      EvPrint "Making sure deployment finishes.";
      EvPrint "Initial simple-docker deploy should take about 30 seconds.";
      EvHttpGet "http://127.0.0.1:8001/marathon/v2/deployments";
      EvTunnelStop ] /\
  _container_service (snd (deploy_container env self (S fuel) registry w)) = Some cs /\
  open_tunnels (snd (deploy_container env self (S fuel) registry w)) = open_tunnels w /\
  running (snd (deploy_container env self (S fuel) registry w)) = running w.
Proof.
  intros Hcache Hlookup Hhome Hkey Hcreate Hresult Hstart Hpost Hbody Hreport
         Hget Hanswer Hfalsy.
  set (args := {| ssh_address_or_host := (fqdn (master_profile cs), 2200);
                  ssh_username := name self;
                  remote_bind_address := ("127.0.0.1", 80);
                  local_bind_address := ("127.0.0.1", 8001);
                  ssh_pkey := private_key_path home |}) in *.
  pose proof (ssh_tunnel_args_first_time env self w status home key poller cs
                Hcache Hlookup Hhome Hkey Hcreate Hresult
                "127.0.0.1" "127.0.0.1" 80 8001) as Hargs.
  fold args in Hargs.
  match type of Hargs with _ = (_, ?w1) => set (provisioned := w1) in * end.
  assert (Hstarts : count is_tunnel_start (trace provisioned)
                    = count is_tunnel_start (trace w))
    by (apply count_provisioning_other; reflexivity).
  assert (Hposts : count is_post (trace provisioned) = count is_post (trace w))
    by (apply count_provisioning_other; reflexivity).
  assert (Hgets : count is_http_get (trace provisioned)
                  = count is_http_get (trace w))
    by (apply count_provisioning_other; reflexivity).
  assert (Hrun : deploy_container env self (S fuel) registry w =
    (Ok tt,
     tunnel_closed
       (log EvTunnelStop
          (logs (final_round (marathon_base_url args +:+ "deployments"))
             (logs [ EvPrint ("Attempting to deploy Docker image "
                              +:+ docker_tag self);
                     EvPost (marathon_base_url args +:+ "apps")
                            (JObj (marathon_deploy_params self registry));
                     EvPrint "Deployment request successful.";
                     report ]
                (tunnel_opened (log (EvTunnelStart args) provisioned))))))).
  { unfold deploy_container, try_except.
    rewrite (bind_ok _ _ _ _ _ Hargs). unfold with_object.
    erewrite bind_ok.
    2:{ apply tunnel_start_returns. rewrite Hstarts. exact Hstart. }
    unfold deploy_under. cbn [entered_as].
    erewrite deploy_body_steps; [rewrite Hreport| |exact Hbody].
    2:{ cbn [tunnel_opened trace]. rewrite count_log_other by reflexivity.
        rewrite Hposts. exact Hpost. }
    erewrite poll_round_done; [reflexivity| |exact Hanswer|exact Hfalsy].
    rewrite count_logs. cbn [tunnel_opened trace].
    rewrite count_log_other by reflexivity.
    rewrite Hgets.
    replace (count is_http_get [_; _; _; _]) with 0%nat.
    - rewrite Nat.add_0_r. exact Hget.
    - unfold count. cbn [List.filter is_http_get].
      destruct report; try reflexivity.
      destruct content as [| | | | s | items | fields]; simpl in Hreport;
        try discriminate;
        repeat match type of Hreport with
               | context [match ?x with _ => _ end] => destruct x
               | context [if ?x then _ else _] => destruct x
               end; discriminate. }
  rewrite Hrun. cbn [fst snd]. split; [reflexivity|].
  split; [|repeat split].
  cbn [tunnel_closed tunnel_opened log logs trace set__container_service].
  subst provisioned. cbn [set__container_service logs trace].
  rewrite <- !app_assoc. reflexivity.
Qed.

Lemma deploy_container_first_time_witness :
  fst (deploy_container Cases.first_time Scenario.helper 1 None fresh) = Ok tt /\
  length (trace (snd (deploy_container Cases.first_time Scenario.helper 1 None fresh)))
    = 14%nat /\
  _container_service
    (snd (deploy_container Cases.first_time Scenario.helper 1 None fresh))
    = Some (Scenario.deployed
              (creation_request Scenario.helper "calm-river-1234"
                 {| public_keys := [ {| key_data := Cases.key_text |} ] |})) /\
  open_tunnels (snd (deploy_container Cases.first_time Scenario.helper 1 None fresh))
    = 0%nat.
Proof.
  destruct (deploy_container_first_time Cases.first_time Scenario.helper 0 None fresh
              404 "/home/operator" Cases.key_text
              {| operation_result :=
                   Returns (Scenario.deployed
                              (creation_request Scenario.helper "calm-river-1234"
                                 {| public_keys :=
                                      [ {| key_data := Cases.key_text |} ] |})) |}
              (Scenario.deployed
                 (creation_request Scenario.helper "calm-river-1234"
                    {| public_keys := [ {| key_data := Cases.key_text |} ] |}))
              Scenario.accepted
              {| status_code := 200; body := Some (JArr []) |}
              (JObj (<["deployments" := JArr [JStr "5ed4c0c5"]]> ∅))
              (JArr [])
              (EvPrintValue "Deployments: " (JArr [JStr "5ed4c0c5"]))
              eq_refl eq_refl eq_refl eq_refl eq_refl eq_refl eq_refl
              eq_refl eq_refl eq_refl eq_refl eq_refl eq_refl)
    as (Hok & Htrace & Hstored & Htunnels & _).
  split; [exact Hok|]. split; [rewrite Htrace; reflexivity|].
  split; [exact Hstored | exact Htunnels].
Defined.

(** ** What the workflow keeps *)

Lemma keeps_with_object (R : World -> World -> Prop)
    (R_trans : forall w1 w2 w3, R w1 w2 -> R w2 w3 -> R w1 w3)
    {T A} (enter : M T) (exit : T -> M unit) (body : T -> M A) :
  keeps R enter -> (forall r, keeps R (exit r)) -> (forall r, keeps R (body r)) ->
  keeps R (with_object enter exit body).
Proof.
  intros Henter Hexit Hbody. unfold with_object.
  apply keeps_bind; [exact R_trans | exact Henter |].
  intros t w r w' H.
  destruct (body t w) as [[a|e|] w2] eqn:Hrun; apply Hbody in Hrun.
  - unfold bind, ret in H. destruct (exit t w2) as [[[]|e'|] w3] eqn:Hx;
      apply Hexit in Hx; inversion H; subst; eapply R_trans; eauto.
  - unfold bind, raise in H. destruct (exit t w2) as [[[]|e'|] w3] eqn:Hx;
      apply Hexit in Hx; inversion H; subst; eapply R_trans; eauto.
  - inversion H; subst. exact Hrun.
Qed.

Lemma keeps_with_generator (R : World -> World -> Prop)
    (R_trans : forall w1 w2 w3, R w1 w2 -> R w2 w3 -> R w1 w3)
    {T A} (before : M T) (after : T -> M unit) (body : T -> M A) :
  keeps R before -> (forall r, keeps R (after r)) -> (forall r, keeps R (body r)) ->
  keeps R (with_generator before after body).
Proof.
  intros Hbefore Hafter Hbody. unfold with_generator.
  apply keeps_bind; [exact R_trans | exact Hbefore |].
  intros t w r w' H.
  destruct (body t w) as [[a|e|] w2] eqn:Hrun; apply Hbody in Hrun.
  - unfold bind, ret in H. destruct (after t w2) as [[[]|e'|] w3] eqn:Hx;
      apply Hafter in Hx; inversion H; subst; eapply R_trans; eauto.
  - inversion H; subst. exact Hrun.
  - inversion H; subst. exact Hrun.
Qed.

Section KeepsWorkflow.

Variable env : Env.
Variable self : ContainerServiceHelper.
Variable R : World -> World -> Prop.
Hypothesis R_refl : forall w, R w w.
Hypothesis R_trans : forall w1 w2 w3, R w1 w2 -> R w2 w3 -> R w1 w3.
Hypothesis R_log : forall e w, is_provisioning e = false -> R w (log e w).
Hypothesis R_service : keeps R (container_service env self).

(** Walk through a computation made of accesses to the service and of events
    that are not provisioning events. *)
Ltac keep :=
  repeat (intros; first
    [ assumption
    | apply (keeps_bind R R_trans)
    | apply (keeps_ret R R_refl)
    | apply (keeps_raise R R_refl)
    | apply (keeps_out_of_fuel R R_refl)
    | apply (keeps_emit R); intros; apply R_log; reflexivity
    | apply (keeps_logged R); intros; apply R_log; reflexivity
    | match goal with
      | |- keeps _ (match ?c with _ => _ end) => destruct c
      end ]).

Lemma workflow_master_ssh_address : keeps R (master_ssh_address env self).
Proof. unfold master_ssh_address. keep. Qed.

Lemma workflow_master_ssh_login : keeps R (master_ssh_login env self).
Proof.
  pose proof workflow_master_ssh_address. unfold master_ssh_login. keep.
Qed.

Lemma workflow_ssh_tunnel_args (rh lh : string) (rp lp : Z) :
  keeps R (ssh_tunnel_args env self rh lh rp lp).
Proof.
  pose proof workflow_master_ssh_address.
  pose proof (keeps_get_key_path env R R_refl).
  unfold ssh_tunnel_args. keep.
Qed.

Lemma workflow_poll (fuel : nat) (base_url : string) :
  keeps R (poll env fuel base_url).
Proof.
  induction fuel as [|fuel IH]; cbn [poll];
    unfold print, requests_get_url, response_json, sleep; keep.
Qed.

Lemma workflow_deploy_body (fuel : nat)
    (registry : option ContainerRegistryHelper) (tunnel : TunnelArgs) :
  keeps R (deploy_body env self fuel registry tunnel).
Proof.
  pose proof (workflow_poll fuel (marathon_base_url tunnel)) as Hpoll.
  unfold deploy_body, print, requests_post_json, response_json, py_in, py_getitem.
  keep.
Qed.

Hypothesis R_opened : forall w, R w (tunnel_opened w).
Hypothesis R_closed : forall w, R w (tunnel_closed w).

Lemma workflow_tunnel_exit (forwarder : Forwarder) :
  keeps R (SSHTunnelForwarder_exit forwarder).
Proof.
  intros w r w' H. unfold SSHTunnelForwarder_exit in H.
  inversion H; subst. destruct (transport_active forwarder).
  - apply (R_trans _ (log EvTunnelStop w));
      [apply R_log; reflexivity | apply R_closed].
  - apply R_log. reflexivity.
Qed.

Lemma workflow_tunnel_enter (args : TunnelArgs) :
  keeps R (SSHTunnelForwarder_enter env args).
Proof.
  intros w r w' H. unfold SSHTunnelForwarder_enter in H.
  assert (Hleft : forall up : bool,
            R w (if up then tunnel_opened (log (EvTunnelStart args) w)
                 else log (EvTunnelStart args) w)).
  { intros [].
    - apply (R_trans _ (log (EvTunnelStart args) w));
        [apply R_log; reflexivity | apply R_opened].
    - apply R_log. reflexivity. }
  destruct (tunnel_start env _ args) as [|e up].
  - inversion H; subst. exact (Hleft true).
  - destruct (is_KeyboardInterrupt e); injection H as <- <-.
    + apply (R_trans _ _ _ (Hleft up)).
      apply (workflow_tunnel_exit
               {| forwarder_args := args; transport_active := up;
                  entered_as := None |} _ (Ok tt)).
      reflexivity.
    + exact (Hleft up).
Qed.

Lemma workflow_deploy_under (fuel : nat)
    (registry : option ContainerRegistryHelper) (forwarder : Forwarder) :
  keeps R (deploy_under env self fuel registry forwarder).
Proof.
  unfold deploy_under. destruct (entered_as forwarder).
  - apply workflow_deploy_body.
  - apply (keeps_raise R R_refl).
Qed.

Lemma workflow_deploy_container (fuel : nat)
    (registry : option ContainerRegistryHelper) :
  keeps R (deploy_container env self fuel registry).
Proof.
  pose proof workflow_master_ssh_address.
  unfold deploy_container. apply (keeps_try_except R R_trans).
  - apply (keeps_bind R R_trans); [apply workflow_ssh_tunnel_args|].
    intros args. apply (keeps_with_object R R_trans).
    + apply workflow_tunnel_enter.
    + apply workflow_tunnel_exit.
    + apply workflow_deploy_under.
  - unfold print, sys_exit. keep.
Qed.

End KeepsWorkflow.

Section KeepsSsh.

Variable env : Env.
Variable self : ContainerServiceHelper.
Variable R : World -> World -> Prop.
Hypothesis R_refl : forall w, R w w.
Hypothesis R_trans : forall w1 w2 w3, R w1 w2 -> R w2 w3 -> R w1 w3.
Hypothesis R_log : forall e w, is_provisioning e = false -> R w (log e w).
Hypothesis R_service : keeps R (container_service env self).
Hypothesis R_spawned : forall p w, R w (spawned p w).
Hypothesis R_reaped : forall p w, R w (reaped p w).

Lemma workflow_cluster_ssh_before : keeps R (cluster_ssh_before env self).
Proof.
  pose proof (workflow_master_ssh_login env self R R_refl R_trans R_service)
    as Hlogin.
  pose proof (keeps_get_key_path env R R_refl) as Hkey.
  unfold cluster_ssh_before. apply (keeps_try_except R R_trans).
  - apply (keeps_bind R R_trans); [exact Hkey|]. intros key_path.
    apply (keeps_bind R R_trans); [exact Hlogin|]. intros login.
    apply (keeps_bind R R_trans).
    + apply (keeps_emit R). intros. apply R_log. reflexivity.
    + intros _ w r w' H.
      destruct (subprocess_Popen env _ _); inversion H; subst.
      * match goal with
        | |- R ?w0 (spawned _ (log ?e ?w0)) =>
            apply (R_trans _ (log e w0));
              [apply R_log; reflexivity | apply R_spawned]
        end.
      * apply R_log. reflexivity.
  - intros e. apply (keeps_bind R R_trans); [exact Hlogin|]. intros login.
    apply (keeps_bind R R_trans).
    + apply (keeps_emit R). intros. apply R_log. reflexivity.
    + intros _. apply (keeps_raise R R_refl).
Qed.

Lemma workflow_cluster_ssh {A} (body : Popen -> M A) :
  (forall proc, keeps R (body proc)) ->
  keeps R (cluster_ssh env self body).
Proof.
  intros Hbody. unfold cluster_ssh.
  apply (keeps_with_generator R R_trans).
  - apply workflow_cluster_ssh_before.
  - intros proc w r w' H. inversion H; subst.
    apply (R_trans _ (log (EvTerminate proc) w));
      [apply R_log; reflexivity | apply R_reaped].
  - exact Hbody.
Qed.

End KeepsSsh.

(** *** A stored service stays stored *)

Lemma not_provisioning_not_get (e : event) :
  is_provisioning e = false -> is_get e = false /\ is_create e = false.
Proof. destruct e; simpl; intros H; auto; discriminate. Qed.

Lemma cache_holds_refl (cs : ContainerService) (w : World) : cache_holds cs w w.
Proof. intros H. auto. Qed.

Lemma cache_holds_trans (cs : ContainerService) (w1 w2 w3 : World) :
  cache_holds cs w1 w2 -> cache_holds cs w2 w3 -> cache_holds cs w1 w3.
Proof.
  intros H12 H23 H1. destruct (H12 H1) as (H2 & Hg & Hc).
  destruct (H23 H2) as (H3 & Hg' & Hc'). repeat split; congruence.
Qed.

Lemma cache_holds_log (cs : ContainerService) (e : event) (w : World) :
  is_provisioning e = false -> cache_holds cs w (log e w).
Proof.
  intros He Hw. destruct (not_provisioning_not_get e He) as [Hg Hc].
  repeat split; [exact Hw | |]; now apply count_log_other.
Qed.

Lemma cache_holds_service (env : Env) (self : ContainerServiceHelper)
    (cs : ContainerService) :
  keeps (cache_holds cs) (container_service env self).
Proof.
  intros w r w' H Hw. rewrite (container_service_cached env self w cs Hw) in H.
  injection H as <- <-.
  repeat split; [exact Hw | |]; now apply count_log_other.
Qed.

(** X16. Once a service is stored, [deploy_container] works with it to the end:
    however the call ends, the same service is still stored and neither a
    lookup nor a creation request has been made. *)
Theorem deploy_container_keeps_stored_service
    (env : Env) (self : ContainerServiceHelper) (fuel : nat)
    (registry : option ContainerRegistryHelper) (w : World)
    (cs : ContainerService) :
  _container_service w = Some cs ->
  _container_service (snd (deploy_container env self fuel registry w)) = Some cs /\
  count is_get (trace (snd (deploy_container env self fuel registry w)))
    = count is_get (trace w) /\
  count is_create (trace (snd (deploy_container env self fuel registry w)))
    = count is_create (trace w).
Proof.
  destruct (deploy_container env self fuel registry w) as [r w'] eqn:H.
  cbn [snd]. revert H.
  apply (workflow_deploy_container env self (cache_holds cs)
           (cache_holds_refl cs) (cache_holds_trans cs) (cache_holds_log cs)
           (cache_holds_service env self cs)); intros w0 Hw0; auto.
Qed.

Lemma deploy_container_keeps_stored_service_witness :
  _container_service
    (snd (deploy_container Cases.stuck Scenario.helper 3 None Cases.provisioned))
    = Some Cases.service /\
  count is_get
    (trace (snd (deploy_container Cases.stuck Scenario.helper 3 None Cases.provisioned)))
    = count is_get (trace Cases.provisioned) /\
  count is_create
    (trace (snd (deploy_container Cases.stuck Scenario.helper 3 None Cases.provisioned)))
    = count is_create (trace Cases.provisioned).
Proof.
  apply (deploy_container_keeps_stored_service Cases.stuck Scenario.helper 3 None
           Cases.provisioned Cases.service).
  reflexivity.
Defined.

(** X17. Once a service is stored, a [cluster_ssh] scope whose body leaves the
    stored service alone leaves it stored as well, however the scope ends, and
    makes neither a lookup nor a creation request. *)
Theorem cluster_ssh_keeps_stored_service
    (env : Env) (self : ContainerServiceHelper) {A} (body : Popen -> M A)
    (w : World) (cs : ContainerService) :
  (forall proc, keeps (cache_holds cs) (body proc)) ->
  _container_service w = Some cs ->
  _container_service (snd (cluster_ssh env self body w)) = Some cs /\
  count is_get (trace (snd (cluster_ssh env self body w))) = count is_get (trace w) /\
  count is_create (trace (snd (cluster_ssh env self body w)))
    = count is_create (trace w).
Proof.
  intros Hbody.
  destruct (cluster_ssh env self body w) as [r w'] eqn:H.
  cbn [snd]. revert H.
  apply (workflow_cluster_ssh env self (cache_holds cs)
           (cache_holds_refl cs) (cache_holds_trans cs) (cache_holds_log cs)
           (cache_holds_service env self cs)); auto; intros p w0 Hw0; auto.
Qed.

Lemma cluster_ssh_keeps_stored_service_witness :
  _container_service
    (snd (cluster_ssh Cases.existing Scenario.helper Scenario.failing_body
            Cases.provisioned)) = Some Cases.service /\
  count is_get
    (trace (snd (cluster_ssh Cases.existing Scenario.helper Scenario.failing_body
                   Cases.provisioned))) = count is_get (trace Cases.provisioned) /\
  count is_create
    (trace (snd (cluster_ssh Cases.existing Scenario.helper Scenario.failing_body
                   Cases.provisioned))) = count is_create (trace Cases.provisioned).
Proof.
  apply (cluster_ssh_keeps_stored_service Cases.existing Scenario.helper
           Scenario.failing_body Cases.provisioned Cases.service).
  - intros proc w r w' H Hw. injection H as <- <-. auto.
  - reflexivity.
Defined.

(** *** A service that exists is never created *)

Section Existing.

Variable env : Env.
Variable self : ContainerServiceHelper.
Variable cs : ContainerService.
Variable lookups creations : nat.
Hypothesis Hlookup :
  container_services_get env lookups
    (group_name (group (resources self))) (name self) = Returns cs.

Local Abbreviation settled := (stays_settled cs lookups creations).

Lemma settled_service : keeps settled (container_service env self).
Proof.
  intros w r w' H [Hc [[Hs Hg]|[Hn Hg]]].
  - rewrite (container_service_cached env self w cs Hs) in H.
    injection H as <- <-. split; [|left; split].
    + now rewrite count_log_other.
    + exact Hs.
    + now rewrite count_log_other.
  - unfold container_service, bind, Haikunator_haikunate in H. simpl in H.
    rewrite Hn in H.
    unfold fetch_or_create, try_except, bind, container_ops_get in H.
    simpl in H. rewrite count_snoc_other, Hg, Hlookup in H by reflexivity.
    simpl in H. injection H as <- <-.
    unfold found_or_pending, set__container_service, log.
    cbn [trace _container_service].
    split; [|left; split].
    + rewrite !count_snoc_other by reflexivity. exact Hc.
    + reflexivity.
    + rewrite count_snoc_same, count_snoc_other by reflexivity. now rewrite Hg.
Qed.

Lemma settled_deploy_container (fuel : nat)
    (registry : option ContainerRegistryHelper) :
  keeps settled (deploy_container env self fuel registry).
Proof.
  apply (workflow_deploy_container env self settled); unfold stays_settled; auto.
  - intros e w He [Hc H]. destruct (not_provisioning_not_get e He) as [Hg Hcr].
    split; [now rewrite count_log_other|].
    rewrite count_log_other by exact Hg. exact H.
  - apply settled_service.
Qed.

End Existing.

(** X18. When the lookup finds the service, [deploy_container] makes no creation
    request at all, however it goes on and however it ends, and it looks the
    service up only that once. *)
Theorem deploy_container_never_creates_existing
    (env : Env) (self : ContainerServiceHelper) (fuel : nat)
    (registry : option ContainerRegistryHelper) (w : World)
    (cs : ContainerService) :
  _container_service w = None ->
  container_services_get env (count is_get (trace w))
    (group_name (group (resources self))) (name self) = Returns cs ->
  count is_create (trace (snd (deploy_container env self fuel registry w)))
    = count is_create (trace w) /\
  (count is_get (trace (snd (deploy_container env self fuel registry w)))
     <= S (count is_get (trace w)))%nat.
Proof.
  intros Hcache Hlookup.
  destruct (deploy_container env self fuel registry w) as [r w'] eqn:H.
  cbn [snd].
  apply (settled_deploy_container env self cs (count is_get (trace w))
           (count is_create (trace w)) Hlookup) in H.
  destruct H as [Hc [[_ Hg]|[_ Hg]]].
  - split; [reflexivity | right; auto].
  - split; [exact Hc | lia].
  - split; [exact Hc | lia].
Qed.

Lemma deploy_container_never_creates_existing_witness :
  count is_create
    (trace (snd (deploy_container Cases.existing Scenario.helper 3 None fresh)))
    = count is_create (trace fresh) /\
  (count is_get
     (trace (snd (deploy_container Cases.existing Scenario.helper 3 None fresh)))
   <= S (count is_get (trace fresh)))%nat.
Proof.
  apply (deploy_container_never_creates_existing Cases.existing Scenario.helper
           3 None fresh Cases.service); reflexivity.
Defined.

(** *** Tunnels and subprocesses do not mix *)

(** X19. [deploy_container] never starts and never terminates a subprocess: the
    running processes are the same after the call as before. *)
Theorem deploy_container_leaves_subprocesses
    (env : Env) (self : ContainerServiceHelper) (fuel : nat)
    (registry : option ContainerRegistryHelper) (w : World) :
  running (snd (deploy_container env self fuel registry w)) = running w.
Proof.
  destruct (deploy_container env self fuel registry w) as [r w'] eqn:H.
  cbn [snd]. change (same_running w w'). revert H.
  apply (workflow_deploy_container env self same_running);
    unfold same_running; try reflexivity; try congruence.
  apply (keeps_container_service env self same_running);
    unfold same_running; try reflexivity; congruence.
Qed.

(** X20. A [cluster_ssh] scope opens and closes no tunnel of its own: with a body
    that leaves the tunnels alone, as many are open after the scope as
    before. *)
Theorem cluster_ssh_leaves_tunnels
    (env : Env) (self : ContainerServiceHelper) {A} (body : Popen -> M A)
    (w : World) :
  (forall proc, keeps same_tunnels (body proc)) ->
  open_tunnels (snd (cluster_ssh env self body w)) = open_tunnels w.
Proof.
  intros Hbody.
  destruct (cluster_ssh env self body w) as [r w'] eqn:H.
  cbn [snd]. change (same_tunnels w w'). revert H.
  apply (workflow_cluster_ssh env self same_tunnels
           same_tunnels_refl same_tunnels_trans); try reflexivity; [|exact Hbody].
  apply (keeps_container_service env self same_tunnels
           same_tunnels_refl same_tunnels_trans); reflexivity.
Qed.

Lemma cluster_ssh_leaves_tunnels_witness :
  open_tunnels
    (snd (cluster_ssh Cases.first_time Scenario.helper Scenario.quiet_body fresh))
    = open_tunnels fresh.
Proof.
  apply (cluster_ssh_leaves_tunnels Cases.first_time Scenario.helper
           Scenario.quiet_body fresh).
  intros proc w r w' H. injection H as <- <-. reflexivity.
Defined.
